(** * start-test-server.py: a static file server with CORS headers

    A shallow embedding of [test3/start-test-server.py] and of the parts of
    the CPython 3.11 standard library it runs on ([posixpath],
    [socketserver.TCPServer], [http.server.BaseHTTPRequestHandler] and
    [http.server.SimpleHTTPRequestHandler], which the script subclasses).

    Conventions.
    - A Python [str] of characters below U+0100 and a Python [bytes] value
      are both a Rocq [string] (a sequence of 8-bit characters); the request
      line is decoded as iso-8859-1 by the library, so that every request has
      this form.
    - The process is a state-passing program over [pstate] (current working
      directory and the trace of observable events) with Python's exceptions
      as a third outcome next to normal return; what the operating system and
      the network decide is read from a [world].
    - A request handler instance is a record [handler] of the attributes the
      library mutates; its methods are state-passing programs over it.
    - Library functions whose results no property below depends on (MIME type
      guessing, date formatting, [repr], the HTML of error pages and
      directory listings, URL splitting, percent-decoding to characters that
      a string here cannot hold) are the fields of a class [Lib].
    - The file system is what the kernel makes of a path, symbolic links
      followed, together with the canonical path of what a path names.
    - [print], [os.chdir] and [os.getcwd] succeed; what the library logs goes
      to [sys.stderr] and is left out. The library sources followed are
      [Lib/posixpath.py], [Lib/socketserver.py], [Lib/http/server.py] and
      [Lib/urllib/parse.py]. *)

From Stdlib Require Import String Ascii List ZArith Lia Bool DecimalString.
Import ListNotations.

Local Open Scope list_scope.
Local Open Scope string_scope.

(** ** Python string operations *)

Module Py.

Definition nl : string := String (ascii_of_nat 10) EmptyString.
Definition crlf : string :=
  String (ascii_of_nat 13) (String (ascii_of_nat 10) EmptyString).

Definition nonempty (s : string) : bool :=
  match s with EmptyString => false | String _ _ => true end.

(** [s.startswith(p)] *)
Fixpoint startswith (s p : string) {struct p} : bool :=
  match p with
  | EmptyString => true
  | String a p' =>
      match s with
      | EmptyString => false
      | String b s' => Ascii.eqb a b && startswith s' p'
      end
  end.

(** [s.endswith(c)] for a one-character [c] *)
Fixpoint endswith_char (s : string) (c : ascii) : bool :=
  match s with
  | EmptyString => false
  | String a EmptyString => Ascii.eqb a c
  | String _ r => endswith_char r c
  end.

(** [c in s] for a one-character [c] *)
Fixpoint contains (s : string) (c : ascii) : bool :=
  match s with
  | EmptyString => false
  | String a r => Ascii.eqb a c || contains r c
  end.

(** Cut [s] at every character that satisfies [p]; the result is never
    empty ([str.split(sep)] for a one-character separator). *)
Fixpoint split_by (p : ascii -> bool) (s : string) : list string :=
  match s with
  | EmptyString => [EmptyString]
  | String c r =>
      if p c then EmptyString :: split_by p r
      else match split_by p r with
           | w :: ws => String c w :: ws
           | [] => [String c EmptyString]
           end
  end.

(** [s.split(sep)] *)
Definition split (s : string) (sep : ascii) : list string :=
  split_by (Ascii.eqb sep) s.

(** [s.split(sep, 1)[0]] *)
Fixpoint before (s : string) (sep : ascii) : string :=
  match s with
  | EmptyString => EmptyString
  | String c r => if Ascii.eqb c sep then EmptyString else String c (before r sep)
  end.

(** [sep.join(l)] *)
Fixpoint join (sep : string) (l : list string) : string :=
  match l with
  | [] => EmptyString
  | [w] => w
  | w :: ws => w ++ sep ++ join sep ws
  end.

(** Characters below U+0100 for which [str.isspace] holds. *)
Definition is_space (c : ascii) : bool :=
  let n := nat_of_ascii c in
  ((9 <=? n) && (n <=? 13) || (28 <=? n) && (n <=? 32)
   || (n =? 133) || (n =? 160))%nat.

(** [s.split()] *)
Definition split_ws (s : string) : list string :=
  filter nonempty (split_by is_space s).

Fixpoint rstrip_by (p : ascii -> bool) (s : string) : string :=
  match s with
  | EmptyString => EmptyString
  | String c r =>
      match rstrip_by p r with
      | EmptyString => if p c then EmptyString else String c EmptyString
      | r' => String c r'
      end
  end.

Fixpoint lstrip_by (p : ascii -> bool) (s : string) : string :=
  match s with
  | EmptyString => EmptyString
  | String c r => if p c then lstrip_by p r else s
  end.

(** [s.rstrip()] *)
Definition rstrip (s : string) : string := rstrip_by is_space s.

(** [s.rstrip(chars)] *)
Definition rstrip_chars (s chars : string) : string :=
  rstrip_by (contains chars) s.

(** [s.lstrip(chars)] *)
Definition lstrip_chars (s chars : string) : string :=
  lstrip_by (contains chars) s.

Definition lower_char (c : ascii) : ascii :=
  let n := nat_of_ascii c in
  if ((65 <=? n) && (n <=? 90))%nat then ascii_of_nat (n + 32) else c.

(** [s.lower()], on the ASCII letters: enough to compare with an ASCII
    literal, as no other character below U+0100 lowers to an ASCII letter. *)
Fixpoint lower (s : string) : string :=
  match s with
  | EmptyString => EmptyString
  | String c r => String (lower_char c) (lower r)
  end.

(** [a >= b] on strings *)
Definition str_ge (a b : string) : bool := String.leb b a.

(** [str(n)] for an integer *)
Definition str_of_Z (n : Z) : string := NilZero.string_of_int (Z.to_int n).

(** [int(s)] for a string without white space: an optional sign and decimal
    digits, single underscores allowed between digits, and no more digits
    than [sys.int_info.default_max_str_digits]; [None] stands for
    [ValueError]. *)
Definition max_str_digits : Z := 4300.

Definition digit_of (c : ascii) : option Z :=
  let n := nat_of_ascii c in
  if ((48 <=? n) && (n <=? 57))%nat then Some (Z.of_nat (n - 48)) else None.

(** [digits acc prev s]: [prev] tells whether the previous character was a
    digit. *)
Fixpoint digits (acc : Z) (prev : bool) (s : string) : option Z :=
  match s with
  | EmptyString => if prev then Some acc else None
  | String c r =>
      match digit_of c with
      | Some d => digits (10 * acc + d) true r
      | None =>
          if Ascii.eqb c "_" && prev then digits acc false r else None
      end
  end.

(** The number of digits in [s]. *)
Fixpoint count_digits (s : string) : nat :=
  match s with
  | EmptyString => 0
  | String c r =>
      match digit_of c with
      | Some _ => S (count_digits r)
      | None => count_digits r
      end
  end.

Definition int (s : string) : option Z :=
  if (max_str_digits <? Z.of_nat (count_digits s))%Z then None
  else
    match s with
    | String "+" r => digits 0 false r
    | String "-" r => option_map Z.opp (digits 0 false r)
    | _ => digits 0 false s
    end.

(** The value of a hexadecimal digit. *)
Definition hex_value (c : ascii) : option nat :=
  let n := nat_of_ascii c in
  if ((48 <=? n) && (n <=? 57))%nat then Some (n - 48)%nat
  else if ((65 <=? n) && (n <=? 70))%nat then Some (n - 55)%nat
  else if ((97 <=? n) && (n <=? 102))%nat then Some (n - 87)%nat
  else None.

(** The null character. *)
Definition nul : ascii := ascii_of_nat 0.

End Py.

(** ** [posixpath] *)

Module Posixpath.

Definition sep : ascii := "/".
Definition curdir : string := ".".
Definition pardir : string := "..".

(** [posixpath.isabs] *)
Definition isabs (s : string) : bool := Py.startswith s "/".

(** [posixpath.join(a, b)] *)
Definition join (a b : string) : string :=
  if Py.startswith b "/" then b
  else if negb (Py.nonempty a) || Py.endswith_char a sep then a ++ b
  else a ++ "/" ++ b.

(** [p[:p.rfind('/') + 1]] *)
Fixpoint upto_last_sep (p : string) : string :=
  match p with
  | EmptyString => EmptyString
  | String c r =>
      match upto_last_sep r with
      | EmptyString => if Ascii.eqb c sep then String c EmptyString else EmptyString
      | h => String c h
      end
  end.

Fixpoint all_sep (s : string) : bool :=
  match s with
  | EmptyString => true
  | String c r => Ascii.eqb c sep && all_sep r
  end.

(** [posixpath.dirname] *)
Definition dirname (p : string) : string :=
  let head := upto_last_sep p in
  if Py.nonempty head && negb (all_sep head) then Py.rstrip_chars head "/"
  else head.

(** One turn of the loop of [normpath]; [new_comps] is kept in reverse, its
    last element first. *)
Definition norm_step (initial_slashes : nat) (new_comps : list string)
    (comp : string) : list string :=
  if (comp =? EmptyString) || (comp =? curdir) then new_comps
  else if negb (comp =? pardir)
          || ((initial_slashes =? 0)%nat && match new_comps with [] => true | _ => false end)
          || match new_comps with last :: _ => last =? pardir | [] => false end
  then comp :: new_comps
  else match new_comps with
       | _ :: rest => rest
       | [] => new_comps
       end.

(** [posixpath.normpath] *)
Definition normpath (path : string) : string :=
  if path =? EmptyString then curdir
  else
    let initial_slashes :=
      if Py.startswith path "/" then
        if Py.startswith path "//" && negb (Py.startswith path "///")
        then 2%nat else 1%nat
      else 0%nat in
    let comps := Py.split path sep in
    let new_comps := fold_left (norm_step initial_slashes) comps [] in
    let path := Py.join "/" (rev new_comps) in
    let path :=
      match initial_slashes with
      | 0%nat => path
      | 1%nat => "/" ++ path
      | _ => "//" ++ path
      end in
    if Py.nonempty path then path else curdir.

(** [posixpath.abspath], with the current directory it reads made an
    argument. *)
Definition abspath (cwd path : string) : string :=
  normpath (if isabs path then path else join cwd path).

End Posixpath.

(** ** Exceptions and effects *)

(** The exception classes that the script names or that the library raises
    in the code below, with their base classes. *)
Inductive exc_class :=
| BaseException | KeyboardInterrupt | Exception
| OSError | PermissionError | FileNotFoundError | IsADirectoryError
| ValueError | UnicodeEncodeError | MemoryError | RuntimeError
| AttributeError.

Definition exc_class_eqb (a b : exc_class) : bool :=
  match a, b with
  | BaseException, BaseException | KeyboardInterrupt, KeyboardInterrupt
  | Exception, Exception | OSError, OSError
  | PermissionError, PermissionError | FileNotFoundError, FileNotFoundError
  | IsADirectoryError, IsADirectoryError
  | ValueError, ValueError | UnicodeEncodeError, UnicodeEncodeError
  | MemoryError, MemoryError | RuntimeError, RuntimeError
  | AttributeError, AttributeError => true
  | _, _ => false
  end.

Definition exc_base (c : exc_class) : option exc_class :=
  match c with
  | BaseException => None
  | KeyboardInterrupt | Exception => Some BaseException
  | OSError | ValueError | MemoryError | RuntimeError | AttributeError =>
      Some Exception
  | PermissionError | FileNotFoundError | IsADirectoryError => Some OSError
  | UnicodeEncodeError => Some ValueError
  end.

(** [issubclass(c, d)]; no chain of base classes is longer than three. *)
Fixpoint issubclass_upto (fuel : nat) (c d : exc_class) : bool :=
  exc_class_eqb c d ||
  match fuel, exc_base c with
  | S fuel', Some b => issubclass_upto fuel' b d
  | _, _ => false
  end.

Definition issubclass : exc_class -> exc_class -> bool := issubclass_upto 3.

(** An exception instance: its class, [e.errno] ([None] when the attribute is
    [None]) and the message. *)
Record exn := mk_exn {
  e_class : exc_class;
  e_errno : option Z;
  e_strerror : string
}.

(** [str(e)]: an [OSError] built from an [errno] prints it in brackets. *)
Definition str_exn (e : exn) : string :=
  match e_errno e with
  | Some n => "[Errno " ++ Py.str_of_Z n ++ "] " ++ e_strerror e
  | None => e_strerror e
  end.

(** A statement returns, raises, or blocks for ever (control never comes
    back, neither to a handler nor to a [with] exit). *)
Inductive outcome (A : Type) :=
| Return (a : A)
| Raise (e : exn)
| Block.
Arguments Return {A} a.
Arguments Raise {A} e.
Arguments Block {A}.

Module Eff.
Section Eff.
Context {S : Type}.

Definition M (A : Type) : Type := S -> outcome A * S.

Definition ret {A} (a : A) : M A := fun s => (Return a, s).

Definition bind {A B} (m : M A) (k : A -> M B) : M B :=
  fun s =>
    match m s with
    | (Return a, s') => k a s'
    | (Raise e, s') => (Raise e, s')
    | (Block, s') => (Block, s')
    end.

Definition raise {A} (e : exn) : M A := fun s => (Raise e, s).
Definition block {A} : M A := fun s => (Block, s).
Definition get : M S := fun s => (Return s, s).
Definition gets {A} (f : S -> A) : M A := fun s => (Return (f s), s).
Definition modify (f : S -> S) : M unit := fun s => (Return tt, f s).

(** [try: body / except cls as e: handler e], the clauses tried in
    order. *)
Fixpoint dispatch (clauses : list (exc_class * (exn -> M unit))) (e : exn)
  : M unit :=
  match clauses with
  | [] => raise e
  | (cls, handler) :: rest =>
      if issubclass (e_class e) cls then handler e else dispatch rest e
  end.

Definition try_except (body : M unit)
    (clauses : list (exc_class * (exn -> M unit))) : M unit :=
  fun s =>
    match body s with
    | (Raise e, s') => dispatch clauses e s'
    | r => r
    end.

(** [try: body / finally: final] *)
Definition try_finally {A} (body : M A) (final : M unit) : M A :=
  fun s =>
    match body s with
    | (Return a, s') => bind final (fun _ => ret a) s'
    | (Raise e, s') => bind final (fun _ => raise e) s'
    | (Block, s') => (Block, s')
    end.

(** [try: body / except: cleanup; raise] *)
Definition try_reraise {A} (body : M A) (cleanup : M unit) : M A :=
  fun s =>
    match body s with
    | (Raise e, s') => bind cleanup (fun _ => raise e) s'
    | r => r
    end.

Definition when (b : bool) (m : M unit) : M unit :=
  if b then m else ret tt.
End Eff.
Arguments M S A : clear implicits.
End Eff.

Declare Scope eff_scope.
Delimit Scope eff_scope with eff.
Notation "x <- c ;; k" := (Eff.bind c (fun x => k))
  (at level 61, c at next level, right associativity) : eff_scope.
Notation "c ;; k" := (Eff.bind c (fun _ => k))
  (at level 61, right associativity) : eff_scope.
Local Open Scope eff_scope.

(** ** The file system and the library functions left abstract *)

(** What a path names: a regular file (its bytes, its modification time in
    whole seconds, whether [open(path, 'rb')] succeeds) or a directory (the
    names [os.listdir] returns, [None] when it raises [OSError]). *)
Inductive node :=
| File (data : string) (mtime : Z) (readable : bool)
| Dir (listing : option (list string)).

(** The file system as the process sees it.
    - [lookup]: the kernel's path resolution, symbolic links followed;
      [None] when the path names nothing.
    - [realpath]: the canonical path of what a path names, the one without
      symbolic links that [os.getcwd] and [os.path.realpath] return.
    - A string with a null character is no path: it names nothing. *)
Record filesystem := mk_filesystem {
  lookup :> string -> option node;
  realpath : string -> string;
  lookup_nul : forall p, Py.contains p Py.nul = true -> lookup p = None
}.

(** The file system with the given names and canonical paths. *)
Definition filesystem_of (names : string -> option node)
    (canonical : string -> string) : filesystem :=
  mk_filesystem
    (fun p => if Py.contains p Py.nul then None else names p)
    canonical
    (fun p (Hp : Py.contains p Py.nul = true) =>
       eq_ind_r (x := true)
         (fun b : bool => (if b then None else names p) = None) eq_refl Hp).

(** [os.path.isdir], [os.path.isfile]: false too for a string that is no
    path, whose [ValueError] they catch. *)
Definition isdir (fs : filesystem) (p : string) : bool :=
  match fs p with Some (Dir _) => true | _ => false end.
Definition isfile (fs : filesystem) (p : string) : bool :=
  match fs p with Some (File _ _ _) => true | _ => false end.

(** A file object open for reading: its name, the bytes it yields and the
    [st_mtime] of [os.fstat]. *)
Record file_object := mk_file {
  f_name : string;
  f_data : string;
  f_mtime : Z
}.

(** What [open] gives: a file object, or the exception it raises. *)
Inductive opened :=
| Opened (f : file_object)
| NotOpened (e : exn).

(** [open(path, 'rb')]: a path with a null character is refused with
    [ValueError] before the kernel sees it; what the kernel refuses is an
    [OSError]. *)
Definition open_rb (fs : filesystem) (p : string) : opened :=
  if Py.contains p Py.nul then
    NotOpened (mk_exn ValueError None "embedded null byte")
  else
    match fs p with
    | Some (File data mtime true) => Opened (mk_file p data mtime)
    | Some (File _ _ false) =>
        NotOpened (mk_exn PermissionError (Some 13%Z) "Permission denied")
    | Some (Dir _) =>
        NotOpened (mk_exn IsADirectoryError (Some 21%Z) "Is a directory")
    | None =>
        NotOpened (mk_exn FileNotFoundError (Some 2%Z) "No such file or directory")
    end.

(** The result of [urllib.parse.urlsplit]. *)
Record url_parts := mk_url {
  u_scheme : string; u_netloc : string; u_path : string;
  u_query : string; u_fragment : string
}.

(** The library functions that stay abstract. *)
Class Lib := {
  (** [self.version_string()] *)
  version_string : string;
  (** [self.date_time_string(timestamp)], [None] for the current time *)
  date_time_string : option Z -> string;
  (** [self.guess_type(path)] *)
  guess_type : string -> string;
  (** [repr(s)] *)
  repr : string -> string;
  (** the page of [send_error], encoded: code, message, explanation *)
  error_body : Z -> string -> string -> string;
  (** the page of [list_directory], encoded: [self.path], the directory and
      the names in it *)
  listing_page : filesystem -> string -> string -> list string -> string;
  (** [sys.getfilesystemencoding()] *)
  filesystem_encoding : string;
  (** [urllib.parse.urlsplit], [None] for [ValueError] *)
  urlsplit : string -> option url_parts;
  (** [urllib.parse.urlunsplit] *)
  urlunsplit : url_parts -> string;
  (** [urllib.parse.unquote] as [translate_path] calls it, on a string whose
      escapes stand for characters from U+0100 on or are not UTF-8 *)
  unquote_escaped : string -> string;
  (** the seconds since the epoch that an [If-Modified-Since] value denotes,
      when [parsedate_to_datetime] accepts it and its time zone is absent or
      UTC; [None] otherwise *)
  parse_http_date : string -> option Z
}.

(** The bytes that [unquote_to_bytes] makes of the ASCII characters of a
    string, an escape of two hexadecimal digits giving one byte, between the
    characters from U+0080 on, which [unquote] leaves as they are. *)
Inductive piece :=
| Octet (n : nat)
| Plain (c : ascii).

Fixpoint unquote_pieces (s : string) : list piece :=
  match s with
  | EmptyString => []
  | String c r =>
      if Ascii.eqb c "%" then
        match r with
        | String a (String b r') =>
            match Py.hex_value a, Py.hex_value b with
            | Some x, Some y => Octet (16 * x + y) :: unquote_pieces r'
            | _, _ => Octet 37 :: unquote_pieces r
            end
        | _ => Octet 37 :: unquote_pieces r
        end
      else if (nat_of_ascii c <? 128)%nat then
        Octet (nat_of_ascii c) :: unquote_pieces r
      else Plain c :: unquote_pieces r
  end.

(** [bytes.decode('utf-8')] on each run of bytes, as far as the characters
    are below U+0100: a byte below 128, or one of the lead bytes [C2] and
    [C3] with a continuation byte. [None] for any other sequence. *)
Fixpoint decode_pieces (l : list piece) : option string :=
  match l with
  | [] => Some EmptyString
  | Plain c :: rest => option_map (String c) (decode_pieces rest)
  | Octet n :: rest =>
      if (n <? 128)%nat then
        option_map (String (ascii_of_nat n)) (decode_pieces rest)
      else if (n =? 194)%nat || (n =? 195)%nat then
        match rest with
        | Octet m :: rest' =>
            if (128 <=? m)%nat && (m <=? 191)%nat then
              option_map (String (ascii_of_nat ((n - 192) * 64 + (m - 128))))
                (decode_pieces rest')
            else None
        | _ => None
        end
      else None
  end.

(** [urllib.parse.unquote(path, errors='surrogatepass')] with its fall-back *)
Definition unquote {L : Lib} (s : string) : string :=
  if Py.contains s "%" then
    match decode_pieces (unquote_pieces s) with
    | Some decoded => decoded
    | None => unquote_escaped s
    end
  else s.

(** ** [http.server]: the handler classes *)

(** What is written to the connection, tagged by its writer: the header
    block that [flush_headers] sends, or bytes of a message body. *)
Inductive chunk :=
| HeaderBlock (bytes : string)
| Body (bytes : string).

(** The headers of a request as [http.client.parse_headers] returns them, or
    the exception it raises. *)
Inductive parsed_headers :=
| Headers (fields : list (string * string))
| LineTooLong (err : string)
| TooManyHeaders (err : string).

(** One request as it is read from the connection. *)
Record request := mk_request {
  raw_requestline : string;
  header_lines : parsed_headers
}.

(** The attributes of a request handler instance. *)
Record handler := mk_handler {
  directory : string;
  requestline : string;
  command : option string;
  path : string;
  request_version : string;
  headers : list (string * string);
  close_connection : bool;
  headers_buffer : option (list string);
  wfile : list chunk
}.

Definition set_requestline v h :=
  mk_handler (directory h) v (command h) (path h) (request_version h)
    (headers h) (close_connection h) (headers_buffer h) (wfile h).
Definition set_command v h :=
  mk_handler (directory h) (requestline h) v (path h) (request_version h)
    (headers h) (close_connection h) (headers_buffer h) (wfile h).
Definition set_path v h :=
  mk_handler (directory h) (requestline h) (command h) v (request_version h)
    (headers h) (close_connection h) (headers_buffer h) (wfile h).
Definition set_request_version v h :=
  mk_handler (directory h) (requestline h) (command h) (path h) v
    (headers h) (close_connection h) (headers_buffer h) (wfile h).
Definition set_headers v h :=
  mk_handler (directory h) (requestline h) (command h) (path h)
    (request_version h) v (close_connection h) (headers_buffer h) (wfile h).
Definition set_close_connection v h :=
  mk_handler (directory h) (requestline h) (command h) (path h)
    (request_version h) (headers h) v (headers_buffer h) (wfile h).
Definition set_headers_buffer v h :=
  mk_handler (directory h) (requestline h) (command h) (path h)
    (request_version h) (headers h) (close_connection h) v (wfile h).
Definition set_wfile v h :=
  mk_handler (directory h) (requestline h) (command h) (path h)
    (request_version h) (headers h) (close_connection h) (headers_buffer h) v.

(** Methods of a handler. *)
Definition H (A : Type) : Type := Eff.M handler A.

(** [self.wfile.write(b)] *)
Definition wfile_write (c : chunk) : H unit :=
  Eff.modify (fun h => set_wfile (wfile h ++ [c]) h).

(** [name in self.headers] and [self.headers.get(name, default)]: field
    names compare without case. *)
Fixpoint headers_find (fields : list (string * string)) (name : string)
  : option string :=
  match fields with
  | [] => None
  | (k, v) :: rest =>
      if Py.lower k =? Py.lower name then Some v else headers_find rest name
  end.

Definition headers_get (fields : list (string * string)) (name default : string)
  : string :=
  match headers_find fields name with Some v => v | None => default end.

Definition headers_has (fields : list (string * string)) (name : string) : bool :=
  match headers_find fields name with Some _ => true | None => false end.

(** The entries of [BaseHTTPRequestHandler.responses] for the status codes
    that these classes send. *)
Definition responses (code : Z) : option (string * string) :=
  match code with
  | 100 => Some ("Continue", "Request received, please continue")
  | 200 => Some ("OK", "Request fulfilled, document follows")
  | 301 => Some ("Moved Permanently", "Object moved permanently -- see URI list")
  | 304 => Some ("Not Modified", "Document has not changed since given time")
  | 400 => Some ("Bad Request", "Bad request syntax or unsupported method")
  | 404 => Some ("Not Found", "Nothing matches the given URI")
  | 414 => Some ("Request-URI Too Long", "URI is too long")
  | 431 => Some ("Request Header Fields Too Large",
                 "The server is unwilling to process the request because its header fields are too large")
  | 501 => Some ("Not Implemented", "Server does not support this operation")
  | 505 => Some ("HTTP Version Not Supported", "Cannot fulfill request")
  | _ => None
  end%Z.

Module BaseHTTPRequestHandler.

Definition default_request_version : string := "HTTP/0.9".
Definition protocol_version : string := "HTTP/1.0".
Definition error_content_type : string := "text/html;charset=utf-8".

(** [self._headers_buffer.append(line)], the attribute created when the
    instance does not have it *)
Definition buffer_append (line : string) (h : handler) : handler :=
  set_headers_buffer
    (Some (match headers_buffer h with Some b => b | None => [] end ++ [line])%list) h.

(** [send_response_only]: the status line goes to the headers buffer,
    unless the request is an HTTP/0.9 one. *)
Definition send_response_only (code : Z) (message : option string) : H unit :=
  Eff.modify (fun h =>
    if negb (request_version h =? "HTTP/0.9") then
      let message :=
        match message with
        | Some m => m
        | None => match responses code with
                  | Some (short, _) => short
                  | None => EmptyString
                  end
        end in
      buffer_append
        (protocol_version ++ " " ++ Py.str_of_Z code ++ " " ++ message ++ Py.crlf) h
    else h).

(** [send_header] *)
Definition send_header (keyword value : string) : H unit :=
  Eff.modify (fun h =>
    let h :=
      if negb (request_version h =? "HTTP/0.9") then
        buffer_append (keyword ++ ": " ++ value ++ Py.crlf) h
      else h in
    if Py.lower keyword =? "connection" then
      if Py.lower value =? "close" then set_close_connection true h
      else if Py.lower value =? "keep-alive" then set_close_connection false h
      else h
    else h).

(** [flush_headers] *)
Definition flush_headers : H unit :=
  Eff.modify (fun h =>
    match headers_buffer h with
    | Some buffer =>
        set_headers_buffer (Some [])
          (set_wfile (wfile h ++ [HeaderBlock (String.concat EmptyString buffer)]) h)
    | None => h
    end).

(** [end_headers] of the base class; appending to a buffer that was never
    created is an [AttributeError]. *)
Definition end_headers : H unit :=
  h <- Eff.get ;;
  if negb (request_version h =? "HTTP/0.9") then
    match headers_buffer h with
    | Some _ => Eff.modify (buffer_append Py.crlf) ;; flush_headers
    | None => Eff.raise (mk_exn AttributeError None "_headers_buffer")
    end
  else Eff.ret tt.

Section Methods.
Context {L : Lib}.
(** [self.end_headers], which a subclass may override. *)
Variable self_end_headers : H unit.
(** [getattr(self, 'do_' + command)], [None] when the instance has no
    such method. *)
Variable self_do : string -> option (H unit).

(** [send_response] (the line it logs goes to [sys.stderr]) *)
Definition send_response (code : Z) (message : option string) : H unit :=
  send_response_only code message ;;
  send_header "Server" version_string ;;
  send_header "Date" (date_time_string None).

(** [send_error] *)
Definition send_error (code : Z) (message explain : option string) : H unit :=
  let '(shortmsg, longmsg) :=
    match responses code with
    | Some r => r
    | None => ("???", "???")
    end in
  let message := match message with Some m => m | None => shortmsg end in
  let explain := match explain with Some x => x | None => longmsg end in
  send_response code (Some message) ;;
  send_header "Connection" "close" ;;
  body <-
    (if (200 <=? code)%Z
        && negb ((code =? 204)%Z || (code =? 205)%Z || (code =? 304)%Z)
     then
       let body := error_body code message explain in
       send_header "Content-Type" error_content_type ;;
       send_header "Content-Length" (Py.str_of_Z (Z.of_nat (String.length body))) ;;
       Eff.ret (Some body)
     else Eff.ret None) ;;
  self_end_headers ;;
  h <- Eff.get ;;
  match body with
  | Some b =>
      if negb (match command h with Some c => c =? "HEAD" | None => false end)
         && Py.nonempty b
      then wfile_write (Body b)
      else Eff.ret tt
  | None => Eff.ret tt
  end.

(** [handle_expect_100] *)
Definition handle_expect_100 : H bool :=
  send_response_only 100 None ;;
  self_end_headers ;;
  Eff.ret true.

(** The version check of [parse_request]: the text after [HTTP/] and the
    two numbers, [None] for [ValueError] or [IndexError]. *)
Definition parse_version (version : string) : option (string * (Z * Z)) :=
  if negb (Py.startswith version "HTTP/") then None
  else
    let base_version_number := String.substring 5 (String.length version) version in
    match Py.split base_version_number "." with
    | [major; minor] =>
        match Py.int major, Py.int minor with
        | Some a, Some b => Some (base_version_number, (a, b))
        | _, _ => None
        end
    | _ => None
    end.

(** [(a, b) >= (c, d)] on pairs of integers *)
Definition pair_ge (v w : Z * Z) : bool :=
  ((fst w <? fst v) || ((fst v =? fst w) && (snd w <=? snd v)))%Z.

(** [parse_request], the block under [if len(words) >= 3]; [false] when
    an error response was sent. *)
Definition parse_request_version (words : list string) : H bool :=
  if (3 <=? List.length words)%nat then
    let version := List.last words EmptyString in
    match parse_version version with
    | None =>
        send_error 400 (Some ("Bad request version (" ++ repr version ++ ")")) None ;;
        Eff.ret false
    | Some (base_version_number, version_number) =>
        Eff.when (pair_ge version_number (1, 1)%Z
                  && Py.str_ge protocol_version "HTTP/1.1")
          (Eff.modify (set_close_connection false)) ;;
        if pair_ge version_number (2, 0)%Z then
          send_error 505
            (Some ("Invalid HTTP version (" ++ base_version_number ++ ")")) None ;;
          Eff.ret false
        else
          Eff.modify (set_request_version version) ;;
          Eff.ret true
    end
  else Eff.ret true.

(** [parse_request], from [http.client.parse_headers] on. *)
Definition parse_request_headers (rq : request) : H bool :=
  match header_lines rq with
  | LineTooLong err =>
      send_error 431 (Some "Line too long") (Some err) ;; Eff.ret false
  | TooManyHeaders err =>
      send_error 431 (Some "Too many headers") (Some err) ;; Eff.ret false
  | Headers fields =>
      Eff.modify (set_headers fields) ;;
      let conntype := headers_get fields "Connection" EmptyString in
      (if Py.lower conntype =? "close" then
         Eff.modify (set_close_connection true)
       else if (Py.lower conntype =? "keep-alive")
               && Py.str_ge protocol_version "HTTP/1.1" then
         Eff.modify (set_close_connection false)
       else Eff.ret tt) ;;
      let expect := headers_get fields "Expect" EmptyString in
      h <- Eff.get ;;
      if (Py.lower expect =? "100-continue")
         && Py.str_ge protocol_version "HTTP/1.1"
         && Py.str_ge (request_version h) "HTTP/1.1"
      then handle_expect_100
      else Eff.ret true
  end.

(** [parse_request] *)
Definition parse_request (rq : request) : H bool :=
  Eff.modify (set_command None) ;;
  Eff.modify (set_request_version default_request_version) ;;
  Eff.modify (set_close_connection true) ;;
  let requestline := Py.rstrip_chars (raw_requestline rq) Py.crlf in
  Eff.modify (set_requestline requestline) ;;
  let words := Py.split_ws requestline in
  let n := List.length words in
  if (n =? 0)%nat then Eff.ret false
  else
    ok <- parse_request_version words ;;
    if negb ok then Eff.ret false
    else if negb ((2 <=? n)%nat && (n <=? 3)%nat) then
      send_error 400
        (Some ("Bad request syntax (" ++ repr requestline ++ ")")) None ;;
      Eff.ret false
    else
      let command := List.nth 0 words EmptyString in
      let path := List.nth 1 words EmptyString in
      ok <-
        (if (n =? 2)%nat then
           Eff.modify (set_close_connection true) ;;
           if negb (command =? "GET") then
             send_error 400
               (Some ("Bad HTTP/0.9 request type (" ++ repr command ++ ")")) None ;;
             Eff.ret false
           else Eff.ret true
         else Eff.ret true) ;;
      if negb ok then Eff.ret false
      else
        Eff.modify (set_command (Some command)) ;;
        Eff.modify (set_path path) ;;
        Eff.when (Py.startswith path "//")
          (Eff.modify (set_path ("/" ++ Py.lstrip_chars path "/"))) ;;
        parse_request_headers rq.

(** [handle_one_request], on the request that [rfile] yields; an empty
    line is the end of the stream. *)
Definition handle_one_request (rq : request) : H unit :=
  if (65536 <? Z.of_nat (String.length (raw_requestline rq)))%Z then
    Eff.modify (set_requestline EmptyString) ;;
    Eff.modify (set_request_version EmptyString) ;;
    Eff.modify (set_command (Some EmptyString)) ;;
    send_error 414 None None
  else if negb (Py.nonempty (raw_requestline rq)) then
    Eff.modify (set_close_connection true)
  else
    ok <- parse_request rq ;;
    if negb ok then Eff.ret tt
    else
      h <- Eff.get ;;
      let command := match command h with Some c => c | None => EmptyString end in
      match self_do command with
      | None =>
          send_error 501
            (Some ("Unsupported method (" ++ repr command ++ ")")) None
      | Some method => method
      end.

(** The end of the stream, as [handle_one_request] reads it. *)
Definition eof : request := mk_request EmptyString (Headers []).

(** [while not self.close_connection: self.handle_one_request()] *)
Fixpoint handle_loop (rfile : list request) : H unit :=
  h <- Eff.get ;;
  if close_connection h then Eff.ret tt
  else
    match rfile with
    | [] => handle_one_request eof
    | rq :: rest => handle_one_request rq ;; handle_loop rest
    end.

(** [handle] *)
Definition handle (rfile : list request) : H unit :=
  Eff.modify (set_close_connection true) ;;
  match rfile with
  | [] => handle_one_request eof
  | rq :: rest => handle_one_request rq ;; handle_loop rest
  end.

End Methods.

End BaseHTTPRequestHandler.

(** What [send_head] returns for the caller to copy: a file opened from the
    file system, or the [io.BytesIO] of a directory listing. *)
Inductive stream :=
| FileStream (f : file_object)
| BytesIO (data : string).

Definition stream_data (s : stream) : string :=
  match s with
  | FileStream f => f_data f
  | BytesIO data => data
  end.

Module SimpleHTTPRequestHandler.
Import BaseHTTPRequestHandler.

Section Methods.
Context {L : Lib}.
Variable fs : filesystem.
Variable self_end_headers : H unit.

(** [self.path] *)
Definition self_path (h : handler) : string := path h.

(** The body of the loop of [translate_path] over the words of the
    path. *)
Definition translate_step (path word : string) : string :=
  if Py.nonempty (Posixpath.dirname word)
     || (word =? Posixpath.curdir) || (word =? Posixpath.pardir)
  then path
  else Posixpath.join path word.

(** [translate_path], with [self.directory] as an argument *)
Definition translate_path (directory path : string) : string :=
  let path := Py.before path "?" in
  let path := Py.before path "#" in
  let trailing_slash := Py.endswith_char (Py.rstrip path) "/" in
  let path := unquote path in
  let path := Posixpath.normpath path in
  let words := Py.split path "/" in
  let words := filter Py.nonempty words in
  let path := fold_left translate_step words directory in
  if trailing_slash then path ++ "/" else path.

(** [list_directory] *)
Definition list_directory (path : string) : H (option stream) :=
  match fs path with
  | Some (Dir (Some list)) =>
      h <- Eff.get ;;
      let encoded := listing_page fs (self_path h) path list in
      send_response 200 None ;;
      send_header "Content-type" ("text/html; charset=" ++ filesystem_encoding) ;;
      send_header "Content-Length" (Py.str_of_Z (Z.of_nat (String.length encoded))) ;;
      self_end_headers ;;
      Eff.ret (Some (BytesIO encoded))
  | _ =>
      send_error self_end_headers 404 (Some "No permission to list directory") None ;;
      Eff.ret None
  end.

(** [send_head], from [ctype = self.guess_type(path)] on *)
Definition send_head_file (path : string) : H (option stream) :=
  let ctype := guess_type path in
  if Py.endswith_char path "/" then
    send_error self_end_headers 404 (Some "File not found") None ;;
    Eff.ret None
  else
    match open_rb fs path with
    | NotOpened e =>
        if issubclass (e_class e) OSError then
          send_error self_end_headers 404 (Some "File not found") None ;;
          Eff.ret None
        else Eff.raise e
    | Opened f =>
        h <- Eff.get ;;
        if headers_has (headers h) "If-Modified-Since"
           && negb (headers_has (headers h) "If-None-Match")
           && match parse_http_date
                      (headers_get (headers h) "If-Modified-Since" EmptyString) with
              | Some ims => (f_mtime f <=? ims)%Z
              | None => false
              end
        then
          send_response 304 None ;;
          self_end_headers ;;
          Eff.ret None
        else
          send_response 200 None ;;
          send_header "Content-type" ctype ;;
          send_header "Content-Length"
            (Py.str_of_Z (Z.of_nat (String.length (f_data f)))) ;;
          send_header "Last-Modified" (date_time_string (Some (f_mtime f))) ;;
          self_end_headers ;;
          Eff.ret (Some (FileStream f))
    end.

(** [send_head] *)
Definition send_head : H (option stream) :=
  h <- Eff.get ;;
  let path := translate_path (directory h) (self_path h) in
  if isdir fs path then
    match urlsplit (self_path h) with
    | None => Eff.raise (mk_exn ValueError None "urlsplit")
    | Some parts =>
        if negb (Py.endswith_char (u_path parts) "/") then
          send_response 301 None ;;
          let new_url :=
            urlunsplit (mk_url (u_scheme parts) (u_netloc parts)
                          (u_path parts ++ "/") (u_query parts) (u_fragment parts)) in
          send_header "Location" new_url ;;
          send_header "Content-Length" "0" ;;
          self_end_headers ;;
          Eff.ret None
        else if isfile fs (Posixpath.join path "index.html") then
          send_head_file (Posixpath.join path "index.html")
        else if isfile fs (Posixpath.join path "index.htm") then
          send_head_file (Posixpath.join path "index.htm")
        else list_directory path
    end
  else send_head_file path.

(** [copyfile] to [self.wfile]: [shutil.copyfileobj] writes what it
    reads, and nothing for an empty source. *)
Definition copyfile (source : stream) : H unit :=
  if Py.nonempty (stream_data source) then wfile_write (Body (stream_data source))
  else Eff.ret tt.

(** [do_GET] *)
Definition do_GET : H unit :=
  f <- send_head ;;
  match f with
  | Some f => copyfile f
  | None => Eff.ret tt
  end.

(** [do_HEAD] *)
Definition do_HEAD : H unit :=
  f <- send_head ;;
  Eff.ret tt.

(** [getattr(self, 'do_' + command)] *)
Definition self_do (command : string) : option (H unit) :=
  if command =? "GET" then Some do_GET
  else if command =? "HEAD" then Some do_HEAD
  else None.

End Methods.

End SimpleHTTPRequestHandler.

(** ** The script: [start-test-server.py] *)

Definition PORT : Z := 8000.

Module MyHTTPRequestHandler.

(** [end_headers], lines 17 to 22: the three CORS headers, then the
    method of the base class. *)
Definition end_headers : H unit :=
  BaseHTTPRequestHandler.send_header "Access-Control-Allow-Origin" "*" ;;
  BaseHTTPRequestHandler.send_header "Access-Control-Allow-Methods" "GET, POST, OPTIONS" ;;
  BaseHTTPRequestHandler.send_header "Access-Control-Allow-Headers" "Content-Type" ;;
  BaseHTTPRequestHandler.end_headers.

Section Inherited.
Context {L : Lib}.
Variable fs : filesystem.

(** The inherited methods, with [self.end_headers] bound to the
    override. *)
Definition send_error := BaseHTTPRequestHandler.send_error end_headers.
Definition translate_path := SimpleHTTPRequestHandler.translate_path.
Definition send_head := SimpleHTTPRequestHandler.send_head fs end_headers.
Definition do_GET := SimpleHTTPRequestHandler.do_GET fs end_headers.
Definition do_HEAD := SimpleHTTPRequestHandler.do_HEAD fs end_headers.
Definition self_do := SimpleHTTPRequestHandler.self_do fs end_headers.
Definition parse_request :=
  BaseHTTPRequestHandler.parse_request end_headers.
Definition handle_one_request :=
  BaseHTTPRequestHandler.handle_one_request end_headers self_do.
Definition handle := BaseHTTPRequestHandler.handle end_headers self_do.

(** [SimpleHTTPRequestHandler.__init__] sets [self.directory] to
    [os.getcwd()]; the other attributes are set before they are read. *)
Definition init (cwd : string) : handler :=
  mk_handler cwd EmptyString None EmptyString EmptyString [] true None [].

(** [finish_request]: a handler is made for the connection and handles
    it; an exception that leaves [handle] is reported on [sys.stderr] by
    [handle_error] and what was written stays written. *)
Definition finish_request (cwd : string) (rfile : list request) : list chunk :=
  wfile (snd (handle rfile (init cwd))).

End Inherited.

End MyHTTPRequestHandler.

(** ** The process *)

(** The platforms whose [errno] values are told apart below. *)
Inductive platform := Linux | Darwin | FreeBSD.

Module errno.
(** [errno.EADDRINUSE]: 98 on Linux, 48 on macOS and the BSDs. *)
Definition EADDRINUSE (p : platform) : Z :=
  match p with
  | Linux => 98
  | Darwin | FreeBSD => 48
  end.
End errno.

(** The local addresses a listening socket accepts connections on. For an
    [AF_INET] socket the host [''] stands for [INADDR_ANY]: every local
    interface. *)
Inductive interfaces := AllInterfaces | Interface (host : string).

Definition interfaces_of_host (host : string) : interfaces :=
  if host =? EmptyString then AllInterfaces else Interface host.

(** What the process does that can be observed from outside. *)
Inductive event :=
| Chdir (dir : string)
| Listening (on : interfaces) (port : Z)
| Printed (text : string)
| Response (out : list chunk)
| SocketClosed.

(** The state of the process: the current working directory, under its
    canonical path, and the events so far, oldest first. *)
Record pstate := mk_pstate {
  cwd : string;
  trace : list event
}.

(** What the process does not decide. *)
Record world := mk_world {
  w_platform : platform;
  (** [sys.argv] and [os.environ] *)
  w_argv : list string;
  w_environ : list (string * string);
  (** [__file__] and the working directory the interpreter starts in *)
  w_file : string;
  w_cwd : string;
  (** the ports on which another process listens *)
  w_busy_ports : list Z;
  (** the failure of [socket()], if it fails *)
  w_socket_fault : option exn;
  (** another failure of [bind()] or [listen()] than a port that is taken *)
  w_bind_fault : option exn;
  w_fs : filesystem;
  (** the connections accepted while serving, each with its requests *)
  w_connections : list (list request);
  (** the exception that ends [serve_forever], if one ever does *)
  w_stop : option exn
}.

Definition P (A : Type) : Type := Eff.M pstate A.

Definition emit (e : event) : P unit :=
  Eff.modify (fun s => mk_pstate (cwd s) (trace s ++ [e])).

(** [os.chdir], [os.getcwd], [print]: the kernel keeps the directory, and
    gives its canonical path when asked. *)
Definition chdir (fs : filesystem) (dir : string) : P unit :=
  Eff.modify (fun s => mk_pstate (realpath fs dir) (trace s)) ;; emit (Chdir dir).
Definition getcwd : P string := Eff.gets cwd.
Definition print (text : string) : P unit := emit (Printed text).

(** [sys.stdout]: the lines printed, in order. *)
Fixpoint stdout (t : list event) : list string :=
  match t with
  | [] => []
  | Printed text :: rest => text :: stdout rest
  | _ :: rest => stdout rest
  end.

Section Process.
Context {L : Lib}.
Variable w : world.

(** [server_close] *)
Definition server_close : P unit := emit SocketClosed.

(** [socket.socket(self.address_family, self.socket_type)] *)
Definition socket_socket : P unit :=
  match w_socket_fault w with
  | Some e => Eff.raise e
  | None => Eff.ret tt
  end.

(** [server_bind] and [server_activate] *)
Definition server_bind_activate (server_address : string * Z) : P unit :=
  let '(host, port) := server_address in
  if existsb (Z.eqb port) (w_busy_ports w) then
    Eff.raise (mk_exn OSError (Some (errno.EADDRINUSE (w_platform w)))
                 "Address already in use")
  else
    match w_bind_fault w with
    | Some e => Eff.raise e
    | None => emit (Listening (interfaces_of_host host) port)
    end.

(** [socketserver.TCPServer(server_address, RequestHandlerClass)]: the
    socket is made, outside the [try] statement; then it is bound and
    listens, or the constructor closes it and lets the exception
    through. *)
Definition TCPServer (server_address : string * Z) : P (string * Z) :=
  socket_socket ;;
  Eff.try_reraise (server_bind_activate server_address) server_close ;;
  Eff.ret server_address.

(** [with TCPServer(...) as httpd: body] *)
Definition with_TCPServer (server_address : string * Z)
    (body : string * Z -> P unit) : P unit :=
  httpd <- TCPServer server_address ;;
  Eff.try_finally (body httpd) server_close.

(** The loop of [serve_forever] over the connections that arrive. *)
Fixpoint serve (connections : list (list request)) : P unit :=
  match connections with
  | [] => Eff.ret tt
  | rfile :: rest =>
      directory <- getcwd ;;
      emit (Response (MyHTTPRequestHandler.finish_request (w_fs w) directory rfile)) ;;
      serve rest
  end.

(** [httpd.serve_forever()]: it leaves by an exception only. *)
Definition serve_forever (httpd : string * Z) : P unit :=
  serve (w_connections w) ;;
  match w_stop w with
  | Some e => Eff.raise e
  | None => Eff.block
  end.

(** [main], lines 24 to 45 *)
Definition main : P unit :=
  Eff.try_except
    (with_TCPServer (EmptyString, PORT) (fun httpd =>
       print "🚀 Test server started!" ;;
       (directory <- getcwd ;; print ("📁 Serving files from: " ++ directory)) ;;
       print ("🌐 Open your browser and go to: http://localhost:" ++ Py.str_of_Z PORT) ;;
       print ("📋 Test URL: http://localhost:" ++ Py.str_of_Z PORT ++ "/index.html") ;;
       print "⏹️  Press Ctrl+C to stop the server" ;;
       print (Py.nl ++ "✨ Features:") ;;
       print "   • Theme switcher to test different glass effects" ;;
       print "   • Interactive terminal and codex windows" ;;
       print "   • Draggable windows" ;;
       print "   • Safe testing environment (won't affect production)" ;;
       serve_forever httpd))
    [ (KeyboardInterrupt, fun _ =>
         print (Py.nl ++ "🛑 Server stopped"));
      (OSError, fun e =>
         if match e_errno e with Some n => (n =? 48)%Z | None => false end then
           print ("❌ Port " ++ Py.str_of_Z PORT ++ " is already in use!") ;;
           print "💡 Try a different port or stop the existing server"
         else
           print ("❌ Error: " ++ str_exn e)) ].

(** The module body, run under the name [name]: lines 11 and 12 change
    the directory, lines 47 and 48 call [main] when the file is the
    script. *)
Definition exec_module (name : string) : P unit :=
  directory <- getcwd ;;
  chdir (w_fs w) (Posixpath.dirname (Posixpath.abspath directory (w_file w))) ;;
  if name =? "__main__" then main else Eff.ret tt.

End Process.

(** How the interpreter ends: normal return is status 0, an exception that
    nobody caught is status 1 after its traceback; a process that blocks is
    still serving. *)
Inductive status := Exited (code : Z) | Serving.

Definition status_of {A} (r : outcome A) : status :=
  match r with
  | Return _ => Exited 0
  | Raise _ => Exited 1
  | Block => Serving
  end.

Definition start (w : world) : pstate := mk_pstate (w_cwd w) [].

(** [import] of the file under another name, and [python
    start-test-server.py]. *)
Definition run_as {L : Lib} (name : string) (w : world) : status * pstate :=
  let '(r, s) := exec_module w name (start w) in (status_of r, s).

Definition run {L : Lib} (w : world) : status * pstate := run_as "__main__" w.

(** ** An instance for the examples *)

Module Demo.

(** The one date of the examples, 1000 seconds after the epoch. *)
Definition date_1000 : string := "Thu, 01 Jan 1970 00:16:40 GMT".

(** Stand-ins for the abstract library functions: fixed or simplified
    texts, enough to run the handler. *)
#[export] Instance lib : Lib := {|
  version_string := "SimpleHTTP/0.6 Python/3.11.2";
  date_time_string := fun timestamp =>
    match timestamp with
    | Some 1000%Z => date_1000
    | _ => "Thu, 01 Jan 1970 00:00:00 GMT"
    end;
  guess_type := fun _ => "application/octet-stream";
  repr := fun s => "'" ++ s ++ "'";
  error_body := fun code message explain =>
    Py.str_of_Z code ++ " " ++ message ++ Py.nl ++ explain ++ Py.nl;
  listing_page := fun _ _ _ names => Py.join Py.nl names;
  filesystem_encoding := "utf-8";
  urlsplit := fun s =>
    Some (mk_url EmptyString EmptyString (Py.before (Py.before s "#") "?")
            EmptyString EmptyString);
  urlunsplit := u_path;
  unquote_escaped := fun s => s;
  parse_http_date := fun s => if s =? date_1000 then Some 1000%Z else None
|}.

(** A serving root [/srv/test3] with a page, a style sheet in a
    directory, and a file outside the root; no symbolic links. *)
Definition fs : filesystem :=
  filesystem_of
    (fun p =>
       if p =? "/srv/test3" then Some (Dir (Some ["css"; "index.html"]))
       else if p =? "/srv/test3/" then Some (Dir (Some ["css"; "index.html"]))
       else if p =? "/srv/test3/index.html" then Some (File "<h1>neuOS</h1>" 1000 true)
       else if p =? "/srv/test3/css" then Some (Dir (Some ["glass.css"]))
       else if p =? "/srv/test3/css/" then Some (Dir (Some ["glass.css"]))
       else if p =? "/srv/test3/css/glass.css" then Some (File "body{}" 2000 true)
       else if p =? "/srv/secret.txt" then Some (File "secret" 3000 true)
       else if p =? "/srv/test3/../secret.txt" then Some (File "secret" 3000 true)
       else None)
    (fun p => p).

Definition get (target : string) : request :=
  mk_request ("GET " ++ target ++ " HTTP/1.1" ++ Py.crlf) (Headers []).

Definition world_of (p : platform) (busy : list Z) (fault : option exn)
    (connections : list (list request)) (stop : option exn) : world :=
  mk_world p ["start-test-server.py"] [] "/srv/test3/start-test-server.py"
    "/home/dev" busy None fault fs connections stop.

Definition interrupt : exn := mk_exn KeyboardInterrupt None EmptyString.

End Demo.

(** ** Vocabulary of the statements about the process *)

Section ProcessVocabulary.
Context {L : Lib}.
Variable w : world.

(** The directory of the script, where line 12 goes. *)
Definition script_dir : string :=
  Posixpath.dirname (Posixpath.abspath (w_cwd w) (w_file w)).

(** What [os.getcwd()] returns once line 12 has run: the canonical path
    of that directory. *)
Definition served_dir : string := realpath (w_fs w) script_dir.

(** The state in which [main] is reached: line 12 has run. *)
Definition started : pstate := mk_pstate served_dir [Chdir script_dir].

(** [bind()] finds the port taken: there is a socket, and another process
    holds port 8000. *)
Definition port_busy : bool :=
  match w_socket_fault w with
  | Some _ => false
  | None => existsb (Z.eqb PORT) (w_busy_ports w)
  end.

Definition address_in_use : exn :=
  mk_exn OSError (Some (errno.EADDRINUSE (w_platform w))) "Address already in use".

(** The exception with which the constructor of line 26 fails, if it
    does. *)
Definition startup_error : option exn :=
  if port_busy then Some address_in_use
  else match w_socket_fault w with
       | Some e => Some e
       | None => w_bind_fault w
       end.

(** What the constructor does to the socket when it fails: it closes the
    socket that it made, and there is none when [socket()] failed. *)
Definition closing : list event :=
  match w_socket_fault w with
  | Some _ => []
  | None => [SocketClosed]
  end.

(** The banner of lines 27 to 36, for the served directory. *)
Definition banner (directory : string) : list string :=
  [ "🚀 Test server started!";
    "📁 Serving files from: " ++ directory;
    "🌐 Open your browser and go to: http://localhost:8000";
    "📋 Test URL: http://localhost:8000/index.html";
    "⏹️  Press Ctrl+C to stop the server";
    Py.nl ++ "✨ Features:";
    "   • Theme switcher to test different glass effects";
    "   • Interactive terminal and codex windows";
    "   • Draggable windows";
    "   • Safe testing environment (won't affect production)" ].

(** Lines 42 and 43, line 45 and line 39. *)
Definition targeted_diagnostic : list string :=
  [ "❌ Port 8000 is already in use!";
    "💡 Try a different port or stop the existing server" ].

Definition generic_message (e : exn) : list string :=
  [ "❌ Error: " ++ str_exn e ].

Definition shutdown_message : list string := [ Py.nl ++ "🛑 Server stopped" ].

(** The lines that the [except] clauses of [main] print for [e]; [None]
    when no clause takes it. *)
Definition handled (e : exn) : option (list string) :=
  if issubclass (e_class e) KeyboardInterrupt then Some shutdown_message
  else if issubclass (e_class e) OSError then
    Some (if match e_errno e with Some n => (n =? 48)%Z | None => false end
          then targeted_diagnostic else generic_message e)
  else None.

(** What the [except] clauses make of an exception [e] that leaves the
    [try] block in state [s]. *)
Definition after (e : exn) (s : pstate) : outcome unit * pstate :=
  match handled e with
  | Some lines => (Return tt, mk_pstate (cwd s) (trace s ++ map Printed lines))
  | None => (Raise e, s)
  end.

(** The responses to the connections of the world, served from
    [directory]. *)
Definition responses_of (directory : string) : list event :=
  map (fun rfile =>
         Response (MyHTTPRequestHandler.finish_request (w_fs w) directory rfile))
      (w_connections w).

(** The same world with other command-line arguments and another
    environment. *)
Definition with_inputs (argv : list string) (environ : list (string * string))
  : world :=
  mk_world (w_platform w) argv environ (w_file w) (w_cwd w) (w_busy_ports w)
    (w_socket_fault w) (w_bind_fault w) (w_fs w) (w_connections w) (w_stop w).

End ProcessVocabulary.

Definition is_chdir (e : event) : bool :=
  match e with Chdir _ => true | _ => false end.

(** Worlds of the examples. *)
Module Worlds.
Import Demo.

(** Port 8000 is taken by another process, on Linux and on macOS. *)
Definition linux_port_taken : world := world_of Linux [8000%Z] None [] None.
Definition macos_port_taken : world := world_of Darwin [8000%Z] None [] None.

(** The constructor fails for lack of memory. *)
Definition out_of_memory : exn := mk_exn MemoryError None "out of memory".

(** One request is served, then the user presses Ctrl+C. *)
Definition interrupted : world :=
  world_of Darwin [] None [[get "/index.html"]] (Some interrupt).
End Worlds.

(** ** Vocabulary of the statements about the handler *)

(** A plain name: not empty, not [.] or [..], and without a separator. *)
Definition plain_name (word : string) : bool :=
  Py.nonempty word
  && negb (word =? Posixpath.curdir) && negb (word =? Posixpath.pardir)
  && negb (Py.contains word "/").

(** The paths at or below [root]: those reached from it by joining plain
    names, a trailing separator allowed on the way. *)
Inductive within (root : string) : string -> Prop :=
| within_root : within root root
| within_join (p word : string) :
    within root p -> plain_name word = true ->
    within root (Posixpath.join p word)
| within_slash (p : string) :
    within root p -> within root (p ++ "/").

(** The three header lines of lines 19 to 21, as they are sent. *)
Definition cors_lines : list string :=
  [ "Access-Control-Allow-Origin: *" ++ Py.crlf;
    "Access-Control-Allow-Methods: GET, POST, OPTIONS" ++ Py.crlf;
    "Access-Control-Allow-Headers: Content-Type" ++ Py.crlf ].

(** A header block whose last lines are the three CORS headers, followed
    by the blank line that ends the block. *)
Definition ends_with_cors (block : string) : Prop :=
  exists before,
    block = before ++ String.concat EmptyString cors_lines ++ Py.crlf.

Definition cors_ok (c : chunk) : Prop :=
  match c with
  | HeaderBlock block => ends_with_cors block
  | Body _ => True
  end.

(** The lines in the headers buffer, none when the attribute is unset. *)
Definition buffered (h : handler) : list string :=
  match headers_buffer h with Some b => b | None => [] end.

(** A method keeps the output well-formed: if every header block written
    so far ends with the CORS headers, so does every one written when the
    method is done. *)
Definition keeps {A : Type} (m : H A) : Prop :=
  forall h, Forall cors_ok (wfile h) -> Forall cors_ok (wfile (snd (m h))).

(** Two states of a handler with the same request version, the same output
    and the same command. *)
Definition same_request (h h1 : handler) : Prop :=
  request_version h1 = request_version h /\ wfile h1 = wfile h
  /\ command h1 = command h.

(** A method that returns and writes nothing. *)
Definition quiet {A : Type} (m : H A) : Prop :=
  forall h, exists a h1, m h = (Return a, h1) /\ same_request h h1.

(** [all(q(c) for c in s)] *)
Fixpoint all_chars (q : ascii -> bool) (s : string) : bool :=
  match s with
  | EmptyString => true
  | String c r => q c && all_chars q r
  end.

(** The characters that stand for themselves in the path of a request
    line: no white space, no [?], [#] or [%]. *)
Definition url_char (c : ascii) : bool :=
  negb (Py.is_space c) && negb (Ascii.eqb c "?") && negb (Ascii.eqb c "#")
  && negb (Ascii.eqb c "%").

(** The characters of a request target made of such names: those of the
    names and the separator. *)
Definition target_char (c : ascii) : bool := url_char c || Ascii.eqb c "/".

(** A plain name made of such characters. *)
Definition url_plain (word : string) : bool :=
  plain_name word && all_chars url_char word.

(** The path below [root] that the names [words] lead to. *)
Definition descend (root : string) (words : list string) : string :=
  fold_left Posixpath.join words root.


(** The test of [send_head] that answers 304: the request has
    [If-Modified-Since] and no [If-None-Match], and its date is not before
    the modification time. *)
Definition not_modified {L : Lib} (fields : list (string * string)) (mtime : Z)
  : bool :=
  headers_has fields "If-Modified-Since"
  && negb (headers_has fields "If-None-Match")
  && match parse_http_date (headers_get fields "If-Modified-Since" EmptyString) with
     | Some ims => (mtime <=? ims)%Z
     | None => false
     end.

(** The reason phrase that [send_response_only] puts in the status line. *)
Definition reason (code : Z) (message : option string) : string :=
  match message with
  | Some m => m
  | None => match responses code with
            | Some (short, _) => short
            | None => EmptyString
            end
  end.

(** The header block of the 200 response for a file. *)
Definition ok_block {L : Lib} (name data : string) (mtime : Z) : string :=
  String.concat EmptyString
    ([ "HTTP/1.0 200 OK" ++ Py.crlf;
       "Server: " ++ version_string ++ Py.crlf;
       "Date: " ++ date_time_string None ++ Py.crlf;
       "Content-type: " ++ guess_type name ++ Py.crlf;
       "Content-Length: " ++ Py.str_of_Z (Z.of_nat (String.length data)) ++ Py.crlf;
       "Last-Modified: " ++ date_time_string (Some mtime) ++ Py.crlf ]
       ++ cors_lines ++ [Py.crlf]).

(** The bytes of the message bodies in an output. *)
Fixpoint body_bytes (out : list chunk) : string :=
  match out with
  | [] => EmptyString
  | Body b :: rest => b ++ body_bytes rest
  | HeaderBlock _ :: rest => body_bytes rest
  end.

(** A method only appends to the output and leaves the version of the
    request alone, however it ends. *)
Definition appends {A : Type} (m : H A) : Prop :=
  forall h r h',
    m h = (r, h') ->
    request_version h' = request_version h
    /\ exists rest, wfile h' = (wfile h ++ rest)%list.

(** On a request that is not an HTTP/0.9 one, what a method writes, if
    anything, starts with a header block. *)
Definition headed {A : Type} (m : H A) : Prop :=
  forall h r h',
    request_version h <> "HTTP/0.9" ->
    m h = (r, h') ->
    request_version h' = request_version h
    /\ (wfile h' = wfile h
        \/ exists block rest, wfile h' = (wfile h ++ HeaderBlock block :: rest)%list).

(** On such a request the method does write, a header block first. *)
Definition answers {A : Type} (m : H A) : Prop :=
  forall h r h',
    request_version h <> "HTTP/0.9" ->
    m h = (r, h') ->
    request_version h' = request_version h
    /\ exists block rest, wfile h' = (wfile h ++ HeaderBlock block :: rest)%list.

(** Where the bytes of a message body come from: a readable file whose
    path is [root] followed by plain names, the listing of a directory with
    such a path, or an error page. *)
Definition served_from {L : Lib} (fs : filesystem) (root body : string) : Prop :=
  (exists p mtime, within root p /\ fs p = Some (File body mtime true))
  \/ (exists target p names,
        within root p /\ fs p = Some (Dir (Some names))
        /\ body = listing_page fs target p names)
  \/ (exists code message explain, body = error_body code message explain).

Definition chunk_from {L : Lib} (fs : filesystem) (root : string) (c : chunk)
  : Prop :=
  match c with
  | Body body => served_from fs root body
  | HeaderBlock _ => True
  end.

Definition stream_from {L : Lib} (fs : filesystem) (root : string)
    (s : option stream) : Prop :=
  match s with
  | Some s => served_from fs root (stream_data s)
  | None => True
  end.

(** A handler that serves [root] and has written such chunks only. *)
Definition sound {L : Lib} (fs : filesystem) (root : string) (h : handler)
  : Prop :=
  directory h = root /\ Forall (chunk_from fs root) (wfile h).

(** A method keeps such a handler that way, and what it returns has the
    property [Q]. *)
Definition confined {L : Lib} (fs : filesystem) (root : string) {A : Type}
    (Q : A -> Prop) (m : H A) : Prop :=
  forall h r h',
    sound fs root h -> m h = (r, h') ->
    sound fs root h' /\ (forall a, r = Return a -> Q a).









(** ** Vocabulary of the further statements *)

(** A word of a request line: not empty and without white space. *)
Definition is_word (s : string) : bool :=
  Py.nonempty s && all_chars (fun c => negb (Py.is_space c)) s.

(** A request line of three words. *)
Definition request_line (command target version : string) : string :=
  command ++ " " ++ target ++ " " ++ version ++ Py.crlf.

(** The path that [parse_request] keeps for a target. *)
Definition request_path (target : string) : string :=
  if Py.startswith target "//" then "/" ++ Py.lstrip_chars target "/" else target.

(** The attributes of a new handler when [parse_request] has accepted a
    request. *)
Definition parsed (cwd command target version : string)
    (fields : list (string * string)) : handler :=
  mk_handler cwd (command ++ " " ++ target ++ " " ++ version) (Some command)
    (request_path target) version fields true None [].

(** The message that [send_error] takes from the table of responses. *)
Definition short_message (code : Z) : string :=
  match responses code with
  | Some (short, _) => short
  | None => "???"
  end.

(** The test of [send_error] for a response that carries a page. *)
Definition has_page (code : Z) : bool :=
  (200 <=? code)%Z && negb ((code =? 204)%Z || (code =? 205)%Z || (code =? 304)%Z).

(** The header block of an error response with a page. *)
Definition error_block {L : Lib} (code : Z) (message body : string) : string :=
  String.concat EmptyString
    ([ "HTTP/1.0 " ++ Py.str_of_Z code ++ " " ++ message ++ Py.crlf;
       "Server: " ++ version_string ++ Py.crlf;
       "Date: " ++ date_time_string None ++ Py.crlf;
       "Connection: close" ++ Py.crlf;
       "Content-Type: text/html;charset=utf-8" ++ Py.crlf;
       "Content-Length: " ++ Py.str_of_Z (Z.of_nat (String.length body)) ++ Py.crlf ]
       ++ cors_lines ++ [Py.crlf]).

(** The explanation that [send_error] takes from the table of responses. *)
Definition explanation (code : Z) : string :=
  match responses code with
  | Some (_, long) => long
  | None => "???"
  end.

(** A method leaves a connection that is to be closed that way. *)
Definition closes {A : Type} (m : H A) : Prop :=
  forall h r h',
    close_connection h = true -> m h = (r, h') -> close_connection h' = true.

(** Further worlds of the examples. *)
Module MoreWorlds.

(** An [OSError] with error number 48 ends the serve loop after one
  answered request. *)
Definition late_error : exn := mk_exn OSError (Some 48%Z) "Address already in use".
Definition serving_then_oserror : world :=
Demo.world_of Linux [] None [[Demo.get "/index.html"]] (Some late_error).

(** Memory runs out while serving. *)
Definition serving_then_no_memory : world :=
Demo.world_of Linux [] None [] (Some Worlds.out_of_memory).

(** Nothing ever ends the serve loop. *)
Definition serving_for_ever : world :=
Demo.world_of Linux [] None [[Demo.get "/index.html"]] None.

(** The script started by its bare name from the directory it is in. *)
Definition started_in_place : world :=
mk_world Linux ["start-test-server.py"] [] "start-test-server.py" "/srv/test3"
  [] None None Demo.fs [] None.

(** No descriptor is left for the socket: [socket()] fails. *)
Definition too_many_files : exn := mk_exn OSError (Some 24%Z) "Too many open files".
Definition no_descriptor : world :=
mk_world Linux ["start-test-server.py"] [] "/srv/test3/start-test-server.py"
  "/home/dev" [8000%Z] (Some too_many_files) None Demo.fs [] None.

End MoreWorlds.

(** The target of a request for the file that [words] lead to. *)
Definition target_of (words : list string) : string :=
  String "/" (Py.join "/" words).

(** Requests of the examples: a CORS preflight, and a request for a file
    that does not exist. *)
Module Requests.

Definition preflight : request :=
mk_request (request_line "OPTIONS" "/index.html" "HTTP/1.1")
  (Headers [("Origin", "http://localhost:3000");
            ("Access-Control-Request-Method", "POST")]).

(** A request line of 65537 characters. *)
Definition too_long : request :=
mk_request
  ("GET /" ++ string_of_list_ascii (List.repeat "a"%char (Z.to_nat 65530))
     ++ Py.crlf)
  (Headers []).

(** A version whose minor number has 4301 digits, one more than [int]
  converts. *)
Definition overlong_version : string :=
"HTTP/1." ++ string_of_list_ascii (List.repeat "0"%char 4301).

End Requests.

(** The header block of the 301 response that sends a client to the
    directory with a trailing separator. *)
Definition moved_block {L : Lib} (location : string) : string :=
  String.concat EmptyString
    ([ "HTTP/1.0 301 Moved Permanently" ++ Py.crlf;
       "Server: " ++ version_string ++ Py.crlf;
       "Date: " ++ date_time_string None ++ Py.crlf;
       "Location: " ++ location ++ Py.crlf;
       "Content-Length: 0" ++ Py.crlf ]
       ++ cors_lines ++ [Py.crlf]).

(** The header block of the 200 response for the listing of a
    directory. *)
Definition listing_block {L : Lib} (page : string) : string :=
  String.concat EmptyString
    ([ "HTTP/1.0 200 OK" ++ Py.crlf;
       "Server: " ++ version_string ++ Py.crlf;
       "Date: " ++ date_time_string None ++ Py.crlf;
       "Content-type: text/html; charset=" ++ filesystem_encoding ++ Py.crlf;
       "Content-Length: " ++ Py.str_of_Z (Z.of_nat (String.length page)) ++ Py.crlf ]
       ++ cors_lines ++ [Py.crlf]).

(** A directory to serve that has no index file. *)
Module Listed.

Definition fs : filesystem :=
filesystem_of
  (fun p =>
     if p =? "/srv/assets/" then Some (Dir (Some ["a.png"; "b.png"]))
     else if p =? "/srv/assets/a.png" then Some (File "PNG" 4000 true)
     else if p =? "/srv/locked/" then Some (Dir None)
     else None)
  (fun p => p).

End Listed.

(** A serving root that is reached through a symbolic link, and that has
    a symbolic link to a file outside it: [/srv/link] leads to [/srv/test3],
    and [/srv/test3/notes.txt] to [/srv/secret.txt]. There is also a file
    with a space in its name. *)
Module Linked.

Definition fs : filesystem :=
filesystem_of
  (fun p =>
     if p =? "/srv/test3" then Some (Dir (Some ["index.html"; "notes.txt"]))
     else if p =? "/srv/link" then Some (Dir (Some ["index.html"; "notes.txt"]))
     else if p =? "/srv/test3/index.html" then Some (File "<h1>neuOS</h1>" 1000 true)
     else if p =? "/srv/test3/notes.txt" then Some (File "secret" 3000 true)
     else if p =? "/srv/secret.txt" then Some (File "secret" 3000 true)
     else if p =? "/srv/test3/my file.css" then Some (File "a{}" 5000 true)
     else None)
  (fun p =>
     if p =? "/srv/link" then "/srv/test3"
     else if p =? "/srv/test3/notes.txt" then "/srv/secret.txt"
     else p).

(** The script is started under the path that goes through the link. *)
Definition through_link : world :=
mk_world Linux ["start-test-server.py"] [] "/srv/link/start-test-server.py"
  "/home/dev" [] None None fs [[Demo.get "/index.html"]] None.

End Linked.

(** * Properties *)

(** ** The handler: paths *)

Lemma bind_return_inv {S A B : Type} (m : Eff.M S A) (k : A -> Eff.M S B)
    (s s' : S) (b : B) :
  Eff.bind m k s = (Return b, s') ->
  exists a s1, m s = (Return a, s1) /\ k a s1 = (Return b, s').
Proof.
  unfold Eff.bind. destruct (m s) as [[a| |] s1]; intros Hk; try discriminate.
  now exists a, s1.
Qed.

Ltac inv_bind H :=
  let a := fresh "a" in
  let s := fresh "s" in
  let Hm := fresh "Hm" in
  apply bind_return_inv in H; destruct H as (a & s & Hm & H).

Lemma split_by_no_sep (p : ascii -> bool) (s : string) :
  Forall (fun word => forall c, Py.contains word c = true -> p c = false)
         (Py.split_by p s).
Proof.
  induction s as [|a r IH]; simpl.
  - constructor; [|constructor]. intros c Hc. discriminate.
  - destruct (p a) eqn:Hp.
    + constructor; [|exact IH]. intros c Hc. discriminate.
    + assert (Hone : forall word,
                (forall c, Py.contains word c = true -> p c = false) ->
                forall c, Py.contains (String a word) c = true -> p c = false).
      { intros word Hw c Hc. simpl in Hc.
        apply Bool.orb_true_iff in Hc. destruct Hc as [Hc|Hc]; [|auto].
        apply Ascii.eqb_eq in Hc. now subst. }
      destruct (Py.split_by p r) as [|word rest].
      * constructor; [|constructor]. apply Hone. intros c Hc. discriminate.
      * inversion IH; subst. constructor; [|assumption]. now apply Hone.
Qed.

Lemma split_no_sep (s : string) (sep : ascii) :
  Forall (fun word => Py.contains word sep = false) (Py.split s sep).
Proof.
  unfold Py.split.
  eapply Forall_impl; [|apply split_by_no_sep]. cbv beta. intros word Hw.
  destruct (Py.contains word sep) eqn:Hc; [|reflexivity].
  specialize (Hw sep Hc). now rewrite Ascii.eqb_refl in Hw.
Qed.

Lemma upto_last_sep_plain (word : string) :
  Py.contains word "/" = false -> Posixpath.upto_last_sep word = EmptyString.
Proof.
  induction word as [|a r IH]; [reflexivity|]. simpl. intros Hc.
  apply Bool.orb_false_iff in Hc. destruct Hc as [Ha Hr].
  rewrite (IH Hr). unfold Posixpath.sep. now rewrite Ha.
Qed.

Lemma dirname_plain (word : string) :
  Py.contains word "/" = false -> Posixpath.dirname word = EmptyString.
Proof.
  intros Hc. unfold Posixpath.dirname. now rewrite (upto_last_sep_plain word Hc).
Qed.

(** A turn of the loop of [translate_path] stays at or below the root. *)
Lemma translate_step_within (root p word : string) :
  within root p -> Py.nonempty word = true -> Py.contains word "/" = false ->
  within root (SimpleHTTPRequestHandler.translate_step p word).
Proof.
  intros Hp Hn Hc. unfold SimpleHTTPRequestHandler.translate_step.
  rewrite (dirname_plain word Hc). cbn [Py.nonempty orb].
  destruct (word =? Posixpath.curdir) eqn:Hdot; [exact Hp|].
  destruct (word =? Posixpath.pardir) eqn:Hdd; [exact Hp|].
  apply within_join; [exact Hp|].
  unfold plain_name. now rewrite Hn, Hdot, Hdd, Hc.
Qed.

Lemma translate_loop_within (root : string) (words : list string) (p : string) :
  within root p ->
  Forall (fun word => Py.nonempty word = true /\ Py.contains word "/" = false) words ->
  within root (fold_left SimpleHTTPRequestHandler.translate_step words p).
Proof.
  revert p. induction words as [|word rest IH]; intros p Hp Hw; [exact Hp|].
  inversion Hw as [|? ? [Hn Hc] Hrest]; subst. simpl.
  apply IH; [|assumption]. now apply translate_step_within.
Qed.

Lemma translate_path_within {L : Lib} (directory path : string) :
  within directory (SimpleHTTPRequestHandler.translate_path directory path).
Proof.
  unfold SimpleHTTPRequestHandler.translate_path.
  set (words := filter Py.nonempty _).
  assert (Hw : Forall (fun word => Py.nonempty word = true
                                   /\ Py.contains word "/" = false) words).
  { unfold words. apply Forall_forall. intros word Hin.
    apply filter_In in Hin. destruct Hin as [Hin Hn]. split; [exact Hn|].
    pose proof (split_no_sep
                  (Posixpath.normpath (unquote (Py.before (Py.before path "?") "#")))
                  "/") as Hs.
    rewrite Forall_forall in Hs. now apply Hs. }
  destruct (Py.endswith_char _ _).
  - apply within_slash. apply translate_loop_within; [constructor|exact Hw].
  - apply translate_loop_within; [constructor|exact Hw].
Qed.

Lemma startswith_refl (s : string) : Py.startswith s s = true.
Proof. induction s as [|a r IH]; simpl; [reflexivity|]. now rewrite Ascii.eqb_refl. Qed.

Lemma startswith_app (s p rest : string) :
  Py.startswith s p = true -> Py.startswith (s ++ rest) p = true.
Proof.
  revert s. induction p as [|x p IH]; intros s Hp; [reflexivity|].
  destruct s as [|y s]; [discriminate|]. simpl in *.
  apply Bool.andb_true_iff in Hp. destruct Hp as [Hxy Hp].
  now rewrite Hxy, (IH s Hp).
Qed.

(** A path at or below the root starts with the root. *)
Lemma within_prefix (root p : string) :
  within root p -> Py.startswith p root = true.
Proof.
  induction 1 as [|p word Hp IH Hw|p Hp IH].
  - apply startswith_refl.
  - unfold Posixpath.join.
    assert (Hs : Py.startswith word "/" = false).
    { destruct word as [|a r]; [reflexivity|]. cbn [Py.startswith].
      destruct (Ascii.eqb_spec "/" a) as [<-|Hne]; [|reflexivity].
      unfold plain_name in Hw. rewrite !Bool.andb_true_iff in Hw.
      destruct Hw as (_ & Hw). discriminate. }
    rewrite Hs. destruct (negb (Py.nonempty p) || Py.endswith_char p Posixpath.sep);
      now apply startswith_app.
  - now apply startswith_app.
Qed.

Section SendHead.
Context {L : Lib}.
Variable fs : filesystem.
Variable self_end_headers : H unit.

Lemma open_rb_name (p : string) (f : file_object) :
  open_rb fs p = Opened f ->
  f_name f = p /\ fs p = Some (File (f_data f) (f_mtime f) true).
Proof.
  unfold open_rb. destruct (Py.contains p Py.nul); [discriminate|].
  destruct (fs p) as [[data mtime [|]|]|]; try discriminate.
  intros Hf. injection Hf as <-. now split.
Qed.

(** A readable file opens: what the file system names has no null
    character in its path. *)
Lemma open_rb_file (p data : string) (mtime : Z) :
  fs p = Some (File data mtime true) ->
  open_rb fs p = Opened (mk_file p data mtime).
Proof.
  intros Hfs. unfold open_rb.
  destruct (Py.contains p Py.nul) eqn:Hn.
  - rewrite (lookup_nul fs p Hn) in Hfs. discriminate.
  - now rewrite Hfs.
Qed.

(** The file that [send_head] hands over was opened under the name it was
    looked for. *)
Lemma send_head_file_opened (p : string) (h h' : handler) (f : file_object) :
  SimpleHTTPRequestHandler.send_head_file fs self_end_headers p h
    = (Return (Some (FileStream f)), h') ->
  open_rb fs p = Opened f.
Proof.
  unfold SimpleHTTPRequestHandler.send_head_file. intros Hs.
  destruct (Py.endswith_char p "/").
  { inv_bind Hs. discriminate. }
  destruct (open_rb fs p) as [f0|e].
  2:{ destruct (issubclass (e_class e) OSError); [|discriminate].
      inv_bind Hs. discriminate. }
  inv_bind Hs.
  match type of Hs with (if ?c then _ else _) _ = _ => destruct c end.
  - do 2 inv_bind Hs. discriminate.
  - do 5 inv_bind Hs. unfold Eff.ret in Hs. now injection Hs as <- _.
Qed.

Lemma list_directory_no_file (p : string) (h h' : handler) (f : file_object) :
  SimpleHTTPRequestHandler.list_directory fs self_end_headers p h
    <> (Return (Some (FileStream f)), h').
Proof.
  unfold SimpleHTTPRequestHandler.list_directory. intros Hs.
  destruct (fs p) as [[| [names|]]|];
    try (inv_bind Hs; discriminate).
  do 5 inv_bind Hs. discriminate.
Qed.

Lemma send_head_within (h h' : handler) (f : file_object) :
  SimpleHTTPRequestHandler.send_head fs self_end_headers h
    = (Return (Some (FileStream f)), h') ->
  within (directory h) (f_name f) /\ open_rb fs (f_name f) = Opened f.
Proof.
  unfold SimpleHTTPRequestHandler.send_head. intros Hs.
  inv_bind Hs. unfold Eff.get in Hm. injection Hm as <- <-.
  pose proof (translate_path_within (directory h)
                (SimpleHTTPRequestHandler.self_path h)) as Hw.
  set (p := SimpleHTTPRequestHandler.translate_path _ _) in *.
  assert (Hfile : forall q, within (directory h) q ->
            SimpleHTTPRequestHandler.send_head_file fs self_end_headers q h
              = (Return (Some (FileStream f)), h') ->
            within (directory h) (f_name f) /\ open_rb fs (f_name f) = Opened f).
  { intros q Hq Hsf. apply send_head_file_opened in Hsf.
    destruct (open_rb_name q f Hsf) as [-> _]. now split. }
  destruct (isdir fs p); [|now apply (Hfile p)].
  destruct (urlsplit (SimpleHTTPRequestHandler.self_path h)) as [parts|];
    [|discriminate].
  destruct (negb (Py.endswith_char (u_path parts) "/")).
  { do 4 inv_bind Hs. discriminate. }
  destruct (isfile fs (Posixpath.join p "index.html")).
  { apply (Hfile (Posixpath.join p "index.html")); [|exact Hs].
    now apply within_join. }
  destruct (isfile fs (Posixpath.join p "index.htm")).
  { apply (Hfile (Posixpath.join p "index.htm")); [|exact Hs].
    now apply within_join. }
  now apply list_directory_no_file in Hs.
Qed.
End SendHead.


(** ** The handler: header blocks *)

Lemma concat_cons (x : string) (xs : list string) :
  String.concat EmptyString (x :: xs) = x ++ String.concat EmptyString xs.
Proof.
  destruct xs as [|y ys]; simpl; [|reflexivity].
  induction x as [|a x IH]; simpl; congruence.
Qed.


Lemma string_app_assoc (a b c : string) : (a ++ b) ++ c = a ++ (b ++ c).
Proof. induction a as [|x a IH]; simpl; congruence. Qed.

Lemma concat_app (xs ys : list string) :
  String.concat EmptyString (xs ++ ys)
  = String.concat EmptyString xs ++ String.concat EmptyString ys.
Proof.
  induction xs as [|x xs IH]; [reflexivity|].
  change ((x :: xs) ++ ys)%list with (x :: (xs ++ ys))%list.
  now rewrite !concat_cons, IH, string_app_assoc.
Qed.

(** [send_header] for a header other than [Connection]. *)
Lemma send_header_plain (keyword value : string) (h : handler) :
  (Py.lower keyword =? "connection") = false ->
  BaseHTTPRequestHandler.send_header keyword value h =
  (Return tt,
   if request_version h =? "HTTP/0.9" then h
   else set_headers_buffer
          (Some (buffered h ++ [(keyword ++ ": " ++ value ++ Py.crlf)%string])%list)
          h).
Proof.
  intros Hk. unfold BaseHTTPRequestHandler.send_header, Eff.modify.
  rewrite Hk. unfold BaseHTTPRequestHandler.buffer_append, buffered.
  now destruct (request_version h =? "HTTP/0.9").
Qed.

(** What the override of lines 17 to 22 does: for an HTTP/0.9 request
    nothing; otherwise the buffer, the three CORS lines and the blank line
    are written as one header block, and the buffer is emptied. *)
Lemma end_headers_spec (h : handler) :
  MyHTTPRequestHandler.end_headers h =
  (Return tt,
   if request_version h =? "HTTP/0.9" then h
   else
     mk_handler (directory h) (requestline h) (command h) (path h)
       (request_version h) (headers h) (close_connection h) (Some [])
       (wfile h ++
          [HeaderBlock
             (String.concat EmptyString (buffered h ++ cors_lines ++ [Py.crlf]))])).
Proof.
  unfold MyHTTPRequestHandler.end_headers, Eff.bind.
  destruct (request_version h =? "HTTP/0.9") eqn:Hv.
  - do 3 (rewrite send_header_plain by reflexivity; rewrite Hv; cbn iota beta).
    unfold BaseHTTPRequestHandler.end_headers, Eff.bind, Eff.get.
    now rewrite Hv.
  - do 3 (rewrite send_header_plain by reflexivity;
          cbn [request_version set_headers_buffer]; rewrite Hv; cbn iota beta).
    unfold BaseHTTPRequestHandler.end_headers, Eff.bind, Eff.get.
    cbn [request_version set_headers_buffer]. rewrite Hv.
    cbn [negb headers_buffer set_headers_buffer].
    unfold Eff.modify, BaseHTTPRequestHandler.flush_headers,
      BaseHTTPRequestHandler.buffer_append.
    cbn [request_version set_headers_buffer headers_buffer set_wfile wfile
         directory requestline command path headers close_connection buffered].
    unfold cors_lines. rewrite <- !app_assoc. reflexivity.
Qed.

Lemma keeps_ret {A : Type} (a : A) : keeps (Eff.ret a).
Proof. intros h Hh. exact Hh. Qed.

Lemma keeps_raise {A : Type} (e : exn) : keeps (Eff.raise (A := A) e).
Proof. intros h Hh. exact Hh. Qed.

Lemma keeps_get : keeps Eff.get.
Proof. intros h Hh. exact Hh. Qed.

Lemma keeps_bind {A B : Type} (m : H A) (k : A -> H B) :
  keeps m -> (forall a, keeps (k a)) -> keeps (Eff.bind m k).
Proof.
  intros Hm Hk h Hh. unfold Eff.bind. specialize (Hm h Hh).
  destruct (m h) as [[a| |] h1]; simpl in *; [now apply Hk|assumption|assumption].
Qed.

Lemma keeps_modify (f : handler -> handler) :
  (forall h, wfile (f h) = wfile h) -> keeps (Eff.modify f).
Proof. intros Hf h Hh. simpl. now rewrite Hf. Qed.

Lemma keeps_when (b : bool) (m : H unit) : keeps m -> keeps (Eff.when b m).
Proof. intros Hm. destruct b; [exact Hm|apply keeps_ret]. Qed.

Lemma keeps_write_body (bytes : string) : keeps (wfile_write (Body bytes)).
Proof.
  intros h Hh. simpl. apply Forall_app. split; [exact Hh|].
  constructor; [exact I|constructor].
Qed.

Lemma keeps_send_response_only (code : Z) (message : option string) :
  keeps (BaseHTTPRequestHandler.send_response_only code message).
Proof.
  apply keeps_modify. intros h.
  destruct (negb (request_version h =? "HTTP/0.9")); reflexivity.
Qed.

Lemma keeps_send_header (keyword value : string) :
  keeps (BaseHTTPRequestHandler.send_header keyword value).
Proof.
  apply keeps_modify. intros h.
  destruct (negb (request_version h =? "HTTP/0.9"));
    destruct (Py.lower keyword =? "connection");
    destruct (Py.lower value =? "close");
    destruct (Py.lower value =? "keep-alive"); reflexivity.
Qed.

(** The override writes a header block that ends with the CORS headers, or
    nothing. *)
Lemma keeps_end_headers : keeps MyHTTPRequestHandler.end_headers.
Proof.
  intros h Hh. rewrite end_headers_spec. cbn [snd].
  destruct (request_version h =? "HTTP/0.9"); [exact Hh|]. cbn [wfile].
  apply Forall_app. split; [exact Hh|]. constructor; [|constructor].
  exists (String.concat EmptyString (buffered h)).
  now rewrite !concat_app.
Qed.

Ltac keeps_step :=
  match goal with
  | |- keeps (Eff.bind _ _) => apply keeps_bind; [|intros ?]
  | |- keeps (Eff.ret _) => apply keeps_ret
  | |- keeps (Eff.raise _) => apply keeps_raise
  | |- keeps Eff.get => apply keeps_get
  | |- keeps (Eff.when _ _) => apply keeps_when
  | |- keeps (Eff.modify _) => apply keeps_modify; intros []; reflexivity
  | |- keeps (wfile_write (Body _)) => apply keeps_write_body
  | |- keeps (BaseHTTPRequestHandler.send_header _ _) => apply keeps_send_header
  | |- keeps (BaseHTTPRequestHandler.send_response_only _ _) =>
      apply keeps_send_response_only
  | |- keeps (if ?c then _ else _) => destruct c
  | |- keeps (match ?x with _ => _ end) => destruct x
  | |- keeps (let '(_, _) := ?x in _) => destruct x
  | |- keeps _ => solve [auto]
  end.

Ltac keeps_auto := repeat keeps_step.

Section Keeps.
Context {L : Lib}.
Variable fs : filesystem.
Variable self_end_headers : H unit.
Hypothesis keeps_self_end_headers : keeps self_end_headers.

Lemma keeps_send_response (code : Z) (message : option string) :
  keeps (BaseHTTPRequestHandler.send_response code message).
Proof. unfold BaseHTTPRequestHandler.send_response. keeps_auto. Qed.

Lemma keeps_send_error (code : Z) (message explain : option string) :
  keeps (BaseHTTPRequestHandler.send_error self_end_headers code message explain).
Proof.
  unfold BaseHTTPRequestHandler.send_error.
  destruct (match responses code with Some r => r | None => ("???", "???") end).
  pose proof keeps_send_response. keeps_auto.
Qed.

Lemma keeps_handle_expect_100 :
  keeps (BaseHTTPRequestHandler.handle_expect_100 self_end_headers).
Proof. unfold BaseHTTPRequestHandler.handle_expect_100. keeps_auto. Qed.

Lemma keeps_parse_request (rq : request) :
  keeps (BaseHTTPRequestHandler.parse_request self_end_headers rq).
Proof.
  pose proof keeps_send_error. pose proof keeps_handle_expect_100.
  unfold BaseHTTPRequestHandler.parse_request,
    BaseHTTPRequestHandler.parse_request_version,
    BaseHTTPRequestHandler.parse_request_headers.
  keeps_auto.
Qed.

Lemma keeps_list_directory (p : string) :
  keeps (SimpleHTTPRequestHandler.list_directory fs self_end_headers p).
Proof.
  pose proof keeps_send_error. pose proof keeps_send_response.
  unfold SimpleHTTPRequestHandler.list_directory. keeps_auto.
Qed.

Lemma keeps_send_head_file (p : string) :
  keeps (SimpleHTTPRequestHandler.send_head_file fs self_end_headers p).
Proof.
  pose proof keeps_send_error. pose proof keeps_send_response.
  unfold SimpleHTTPRequestHandler.send_head_file. keeps_auto.
Qed.

Lemma keeps_send_head :
  keeps (SimpleHTTPRequestHandler.send_head fs self_end_headers).
Proof.
  pose proof keeps_send_response. pose proof keeps_send_head_file.
  pose proof keeps_list_directory.
  unfold SimpleHTTPRequestHandler.send_head. keeps_auto.
Qed.

Lemma keeps_self_do (command : string) (method : H unit) :
  SimpleHTTPRequestHandler.self_do fs self_end_headers command = Some method ->
  keeps method.
Proof.
  pose proof keeps_send_head.
  unfold SimpleHTTPRequestHandler.self_do.
  destruct (command =? "GET"); [intros Hm; injection Hm as <-|].
  - unfold SimpleHTTPRequestHandler.do_GET, SimpleHTTPRequestHandler.copyfile.
    keeps_auto.
  - destruct (command =? "HEAD"); [intros Hm; injection Hm as <-|discriminate].
    unfold SimpleHTTPRequestHandler.do_HEAD. keeps_auto.
Qed.

Lemma keeps_handle_one_request (rq : request) :
  keeps (BaseHTTPRequestHandler.handle_one_request self_end_headers
           (SimpleHTTPRequestHandler.self_do fs self_end_headers) rq).
Proof.
  pose proof keeps_send_error. pose proof keeps_parse_request.
  unfold BaseHTTPRequestHandler.handle_one_request.
  repeat first
    [ match goal with
      | |- keeps (match SimpleHTTPRequestHandler.self_do _ _ ?c with _ => _ end) =>
          let Hm := fresh "Hm" in
          destruct (SimpleHTTPRequestHandler.self_do fs self_end_headers c)
            eqn:Hm; [exact (keeps_self_do _ _ Hm)|]
      end
    | keeps_step ].
Qed.

Lemma keeps_handle_loop (rfile : list request) :
  keeps (BaseHTTPRequestHandler.handle_loop self_end_headers
           (SimpleHTTPRequestHandler.self_do fs self_end_headers) rfile).
Proof.
  pose proof keeps_handle_one_request.
  induction rfile as [|rq rest IH]; simpl; keeps_auto.
Qed.

Lemma keeps_handle (rfile : list request) :
  keeps (BaseHTTPRequestHandler.handle self_end_headers
           (SimpleHTTPRequestHandler.self_do fs self_end_headers) rfile).
Proof.
  pose proof keeps_handle_one_request. pose proof keeps_handle_loop.
  unfold BaseHTTPRequestHandler.handle. keeps_auto.
Qed.
End Keeps.

(** Every header block written on a connection ends with the CORS
    headers. *)
Lemma finish_request_cors {L : Lib} (fs : filesystem) (cwd : string)
    (rfile : list request) :
  Forall cors_ok (MyHTTPRequestHandler.finish_request fs cwd rfile).
Proof.
  unfold MyHTTPRequestHandler.finish_request, MyHTTPRequestHandler.handle,
    MyHTTPRequestHandler.self_do.
  apply (keeps_handle fs _ keeps_end_headers). constructor.
Qed.

Lemma same_request_trans (h h1 h2 : handler) :
  same_request h h1 -> same_request h1 h2 -> same_request h h2.
Proof. unfold same_request. intros (-> & -> & ->) (-> & -> & ->). now repeat split. Qed.

Lemma quiet_ret {A : Type} (a : A) : quiet (Eff.ret a).
Proof. intros h. exists a, h. now repeat split. Qed.

Lemma quiet_bind {A B : Type} (m : H A) (k : A -> H B) :
  quiet m -> (forall a, quiet (k a)) -> quiet (Eff.bind m k).
Proof.
  intros Hm Hk h. destruct (Hm h) as (a & h1 & Hmh & Hs1).
  destruct (Hk a h1) as (b & h2 & Hkh & Hs2).
  exists b, h2. unfold Eff.bind. rewrite Hmh, Hkh.
  split; [reflexivity|]. now apply (same_request_trans h h1 h2).
Qed.

Lemma quiet_send_response_only (code : Z) (message : option string) :
  quiet (BaseHTTPRequestHandler.send_response_only code message).
Proof.
  intros h. eexists tt, _. split; [reflexivity|]. unfold same_request.
  destruct (negb (request_version h =? "HTTP/0.9")); now repeat split.
Qed.

Lemma quiet_send_header (keyword value : string) :
  quiet (BaseHTTPRequestHandler.send_header keyword value).
Proof.
  intros h. eexists tt, _. split; [reflexivity|]. unfold same_request.
  destruct (negb (request_version h =? "HTTP/0.9"));
    destruct (Py.lower keyword =? "connection");
    destruct (Py.lower value =? "close");
    destruct (Py.lower value =? "keep-alive"); now repeat split.
Qed.

Lemma quiet_send_response {L : Lib} (code : Z) (message : option string) :
  quiet (BaseHTTPRequestHandler.send_response code message).
Proof.
  unfold BaseHTTPRequestHandler.send_response.
  repeat (apply quiet_bind; [|intros ?]);
    auto using quiet_send_response_only, quiet_send_header.
Qed.

(** A quiet method in front of another one. *)
Lemma bind_quiet {A B : Type} (m : H A) (k : A -> H B) (h : handler) :
  quiet m -> exists a h1, same_request h h1 /\ Eff.bind m k h = k a h1.
Proof.
  intros Hm. destruct (Hm h) as (a & h1 & Hmh & Hs).
  exists a, h1. split; [exact Hs|]. unfold Eff.bind. now rewrite Hmh.
Qed.

(** The override on a request that is not an HTTP/0.9 one writes one
    header block, which ends with the CORS headers. *)
Lemma end_headers_answers (h : handler) :
  request_version h <> "HTTP/0.9" ->
  exists h1 block,
    MyHTTPRequestHandler.end_headers h = (Return tt, h1)
    /\ same_request (set_wfile (wfile h ++ [HeaderBlock block]) h) h1
    /\ ends_with_cors block.
Proof.
  intros Hv. apply String.eqb_neq in Hv. rewrite end_headers_spec, Hv.
  eexists _, _. split; [reflexivity|]. split; [now repeat split|].
  exists (String.concat EmptyString (buffered h)). now rewrite !concat_app.
Qed.

(** An error reply to a request that is not an HTTP/0.9 one starts with a
    header block, and the block ends with the CORS headers. *)
Lemma send_error_answers {L : Lib} (code : Z) (message explain : option string)
    (h : handler) :
  request_version h <> "HTTP/0.9" ->
  exists h' block rest,
    MyHTTPRequestHandler.send_error code message explain h = (Return tt, h')
    /\ wfile h' = (wfile h ++ HeaderBlock block :: rest)%list
    /\ ends_with_cors block.
Proof.
  intros Hv.
  unfold MyHTTPRequestHandler.send_error, BaseHTTPRequestHandler.send_error.
  destruct (match responses code with Some r => r | None => ("???", "???") end)
    as [shortmsg longmsg].
  match goal with
  | |- context [Eff.bind ?m ?k h] =>
      destruct (bind_quiet m k h (quiet_send_response _ _))
        as ([] & h1 & (Hv1 & Hw1 & _) & ->)
  end.
  match goal with
  | |- context [Eff.bind ?m ?k h1] =>
      destruct (bind_quiet m k h1 (quiet_send_header _ _))
        as ([] & h2 & (Hv2 & Hw2 & _) & ->)
  end.
  match goal with
  | |- context [Eff.bind ?m ?k h2] =>
      assert (Hq : quiet m)
  end.
  { destruct ((200 <=? code)%Z && _); [|apply quiet_ret].
    repeat (apply quiet_bind; [|intros ?]);
      auto using quiet_send_header, quiet_ret. }
  match goal with
  | |- context [Eff.bind ?m ?k h2] =>
      destruct (bind_quiet m k h2 Hq) as (body & h3 & (Hv3 & Hw3 & _) & ->)
  end.
  assert (Hv' : request_version h3 <> "HTTP/0.9") by congruence.
  destruct (end_headers_answers h3 Hv') as (h4 & block & He & (_ & Hw4 & Hc4) & Hcors).
  unfold Eff.bind at 1. rewrite He. unfold Eff.bind, Eff.get.
  cbn [wfile set_wfile] in Hw4.
  assert (Hw : wfile h4 = (wfile h ++ [HeaderBlock block])%list) by congruence.
  destruct body as [b|].
  - destruct (negb _ && Py.nonempty b).
    + eexists _, block, [Body b]. split; [reflexivity|]. split; [|exact Hcors].
      cbn [wfile set_wfile snd]. rewrite Hw, <- app_assoc. reflexivity.
    + exists h4, block, []. now repeat split.
  - exists h4, block, []. now repeat split.
Qed.

(** ** The handler: a file under the root *)


Lemma all_chars_contains (q : ascii -> bool) (s : string) (c : ascii) :
  all_chars q s = true -> q c = false -> Py.contains s c = false.
Proof.
  intros Hs Hc. induction s as [|x s IH]; [reflexivity|]. simpl in *.
  apply Bool.andb_true_iff in Hs. destruct Hs as [Hx Hs].
  rewrite (IH Hs), Bool.orb_false_r.
  destruct (Ascii.eqb_spec x c) as [->|]; [congruence|reflexivity].
Qed.

Lemma all_chars_app (q : ascii -> bool) (a b : string) :
  all_chars q (a ++ b) = all_chars q a && all_chars q b.
Proof. induction a as [|x a IH]; simpl; [reflexivity|]. now rewrite IH, Bool.andb_assoc. Qed.

Lemma before_absent (s : string) (c : ascii) :
  Py.contains s c = false -> Py.before s c = s.
Proof.
  induction s as [|x s IH]; [reflexivity|]. simpl. intros Hc.
  apply Bool.orb_false_iff in Hc. destruct Hc as [Hx Hs].
  now rewrite Hx, (IH Hs).
Qed.

Lemma rstrip_by_absent (p : ascii -> bool) (s : string) :
  all_chars (fun c => negb (p c)) s = true -> Py.rstrip_by p s = s.
Proof.
  induction s as [|x s IH]; [reflexivity|]. simpl. intros Hs.
  apply Bool.andb_true_iff in Hs. destruct Hs as [Hx Hs].
  rewrite (IH Hs). apply Bool.negb_true_iff in Hx. rewrite Hx.
  now destruct s.
Qed.

Lemma rstrip_by_app (p : ascii -> bool) (s t : string) :
  Py.nonempty (Py.rstrip_by p t) = true ->
  Py.rstrip_by p (s ++ t) = s ++ Py.rstrip_by p t.
Proof.
  intros Ht. induction s as [|x s IH]; [reflexivity|]. simpl. rewrite IH.
  destruct (s ++ Py.rstrip_by p t) eqn:Hst; [|reflexivity].
  destruct s; [|discriminate]. simpl in Hst. now rewrite Hst in Ht.
Qed.

Lemma rstrip_by_all (p : ascii -> bool) (t : string) :
  all_chars p t = true -> Py.rstrip_by p t = EmptyString.
Proof.
  induction t as [|x t IH]; [reflexivity|]. simpl. intros Ht.
  apply Bool.andb_true_iff in Ht. destruct Ht as [Hx Ht].
  now rewrite (IH Ht), Hx.
Qed.

Lemma endswith_char_app (a w : string) (c : ascii) :
  Py.nonempty w = true -> Py.endswith_char (a ++ w) c = Py.endswith_char w c.
Proof.
  intros Hw. induction a as [|x a IH]; [reflexivity|].
  cbn [String.append Py.endswith_char]. rewrite IH.
  destruct (a ++ w) eqn:Haw; [|reflexivity].
  destruct a; [|discriminate]. simpl in Haw. now rewrite Haw in Hw.
Qed.

Lemma endswith_char_contains (w : string) (c : ascii) :
  Py.endswith_char w c = true -> Py.contains w c = true.
Proof.
  induction w as [|x w IH]; [discriminate|]. simpl.
  destruct w as [|y w].
  - intros ->. reflexivity.
  - intros Hw. rewrite (IH Hw). apply Bool.orb_true_r.
Qed.

(** Cutting at separators what was joined with them gives the names
    back. *)
Lemma split_by_word (p : ascii -> bool) (word rest : string) (c : ascii) :
  all_chars (fun a => negb (p a)) word = true -> p c = true ->
  Py.split_by p (word ++ String c rest) = word :: Py.split_by p rest.
Proof.
  intros Hw Hc. induction word as [|x word IH]; simpl.
  - now rewrite Hc.
  - simpl in Hw. apply Bool.andb_true_iff in Hw. destruct Hw as [Hx Hw].
    apply Bool.negb_true_iff in Hx. now rewrite Hx, (IH Hw).
Qed.

Lemma split_by_last (p : ascii -> bool) (word : string) :
  all_chars (fun a => negb (p a)) word = true ->
  Py.split_by p word = [word].
Proof.
  intros Hw. induction word as [|x word IH]; [reflexivity|]. simpl.
  simpl in Hw. apply Bool.andb_true_iff in Hw. destruct Hw as [Hx Hw].
  apply Bool.negb_true_iff in Hx. now rewrite Hx, (IH Hw).
Qed.

Lemma no_sep_all_chars (word : string) (sep : ascii) :
  Py.contains word sep = false ->
  all_chars (fun a => negb (Ascii.eqb sep a)) word = true.
Proof.
  induction word as [|x word IH]; [reflexivity|]. simpl. intros Hc.
  apply Bool.orb_false_iff in Hc. destruct Hc as [Hx Hc].
  rewrite (IH Hc), Ascii.eqb_sym, Hx. reflexivity.
Qed.

Lemma split_join (words : list string) (sep : ascii) :
  words <> [] ->
  Forall (fun word => Py.contains word sep = false) words ->
  Py.split (Py.join (String sep EmptyString) words) sep = words.
Proof.
  intros Hne Hw. unfold Py.split.
  induction words as [|word rest IH]; [contradiction|].
  inversion Hw as [|? ? Hword Hrest]; subst.
  destruct rest as [|word' rest'].
  - simpl. apply split_by_last. now apply no_sep_all_chars.
  - change (Py.join (String sep EmptyString) (word :: word' :: rest'))
      with (word ++ String sep (Py.join (String sep EmptyString) (word' :: rest'))).
    rewrite split_by_word;
      [|now apply no_sep_all_chars|apply Ascii.eqb_refl].
    f_equal. apply IH; [discriminate|assumption].
Qed.

Lemma url_plain_inv (word : string) :
  url_plain word = true ->
  Py.nonempty word = true
  /\ (word =? Posixpath.curdir) = false /\ (word =? Posixpath.pardir) = false
  /\ Py.contains word "/" = false
  /\ all_chars url_char word = true.
Proof.
  unfold url_plain, plain_name. rewrite !Bool.andb_true_iff, !Bool.negb_true_iff.
  intros ((((Hn & Hd) & Hdd) & Hs) & Hu). now repeat split.
Qed.

Lemma url_plain_plain (words : list string) :
  Forall (fun word => url_plain word = true) words ->
  Forall (fun word => plain_name word = true) words.
Proof.
  apply Forall_impl. intros word Hw. unfold url_plain in Hw.
  now apply Bool.andb_true_iff in Hw.
Qed.

Lemma url_plain_no_sep (words : list string) :
  Forall (fun word => url_plain word = true) words ->
  Forall (fun word => Py.contains word "/" = false) words.
Proof. apply Forall_impl. intros word Hw. now apply url_plain_inv in Hw. Qed.

(** The joined names contain a character only if it is the separator or
    one of the names contains it. *)
Lemma join_all_chars (q : ascii -> bool) (words : list string) :
  q "/"%char = true ->
  Forall (fun word => all_chars q word = true) words ->
  all_chars q (Py.join "/" words) = true.
Proof.
  intros Hq Hw. induction words as [|word rest IH]; [reflexivity|].
  inversion Hw as [|? ? Hword Hrest]; subst.
  destruct rest as [|word' rest']; [exact Hword|].
  change (Py.join "/" (word :: word' :: rest'))
    with (word ++ String "/" (Py.join "/" (word' :: rest'))).
  rewrite all_chars_app, Hword. cbn [all_chars andb]. rewrite Hq. now apply IH.
Qed.

Lemma all_chars_impl (q q' : ascii -> bool) (s : string) :
  (forall c, q c = true -> q' c = true) ->
  all_chars q s = true -> all_chars q' s = true.
Proof.
  intros Hq. induction s as [|x s IH]; [reflexivity|]. simpl.
  rewrite !Bool.andb_true_iff. intros [Hx Hs]. auto.
Qed.

Lemma target_chars (words : list string) :
  Forall (fun word => url_plain word = true) words ->
  all_chars target_char (String "/" (Py.join "/" words)) = true.
Proof.
  intros Hw. cbn [all_chars]. apply Bool.andb_true_iff. split; [reflexivity|].
  apply join_all_chars; [reflexivity|].
  eapply Forall_impl; [|exact Hw]. cbv beta. intros word Hword.
  apply url_plain_inv in Hword. destruct Hword as (_ & _ & _ & _ & Hu).
  eapply all_chars_impl; [|exact Hu]. intros c Hc. unfold target_char.
  now rewrite Hc.
Qed.

Lemma target_absent (words : list string) (c : ascii) :
  Forall (fun word => url_plain word = true) words ->
  target_char c = false ->
  Py.contains (String "/" (Py.join "/" words)) c = false.
Proof. intros Hw Hc. eapply all_chars_contains; [now apply target_chars|exact Hc]. Qed.

Lemma join_nonempty (words : list string) :
  words <> [] ->
  Forall (fun word => Py.nonempty word = true) words ->
  Py.nonempty (Py.join "/" words) = true.
Proof.
  intros Hne Hw. destruct words as [|word rest]; [contradiction|].
  inversion Hw as [|? ? Hword Hrest]; subst.
  destruct rest; [exact Hword|].
  change (Py.join "/" (word :: s :: rest))
    with (word ++ String "/" (Py.join "/" (s :: rest))).
  now destruct word.
Qed.

(** The joined names end with the separator only if the last name does. *)
Lemma join_endswith (words : list string) (c : ascii) :
  words <> [] ->
  Forall (fun word => Py.nonempty word = true /\ Py.endswith_char word c = false)
         words ->
  Py.endswith_char (Py.join "/" words) c = false.
Proof.
  intros Hne Hw. induction words as [|word rest IH]; [contradiction|].
  inversion Hw as [|? ? [Hn He] Hrest]; subst.
  destruct rest as [|word' rest']; [exact He|].
  change (Py.join "/" (word :: word' :: rest'))
    with (word ++ String "/" (Py.join "/" (word' :: rest'))).
  change (String "/" (Py.join "/" (word' :: rest')))
    with ("/" ++ Py.join "/" (word' :: rest')).
  rewrite <- string_app_assoc, endswith_char_app.
  - apply IH; [discriminate|assumption].
  - apply join_nonempty; [discriminate|].
    eapply Forall_impl; [|exact Hrest]. now intros ? [? _].
Qed.

Lemma norm_loop_plain (n : nat) (words acc : list string) :
  Forall (fun word => plain_name word = true) words ->
  fold_left (Posixpath.norm_step n) words acc = (rev words ++ acc)%list.
Proof.
  revert acc. induction words as [|word rest IH]; intros acc Hw; [reflexivity|].
  inversion Hw as [|? ? Hword Hrest]; subst. cbn [fold_left rev].
  unfold plain_name in Hword. rewrite !Bool.andb_true_iff, !Bool.negb_true_iff in Hword.
  destruct Hword as (((Hn & Hd) & Hdd) & _).
  assert (He : (word =? EmptyString) = false) by (now destruct word).
  unfold Posixpath.norm_step at 2. rewrite He, Hd, Hdd. cbn [orb negb].
  rewrite IH by assumption. now rewrite <- app_assoc.
Qed.

(** [normpath] leaves the target of such a request as it is. *)
Lemma normpath_target (words : list string) :
  words <> [] ->
  Forall (fun word => url_plain word = true) words ->
  Posixpath.normpath (String "/" (Py.join "/" words))
  = String "/" (Py.join "/" words).
Proof.
  intros Hne Hw. unfold Posixpath.normpath.
  assert (Hj : Py.startswith (Py.join "/" words) "/" = false).
  { destruct words as [|word rest]; [contradiction|].
    inversion Hw as [|? ? Hword Hrest]; subst.
    apply url_plain_inv in Hword. destruct Hword as (Hn & _ & _ & Hs & _).
    destruct word as [|a word]; [discriminate|].
    assert (Ha : Ascii.eqb "/" a = false).
    { simpl in Hs. apply Bool.orb_false_iff in Hs. destruct Hs as [Hs _].
      now rewrite Ascii.eqb_sym. }
    destruct rest; cbn [Py.join String.append Py.startswith]; now rewrite Ha. }
  assert (Hjj : Py.startswith (String "/" (Py.join "/" words)) "//" = false).
  { change (Py.startswith (String "/" (Py.join "/" words)) "//")
      with (Ascii.eqb "/" "/" && Py.startswith (Py.join "/" words) "/").
    now rewrite Hj. }
  rewrite Hjj.
  change (String "/" (Py.join "/" words) =? EmptyString) with false.
  change (Py.startswith (String "/" (Py.join "/" words)) "/") with true.
  cbn iota. cbn [andb].
  unfold Posixpath.sep, Py.split. cbn [Py.split_by]. rewrite Ascii.eqb_refl.
  fold (Py.split (Py.join "/" words) "/").
  rewrite (split_join words "/" Hne (url_plain_no_sep words Hw)).
  cbn [fold_left].
  replace (Posixpath.norm_step 1 [] EmptyString) with (@nil string) by reflexivity.
  rewrite !norm_loop_plain by (now apply url_plain_plain).
  now rewrite !app_nil_r, !rev_involutive.
Qed.

Lemma translate_loop_plain (words : list string) (p : string) :
  Forall (fun word => plain_name word = true) words ->
  fold_left SimpleHTTPRequestHandler.translate_step words p = descend p words.
Proof.
  revert p. induction words as [|word rest IH]; intros p Hw; [reflexivity|].
  inversion Hw as [|? ? Hword Hrest]; subst. unfold descend. cbn [fold_left].
  unfold plain_name in Hword. rewrite !Bool.andb_true_iff, !Bool.negb_true_iff in Hword.
  destruct Hword as (((Hn & Hd) & Hdd) & Hs).
  unfold SimpleHTTPRequestHandler.translate_step at 2.
  rewrite (dirname_plain word Hs), Hd, Hdd. cbn [Py.nonempty orb].
  now apply IH.
Qed.

Lemma filter_nonempty_all (words : list string) :
  Forall (fun word => Py.nonempty word = true) words ->
  filter Py.nonempty words = words.
Proof.
  induction 1 as [|word rest Hword Hrest IH]; [reflexivity|].
  simpl. now rewrite Hword, IH.
Qed.

Lemma target_no_space (words : list string) :
  Forall (fun word => url_plain word = true) words ->
  all_chars (fun c => negb (Py.is_space c)) (String "/" (Py.join "/" words)) = true.
Proof.
  intros Hw. eapply all_chars_impl; [|now apply target_chars].
  intros c. unfold target_char, url_char.
  destruct (Ascii.eqb_spec c "/") as [->|]; [reflexivity|].
  rewrite Bool.orb_false_r, !Bool.andb_true_iff. now intros (((Hs & _) & _) & _).
Qed.

(** [translate_path] on the target of a request for the file that the
    names [words] lead to: the path of that file below the directory. *)
Lemma translate_path_plain {L : Lib} (directory : string) (words : list string) :
  words <> [] ->
  Forall (fun word => url_plain word = true) words ->
  SimpleHTTPRequestHandler.translate_path directory (String "/" (Py.join "/" words))
  = descend directory words.
Proof.
  intros Hne Hw. unfold SimpleHTTPRequestHandler.translate_path.
  rewrite (before_absent _ "?") by (now apply target_absent).
  rewrite (before_absent _ "#") by (now apply target_absent).
  unfold Py.rstrip. rewrite rstrip_by_absent by (now apply target_no_space).
  assert (Hn : Forall (fun word => Py.nonempty word = true) words).
  { eapply Forall_impl; [|exact Hw]. intros word Hword.
    now apply url_plain_inv in Hword. }
  assert (He : Py.endswith_char (String "/" (Py.join "/" words)) "/" = false).
  { change (String "/" (Py.join "/" words)) with ("/" ++ Py.join "/" words).
    rewrite endswith_char_app by (now apply join_nonempty).
    apply join_endswith; [exact Hne|].
    eapply Forall_impl; [|exact Hw]. cbv beta. intros word Hword.
    apply url_plain_inv in Hword. destruct Hword as (Hnw & _ & _ & Hs & _).
    split; [exact Hnw|].
    destruct (Py.endswith_char word "/") eqn:Hend; [|reflexivity].
    apply endswith_char_contains in Hend. congruence. }
  rewrite He.
  unfold unquote. rewrite (target_absent words "%" Hw eq_refl).
  rewrite (normpath_target words Hne Hw).
  unfold Py.split. cbn [Py.split_by]. rewrite Ascii.eqb_refl.
  fold (Py.split (Py.join "/" words) "/").
  rewrite (split_join words "/" Hne (url_plain_no_sep words Hw)).
  cbn [filter Py.nonempty]. rewrite (filter_nonempty_all words Hn).
  apply translate_loop_plain. now apply url_plain_plain.
Qed.

(** The path of a file below a directory does not end with a separator. *)
Lemma join_ends (p word : string) (c : ascii) :
  plain_name word = true ->
  Py.endswith_char (Posixpath.join p word) c = Py.endswith_char word c.
Proof.
  intros Hw. unfold plain_name in Hw.
  rewrite !Bool.andb_true_iff, !Bool.negb_true_iff in Hw.
  destruct Hw as (((Hn & _) & _) & Hs).
  unfold Posixpath.join.
  assert (Hsw : Py.startswith word "/" = false).
  { destruct word as [|a word]; [reflexivity|]. cbn [Py.startswith].
    simpl in Hs. apply Bool.orb_false_iff in Hs. destruct Hs as [Ha _].
    now rewrite Ascii.eqb_sym, Ha. }
  rewrite Hsw.
  destruct (negb (Py.nonempty p) || Py.endswith_char p Posixpath.sep).
  - now apply endswith_char_app.
  - change (p ++ "/" ++ word) with (p ++ String "/" word).
    change (String "/" word) with ("/" ++ word).
    rewrite <- string_app_assoc. now apply endswith_char_app.
Qed.

Lemma descend_endswith (directory : string) (words : list string) :
  words <> [] ->
  Forall (fun word => plain_name word = true) words ->
  Py.endswith_char (descend directory words) "/" = false.
Proof.
  intros Hne Hw. revert directory.
  induction words as [|word rest IH]; intros directory; [contradiction|].
  inversion Hw as [|? ? Hword Hrest]; subst. unfold descend. cbn [fold_left].
  destruct rest as [|word' rest'].
  - cbn [fold_left]. rewrite (join_ends directory word "/" Hword).
    destruct (Py.endswith_char word "/") eqn:Hend; [|reflexivity].
    apply endswith_char_contains in Hend.
    unfold plain_name in Hword.
    rewrite !Bool.andb_true_iff, !Bool.negb_true_iff in Hword.
    destruct Hword as (_ & Hs). congruence.
  - apply (IH ltac:(discriminate) Hrest).
Qed.

(** [send_response_only] with its status line. *)
Lemma send_response_only_spec (code : Z) (message : option string) (h : handler) :
  BaseHTTPRequestHandler.send_response_only code message h =
  (Return tt,
   if request_version h =? "HTTP/0.9" then h
   else set_headers_buffer
          (Some (buffered h ++
                   [(BaseHTTPRequestHandler.protocol_version ++ " "
                       ++ Py.str_of_Z code ++ " " ++ reason code message
                       ++ Py.crlf)%string])%list)
          h).
Proof.
  unfold BaseHTTPRequestHandler.send_response_only, Eff.modify,
    BaseHTTPRequestHandler.buffer_append, buffered, reason.
  now destruct (request_version h =? "HTTP/0.9").
Qed.

Ltac header_step Hv :=
  unfold Eff.bind at 1;
  first [ rewrite send_header_plain by reflexivity
        | rewrite send_response_only_spec ];
  cbn [request_version set_headers_buffer]; rewrite Hv; cbn iota beta;
  cbn [buffered headers_buffer set_headers_buffer].

(** [send_response] on a request that is not an HTTP/0.9 one: the status
    line, [Server] and [Date]. *)
Lemma send_response_spec {L : Lib} (code : Z) (message : option string)
    (h : handler) :
  (request_version h =? "HTTP/0.9") = false ->
  BaseHTTPRequestHandler.send_response code message h =
  (Return tt,
   set_headers_buffer
     (Some (buffered h ++
              [ (BaseHTTPRequestHandler.protocol_version ++ " "
                   ++ Py.str_of_Z code ++ " " ++ reason code message
                   ++ Py.crlf)%string;
                ("Server: " ++ version_string ++ Py.crlf)%string;
                ("Date: " ++ date_time_string None ++ Py.crlf)%string ])%list)
     h).
Proof.
  intros Hv. unfold BaseHTTPRequestHandler.send_response.
  header_step Hv. header_step Hv.
  rewrite send_header_plain by reflexivity.
  cbn [request_version set_headers_buffer]. rewrite Hv.
  cbn [buffered headers_buffer set_headers_buffer]. unfold set_headers_buffer.
  cbn [directory requestline command path request_version headers
       close_connection wfile].
  rewrite <- !app_assoc. reflexivity.
Qed.

(** The 200 response of [send_head] for a file that opens, on a request
    that is not an HTTP/0.9 one and does not hit the 304 test. *)
Lemma send_head_file_ok {L : Lib} (fs : filesystem) (p : string) (h : handler)
    (f : file_object) :
  (request_version h =? "HTTP/0.9") = false ->
  Py.endswith_char p "/" = false ->
  open_rb fs p = Opened f ->
  not_modified (headers h) (f_mtime f) = false ->
  headers_buffer h = None ->
  SimpleHTTPRequestHandler.send_head_file fs MyHTTPRequestHandler.end_headers p h =
  (Return (Some (FileStream f)),
   mk_handler (directory h) (requestline h) (command h) (path h)
     (request_version h) (headers h) (close_connection h) (Some [])
     (wfile h ++ [HeaderBlock (ok_block p (f_data f) (f_mtime f))])).
Proof.
  intros Hv He Ho Hnm Hb.
  unfold SimpleHTTPRequestHandler.send_head_file. rewrite He, Ho.
  unfold Eff.bind at 1, Eff.get.
  unfold not_modified in Hnm. rewrite Hnm.
  unfold Eff.bind at 1. rewrite send_response_spec by exact Hv.
  cbn [buffered headers_buffer set_headers_buffer]. unfold buffered at 1.
  rewrite Hb.
  do 3 (header_step Hv).
  unfold Eff.bind at 1. rewrite end_headers_spec.
  cbn [request_version set_headers_buffer]. rewrite Hv.
  cbn [buffered headers_buffer set_headers_buffer directory requestline command
       path request_version headers close_connection wfile].
  unfold Eff.ret, ok_block. rewrite <- !app_assoc. reflexivity.
Qed.

Lemma target_single_slash (words : list string) :
  words <> [] ->
  Forall (fun word => url_plain word = true) words ->
  Py.startswith (String "/" (Py.join "/" words)) "//" = false.
Proof.
  intros Hne Hw.
  change (Py.startswith (String "/" (Py.join "/" words)) "//")
    with (Ascii.eqb "/" "/" && Py.startswith (Py.join "/" words) "/").
  destruct words as [|word rest]; [contradiction|].
  inversion Hw as [|? ? Hword Hrest]; subst.
  apply url_plain_inv in Hword. destruct Hword as (Hn & _ & _ & Hs & _).
  destruct word as [|a word]; [discriminate|].
  assert (Ha : Ascii.eqb "/" a = false).
  { simpl in Hs. apply Bool.orb_false_iff in Hs. destruct Hs as [Hs _].
    now rewrite Ascii.eqb_sym. }
  destruct rest; cbn [Py.join String.append Py.startswith]; now rewrite Ha.
Qed.


(** C1, as stated, fails: the answer to an HTTP/0.9 request, a request
    line of two words, is the content of the file and nothing else: no
    header block and so no CORS header. *)
Lemma http09_response_without_headers :
  MyHTTPRequestHandler.finish_request (L := Demo.lib) Demo.fs "/srv/test3"
    [mk_request ("GET /index.html" ++ Py.crlf) (Headers [])]
  = [Body "<h1>neuOS</h1>"]
  /\ ~ (exists block,
          In (HeaderBlock block)
            (MyHTTPRequestHandler.finish_request (L := Demo.lib) Demo.fs
               "/srv/test3"
               [mk_request ("GET /index.html" ++ Py.crlf) (Headers [])])).
Proof.
  assert (Hout : MyHTTPRequestHandler.finish_request (L := Demo.lib) Demo.fs
                   "/srv/test3"
                   [mk_request ("GET /index.html" ++ Py.crlf) (Headers [])]
                 = [Body "<h1>neuOS</h1>"]) by (vm_compute; reflexivity).
  split; [exact Hout|]. rewrite Hout. intros (block & [Hb|[]]). discriminate.
Qed.

(** The 404 response to a GET for a path that names nothing: a header
    block with the CORS headers, then the error page. *)
Example not_found_has_cors :
  MyHTTPRequestHandler.finish_request (L := Demo.lib) Demo.fs "/srv/test3"
    [Demo.get "/nothing.css"]
  = [HeaderBlock
       (String.concat EmptyString
          ([ "HTTP/1.0 404 File not found" ++ Py.crlf;
             "Server: SimpleHTTP/0.6 Python/3.11.2" ++ Py.crlf;
             "Date: Thu, 01 Jan 1970 00:00:00 GMT" ++ Py.crlf;
             "Connection: close" ++ Py.crlf;
             "Content-Type: text/html;charset=utf-8" ++ Py.crlf;
             "Content-Length: 49" ++ Py.crlf ]
             ++ cors_lines ++ [Py.crlf]));
     Body ("404 File not found" ++ Py.nl ++ "Nothing matches the given URI" ++ Py.nl)].
Proof. vm_compute. reflexivity. Qed.

(** A request with parent-directory segments for a file next to the
    serving root is answered with 404, not with the file. *)
Example traversal_not_served :
  Demo.fs "/srv/secret.txt" = Some (File "secret" 3000 true)
  /\ MyHTTPRequestHandler.translate_path (L := Demo.lib) "/srv/test3"
       "/../secret.txt" = "/srv/test3/secret.txt"
  /\ body_bytes
       (MyHTTPRequestHandler.finish_request (L := Demo.lib) Demo.fs
          "/srv/test3" [Demo.get "/../secret.txt"])
     = "404 File not found" ++ Py.nl ++ "Nothing matches the given URI" ++ Py.nl.
Proof. repeat split; vm_compute; reflexivity. Qed.

(** ** The handler: a response starts with its header block *)

Lemma quiet_appends {A : Type} (m : H A) : quiet m -> appends m.
Proof.
  intros Hq h r h' Hm. destruct (Hq h) as (a & h1 & Hm1 & Hv & Hw & _).
  rewrite Hm in Hm1. injection Hm1 as -> ->. split; [exact Hv|].
  exists []. now rewrite app_nil_r.
Qed.

Lemma quiet_headed {A : Type} (m : H A) : quiet m -> headed m.
Proof.
  intros Hq h r h' _ Hm. destruct (Hq h) as (a & h1 & Hm1 & Hv & Hw & _).
  rewrite Hm in Hm1. injection Hm1 as -> ->. split; [exact Hv|now left].
Qed.

Lemma answers_headed {A : Type} (m : H A) : answers m -> headed m.
Proof.
  intros Ha h r h' Hv Hm. destruct (Ha h r h' Hv Hm) as (Hv' & Hw).
  split; [exact Hv'|now right].
Qed.

Lemma headed_appends {A : Type} (m : H A) :
  headed m -> forall h r h',
    request_version h <> "HTTP/0.9" -> m h = (r, h') ->
    request_version h' = request_version h
    /\ exists rest, wfile h' = (wfile h ++ rest)%list.
Proof.
  intros Hh h r h' Hv Hm. destruct (Hh h r h' Hv Hm) as (Hv' & [Hw|(b & rest & Hw)]).
  - split; [exact Hv'|]. exists []. now rewrite app_nil_r.
  - split; [exact Hv'|]. now exists (HeaderBlock b :: rest).
Qed.

Lemma appends_ret {A : Type} (a : A) : appends (Eff.ret a).
Proof.
  intros h r h' Hm. injection Hm as <- <-. split; [reflexivity|].
  exists []. now rewrite app_nil_r.
Qed.

Lemma appends_write (c : chunk) : appends (wfile_write c).
Proof.
  intros h r h' Hm. injection Hm as <- <-. split; [reflexivity|]. now exists [c].
Qed.

Lemma headed_raise {A : Type} (e : exn) : headed (Eff.raise (A := A) e).
Proof. intros h r h' _ Hm. injection Hm as <- <-. now split; [|left]. Qed.

Lemma headed_bind {A B : Type} (m : H A) (k : A -> H B) :
  headed m -> (forall a, headed (k a)) -> headed (Eff.bind m k).
Proof.
  intros Hm Hk h r h' Hv Hb. unfold Eff.bind in Hb.
  destruct (m h) as [[a| |] h1] eqn:Hmh.
  - destruct (Hm h _ h1 Hv Hmh) as (Hv1 & Hw1).
    assert (Hv1' : request_version h1 <> "HTTP/0.9") by congruence.
    destruct (Hk a h1 r h' Hv1' Hb) as (Hv2 & Hw2).
    split; [congruence|].
    destruct Hw1 as [Hw1|(b1 & rest1 & Hw1)];
      destruct Hw2 as [Hw2|(b2 & rest2 & Hw2)].
    + left. congruence.
    + right. exists b2, rest2. congruence.
    + right. exists b1, rest1. congruence.
    + right. exists b1, (rest1 ++ HeaderBlock b2 :: rest2)%list.
      rewrite Hw2, Hw1, <- app_assoc. reflexivity.
  - injection Hb as <- <-. exact (Hm h _ h1 Hv Hmh).
  - injection Hb as <- <-. exact (Hm h _ h1 Hv Hmh).
Qed.

(** After a method that has answered, anything may be appended. *)
Lemma answers_then {A B : Type} (m : H A) (k : A -> H B) :
  answers m -> (forall a, appends (k a)) -> answers (Eff.bind m k).
Proof.
  intros Hm Hk h r h' Hv Hb. unfold Eff.bind in Hb.
  destruct (m h) as [[a| |] h1] eqn:Hmh.
  - destruct (Hm h _ h1 Hv Hmh) as (Hv1 & b1 & rest1 & Hw1).
    destruct (Hk a h1 r h' Hb) as (Hv2 & rest2 & Hw2).
    split; [congruence|]. exists b1, (rest1 ++ rest2)%list.
    rewrite Hw2, Hw1, <- app_assoc. reflexivity.
  - injection Hb as <- <-. exact (Hm h _ h1 Hv Hmh).
  - injection Hb as <- <-. exact (Hm h _ h1 Hv Hmh).
Qed.

(** A quiet method in front of one that answers. *)
Lemma quiet_then_answers {A B : Type} (m : H A) (k : A -> H B) :
  quiet m -> (forall a, answers (k a)) -> answers (Eff.bind m k).
Proof.
  intros Hm Hk h r h' Hv Hb.
  destruct (bind_quiet m k h Hm) as (a & h1 & (Hv1 & Hw1 & _) & Heq).
  rewrite Heq in Hb.
  assert (Hv1' : request_version h1 <> "HTTP/0.9") by congruence.
  destruct (Hk a h1 r h' Hv1' Hb) as (Hv2 & b & rest & Hw2).
  split; [congruence|]. exists b, rest. congruence.
Qed.

Lemma answers_end_headers : answers MyHTTPRequestHandler.end_headers.
Proof.
  intros h r h' Hv Hm.
  destruct (end_headers_answers h Hv) as (h1 & block & He & (Hv1 & Hw1 & _) & _).
  rewrite Hm in He. injection He as -> ->.
  split; [exact Hv1|]. exists block, []. exact Hw1.
Qed.

Lemma quiet_get : quiet Eff.get.
Proof. intros h. exists h, h. now repeat split. Qed.

Lemma quiet_modify (f : handler -> handler) :
  (forall h, same_request h (f h)) -> quiet (Eff.modify f).
Proof. intros Hf h. exists tt, (f h). split; [reflexivity|apply Hf]. Qed.

Ltac quiet_auto :=
  repeat first
    [ apply quiet_bind; [|intros ?]
    | apply quiet_ret
    | apply quiet_get
    | apply quiet_send_header
    | apply quiet_send_response_only
    | apply quiet_send_response
    | match goal with
      | |- quiet (if ?c then _ else _) => destruct c
      end ].

Lemma appends_bind {A B : Type} (m : H A) (k : A -> H B) :
  appends m -> (forall a, appends (k a)) -> appends (Eff.bind m k).
Proof.
  intros Hm Hk h r h' Hb. unfold Eff.bind in Hb.
  destruct (m h) as [[a| |] h1] eqn:Hmh.
  - destruct (Hm h _ h1 Hmh) as (Hv1 & rest1 & Hw1).
    destruct (Hk a h1 r h' Hb) as (Hv2 & rest2 & Hw2).
    split; [congruence|]. exists (rest1 ++ rest2)%list.
    rewrite Hw2, Hw1, <- app_assoc. reflexivity.
  - injection Hb as <- <-. exact (Hm h _ h1 Hmh).
  - injection Hb as <- <-. exact (Hm h _ h1 Hmh).
Qed.

Ltac appends_auto :=
  repeat first
    [ apply appends_bind; [|intros ?]
    | apply appends_ret
    | apply appends_write
    | apply quiet_appends; apply quiet_get
    | match goal with
      | |- appends (if ?c then _ else _) => destruct c
      | |- appends (match ?x with _ => _ end) => destruct x
      end ].

Section Headed.
Context {L : Lib}.
Variable fs : filesystem.

Lemma answers_send_error (code : Z) (message explain : option string) :
  answers (MyHTTPRequestHandler.send_error code message explain).
Proof.
  unfold MyHTTPRequestHandler.send_error, BaseHTTPRequestHandler.send_error.
  destruct (match responses code with Some r => r | None => ("???", "???") end).
  apply quiet_then_answers; [apply quiet_send_response|intros ?].
  apply quiet_then_answers; [apply quiet_send_header|intros ?].
  apply quiet_then_answers; [quiet_auto|intros body].
  apply answers_then; [apply answers_end_headers|intros ?].
  appends_auto.
Qed.

(** [send_response], headers, [end_headers]: the shape of every branch of
    [send_head] that answers without an error. *)
Lemma answers_after_quiet {A B : Type} (m : H A) (k : H B) :
  quiet m -> appends k ->
  answers (m ;; MyHTTPRequestHandler.end_headers ;; k).
Proof.
  intros Hm Hk. apply quiet_then_answers; [exact Hm|intros ?].
  apply answers_then; [apply answers_end_headers|intros ?]. exact Hk.
Qed.

Lemma answers_list_directory (p : string) :
  answers (SimpleHTTPRequestHandler.list_directory fs
             MyHTTPRequestHandler.end_headers p).
Proof.
  unfold SimpleHTTPRequestHandler.list_directory.
  assert (Herr : answers
                   (BaseHTTPRequestHandler.send_error MyHTTPRequestHandler.end_headers
                      404 (Some "No permission to list directory") None;;
                    Eff.ret (@None stream))).
  { apply answers_then; [apply answers_send_error|intros ?; apply appends_ret]. }
  destruct (fs p) as [[| [names|]]|]; try exact Herr.
  apply quiet_then_answers; [apply quiet_get|intros ?].
  apply quiet_then_answers; [apply quiet_send_response|intros ?].
  apply quiet_then_answers; [apply quiet_send_header|intros ?].
  apply quiet_then_answers; [apply quiet_send_header|intros ?].
  apply answers_then; [apply answers_end_headers|intros ?]. apply appends_ret.
Qed.

(** [send_head] from the guess of the type on: it answers, or [open]
    raises an exception that is no [OSError] and nothing is written. *)
Lemma send_head_file_cases (p : string) :
  answers (SimpleHTTPRequestHandler.send_head_file fs
             MyHTTPRequestHandler.end_headers p)
  \/ exists e,
       forall h,
         SimpleHTTPRequestHandler.send_head_file fs
           MyHTTPRequestHandler.end_headers p h = (Raise e, h).
Proof.
  unfold SimpleHTTPRequestHandler.send_head_file.
  destruct (Py.endswith_char p "/").
  { left.
    apply answers_then; [apply answers_send_error|intros ?; apply appends_ret]. }
  destruct (open_rb fs p) as [f|e].
  2:{ destruct (issubclass (e_class e) OSError).
      - left. apply answers_then;
          [apply answers_send_error|intros ?; apply appends_ret].
      - right. exists e. reflexivity. }
  left.
  apply quiet_then_answers; [apply quiet_get|intros h0].
  destruct (headers_has (headers h0) "If-Modified-Since" && _ && _).
  - apply quiet_then_answers; [apply quiet_send_response|intros ?].
    apply answers_then; [apply answers_end_headers|intros ?]. apply appends_ret.
  - apply quiet_then_answers; [apply quiet_send_response|intros ?].
    do 3 (apply quiet_then_answers; [apply quiet_send_header|intros ?]).
    apply answers_then; [apply answers_end_headers|intros ?]. apply appends_ret.
Qed.

Lemma headed_send_head_file (p : string) :
  headed (SimpleHTTPRequestHandler.send_head_file fs
            MyHTTPRequestHandler.end_headers p).
Proof.
  destruct (send_head_file_cases p) as [Ha|(e & He)];
    [now apply answers_headed|].
  intros h r h' Hv Hm. rewrite He in Hm. injection Hm as <- <-.
  split; [reflexivity|now left].
Qed.

Lemma send_head_file_answered (p : string) (h h' : handler) (f : option stream) :
  request_version h <> "HTTP/0.9" ->
  SimpleHTTPRequestHandler.send_head_file fs MyHTTPRequestHandler.end_headers p h
    = (Return f, h') ->
  request_version h' = request_version h
  /\ exists block rest, wfile h' = (wfile h ++ HeaderBlock block :: rest)%list.
Proof.
  destruct (send_head_file_cases p) as [Ha|(e & He)]; [apply Ha|].
  intros _ Hm. rewrite He in Hm. discriminate.
Qed.

Lemma headed_send_head :
  headed (SimpleHTTPRequestHandler.send_head fs MyHTTPRequestHandler.end_headers).
Proof.
  unfold SimpleHTTPRequestHandler.send_head.
  apply headed_bind; [apply quiet_headed, quiet_get|intros h0].
  destruct (isdir fs _); [|apply headed_send_head_file].
  destruct (urlsplit _) as [parts|]; [|apply headed_raise].
  destruct (negb _).
  { apply answers_headed.
    apply quiet_then_answers; [apply quiet_send_response|intros ?].
    do 2 (apply quiet_then_answers; [apply quiet_send_header|intros ?]).
    apply answers_then; [apply answers_end_headers|intros ?]. apply appends_ret. }
  destruct (isfile fs _); [apply headed_send_head_file|].
  destruct (isfile fs _); [apply headed_send_head_file|].
  apply answers_headed, answers_list_directory.
Qed.


(** When [send_head] returns, it has answered. *)
Lemma send_head_answered (h h' : handler) (f : option stream) :
  request_version h <> "HTTP/0.9" ->
  SimpleHTTPRequestHandler.send_head fs MyHTTPRequestHandler.end_headers h
    = (Return f, h') ->
  request_version h' = request_version h
  /\ exists block rest, wfile h' = (wfile h ++ HeaderBlock block :: rest)%list.
Proof.
  intros Hv. unfold SimpleHTTPRequestHandler.send_head.
  unfold Eff.bind at 1, Eff.get.
  destruct (isdir fs _); [|apply send_head_file_answered; exact Hv].
  destruct (urlsplit _) as [parts|]; [|discriminate].
  destruct (negb _).
  { revert h'. generalize (Return (A := option stream) f). intros r h'.
    revert h r h' Hv.
    apply quiet_then_answers; [apply quiet_send_response|intros ?].
    do 2 (apply quiet_then_answers; [apply quiet_send_header|intros ?]).
    apply answers_then; [apply answers_end_headers|intros ?]. apply appends_ret. }
  destruct (isfile fs _); [apply send_head_file_answered; exact Hv|].
  destruct (isfile fs _); [apply send_head_file_answered; exact Hv|].
  apply answers_list_directory; exact Hv.
Qed.

Lemma headed_do_GET : headed (MyHTTPRequestHandler.do_GET fs).
Proof.
  intros h r h' Hv Hm.
  unfold MyHTTPRequestHandler.do_GET, SimpleHTTPRequestHandler.do_GET, Eff.bind in Hm.
  destruct (SimpleHTTPRequestHandler.send_head fs MyHTTPRequestHandler.end_headers h)
    as [[f| |] h1] eqn:Hs.
  - destruct (send_head_answered h h1 f Hv Hs) as (Hv1 & b & rest & Hw1).
    assert (Ha : appends match f with
                         | Some f0 => SimpleHTTPRequestHandler.copyfile f0
                         | None => Eff.ret tt
                         end).
    { destruct f as [f0|]; [|apply appends_ret].
      unfold SimpleHTTPRequestHandler.copyfile. appends_auto. }
    destruct (Ha h1 r h' Hm) as (Hv2 & rest2 & Hw2).
    split; [congruence|]. right. exists b, (rest ++ rest2)%list.
    rewrite Hw2, Hw1, <- app_assoc. reflexivity.
  - injection Hm as <- <-. exact (headed_send_head h _ h1 Hv Hs).
  - injection Hm as <- <-. exact (headed_send_head h _ h1 Hv Hs).
Qed.

Lemma headed_do_HEAD : headed (MyHTTPRequestHandler.do_HEAD fs).
Proof.
  unfold MyHTTPRequestHandler.do_HEAD, SimpleHTTPRequestHandler.do_HEAD.
  apply headed_bind; [apply headed_send_head|intros ?].
  apply quiet_headed, quiet_ret.
Qed.

Lemma headed_parse_request_headers (rq : request) :
  headed (BaseHTTPRequestHandler.parse_request_headers
            MyHTTPRequestHandler.end_headers rq).
Proof.
  unfold BaseHTTPRequestHandler.parse_request_headers.
  destruct (header_lines rq) as [fields|err|err];
    try (apply answers_headed; apply answers_then;
         [apply answers_send_error|intros ?; apply appends_ret]).
  apply headed_bind;
    [apply quiet_headed, quiet_modify; intros []; now repeat split|intros ?].
  apply headed_bind.
  { destruct (Py.lower _ =? "close");
      [apply quiet_headed, quiet_modify; intros []; now repeat split|].
    destruct ((Py.lower _ =? "keep-alive") && _);
      [apply quiet_headed, quiet_modify; intros []; now repeat split|].
    apply quiet_headed, quiet_ret. }
  intros ?. apply headed_bind; [apply quiet_headed, quiet_get|intros h0].
  destruct ((Py.lower _ =? "100-continue") && _ && _);
    [|apply quiet_headed, quiet_ret].
  unfold BaseHTTPRequestHandler.handle_expect_100. apply answers_headed.
  apply quiet_then_answers; [apply quiet_send_response_only|intros ?].
  apply answers_then; [apply answers_end_headers|intros ?]. apply appends_ret.
Qed.

(** The dispatch of [handle_one_request] after a successful
    [parse_request]. *)
Lemma headed_dispatch :
  headed (h <- Eff.get ;;
          let command := match command h with Some c => c | None => EmptyString end in
          match MyHTTPRequestHandler.self_do fs command with
          | None =>
              BaseHTTPRequestHandler.send_error MyHTTPRequestHandler.end_headers 501
                (Some ("Unsupported method (" ++ repr command ++ ")")) None
          | Some method => method
          end).
Proof.
  apply headed_bind; [apply quiet_headed, quiet_get|intros h0]. cbv zeta.
  unfold MyHTTPRequestHandler.self_do, SimpleHTTPRequestHandler.self_do.
  destruct (_ =? "GET"); [apply headed_do_GET|].
  destruct (_ =? "HEAD"); [apply headed_do_HEAD|].
  apply answers_headed, answers_send_error.
Qed.
End Headed.

(** [parse_request] on a request line of three words with a version below
    2.0: the attributes are set and the headers are looked at. *)
Lemma parse_request_three {L : Lib} (self_end_headers : H unit) (rq : request)
    (c p v base : string) (n : Z * Z) (h : handler) :
  Py.split_ws (Py.rstrip_chars (raw_requestline rq) Py.crlf) = [c; p; v] ->
  BaseHTTPRequestHandler.parse_version v = Some (base, n) ->
  BaseHTTPRequestHandler.pair_ge n (2, 0)%Z = false ->
  BaseHTTPRequestHandler.parse_request self_end_headers rq h =
  BaseHTTPRequestHandler.parse_request_headers self_end_headers rq
    (mk_handler (directory h) (Py.rstrip_chars (raw_requestline rq) Py.crlf)
       (Some c) (if Py.startswith p "//" then "/" ++ Py.lstrip_chars p "/" else p)
       v (headers h) true (headers_buffer h) (wfile h)).
Proof.
  intros Hwords Hver Hlt. unfold BaseHTTPRequestHandler.parse_request.
  rewrite Hwords. unfold BaseHTTPRequestHandler.parse_request_version.
  cbn [List.length Nat.eqb Nat.leb List.last List.nth].
  rewrite Hver, Hlt.
  assert (Hp : Py.str_ge BaseHTTPRequestHandler.protocol_version "HTTP/1.1" = false)
    by reflexivity.
  rewrite Hp, Bool.andb_false_r.
  unfold Eff.bind, Eff.modify, Eff.when, Eff.ret. cbn [negb andb].
  destruct (Py.startswith p "//"); reflexivity.
Qed.

(** C1 for whole requests: a connection that brings a request whose line
    has three words, the last a version below 2.0 other than HTTP/0.9, gets
    no answer at all (when the handler fails) or one that starts with a
    header block, and that block ends with the CORS headers. *)
Lemma http1_response_headed {L : Lib} (fs : filesystem) (cwd : string)
    (rq : request) (c p v base : string) (n : Z * Z) :
  Py.split_ws (Py.rstrip_chars (raw_requestline rq) Py.crlf) = [c; p; v] ->
  BaseHTTPRequestHandler.parse_version v = Some (base, n) ->
  BaseHTTPRequestHandler.pair_ge n (2, 0)%Z = false ->
  v <> "HTTP/0.9" ->
  (Z.of_nat (String.length (raw_requestline rq)) <= 65536)%Z ->
  MyHTTPRequestHandler.finish_request fs cwd [rq] = []
  \/ exists block rest,
       MyHTTPRequestHandler.finish_request fs cwd [rq] = HeaderBlock block :: rest
       /\ ends_with_cors block.
Proof.
  intros Hwords Hver Hlt Hv Hlen.
  pose proof (finish_request_cors fs cwd [rq]) as Hcors.
  assert (Hshape : MyHTTPRequestHandler.finish_request fs cwd [rq] = []
                   \/ exists block rest,
                        MyHTTPRequestHandler.finish_request fs cwd [rq]
                        = HeaderBlock block :: rest).
  { set (h0 := set_close_connection true (MyHTTPRequestHandler.init cwd)).
    set (h1 := mk_handler cwd (Py.rstrip_chars (raw_requestline rq) Py.crlf)
                 (Some c)
                 (if Py.startswith p "//" then "/" ++ Py.lstrip_chars p "/" else p)
                 v [] true None []).
    set (serve_request :=
           Eff.bind
             (BaseHTTPRequestHandler.parse_request_headers
                MyHTTPRequestHandler.end_headers rq)
             (fun ok =>
                if negb ok then Eff.ret tt
                else
                  h <- Eff.get ;;
                  let command :=
                    match command h with Some c => c | None => EmptyString end in
                  match MyHTTPRequestHandler.self_do fs command with
                  | None =>
                      BaseHTTPRequestHandler.send_error
                        MyHTTPRequestHandler.end_headers 501
                        (Some ("Unsupported method (" ++ repr command ++ ")")) None
                  | Some method => method
                  end)).
    assert (Hne : Py.nonempty (raw_requestline rq) = true).
    { destruct (raw_requestline rq); [discriminate Hwords|reflexivity]. }
    assert (Hone :
              BaseHTTPRequestHandler.handle_one_request
                MyHTTPRequestHandler.end_headers (MyHTTPRequestHandler.self_do fs) rq h0
              = serve_request h1).
    { unfold BaseHTTPRequestHandler.handle_one_request.
      replace (65536 <? Z.of_nat (String.length (raw_requestline rq)))%Z
        with false by (symmetry; apply Z.ltb_ge; exact Hlen).
      rewrite Hne. cbn [negb]. unfold Eff.bind at 1.
      rewrite (parse_request_three _ rq c p v base n h0 Hwords Hver Hlt).
      reflexivity. }
    assert (Hh : headed serve_request).
    { apply headed_bind; [apply headed_parse_request_headers|intros ok].
      destruct (negb ok); [apply quiet_headed, quiet_ret|apply headed_dispatch]. }
    assert (Hloop : forall h, wfile (snd (BaseHTTPRequestHandler.handle_loop
                                           MyHTTPRequestHandler.end_headers
                                           (MyHTTPRequestHandler.self_do fs) [] h))
                              = wfile h).
    { intros h. cbn [BaseHTTPRequestHandler.handle_loop].
      unfold Eff.bind, Eff.get. destruct (close_connection h); [reflexivity|].
      now destruct h. }
    destruct (serve_request h1) as [r h2] eqn:Hrun.
    destruct (Hh h1 r h2 Hv Hrun) as (_ & Hw2). cbn [wfile app h1] in Hw2.
    assert (Hout : MyHTTPRequestHandler.finish_request fs cwd [rq] = wfile h2).
    { unfold MyHTTPRequestHandler.finish_request, MyHTTPRequestHandler.handle,
        BaseHTTPRequestHandler.handle.
      unfold Eff.bind at 1. cbn [Eff.modify]. fold h0.
      unfold Eff.bind at 1. rewrite Hone.
      destruct r as [[]| |]; cbn [snd]; [apply Hloop|reflexivity|reflexivity]. }
    rewrite Hout. exact Hw2. }
  destruct Hshape as [Hs|(block & rest & Hs)]; [now left|right].
  exists block, rest. split; [exact Hs|].
  rewrite Hs in Hcors. now inversion Hcors.
Qed.

(** C1, amended: every header block that the server writes on a
    connection, for a successful response or for an error, ends with the
    three CORS headers with their exact values, directly before the blank
    line that ends the block. The answer to a request whose line has three
    words, the last a version below 2.0 other than HTTP/0.9, starts with
    such a header block (or is empty, when the handler fails before it
    answers), and so does every error reply, 404 included, that is sent while
    the version of the request is not HTTP/0.9. *)
Theorem cors_headers_in_every_header_block {L : Lib} (fs : filesystem) :
  (forall cwd rfile,
      Forall cors_ok (MyHTTPRequestHandler.finish_request fs cwd rfile))
  /\ (forall cwd rq c p v base n,
        Py.split_ws (Py.rstrip_chars (raw_requestline rq) Py.crlf) = [c; p; v] ->
        BaseHTTPRequestHandler.parse_version v = Some (base, n) ->
        BaseHTTPRequestHandler.pair_ge n (2, 0)%Z = false ->
        v <> "HTTP/0.9" ->
        (Z.of_nat (String.length (raw_requestline rq)) <= 65536)%Z ->
        MyHTTPRequestHandler.finish_request fs cwd [rq] = []
        \/ exists block rest,
             MyHTTPRequestHandler.finish_request fs cwd [rq]
             = HeaderBlock block :: rest
             /\ ends_with_cors block)
  /\ (forall code message explain h,
        request_version h <> "HTTP/0.9" ->
        exists h' block rest,
          MyHTTPRequestHandler.send_error code message explain h = (Return tt, h')
          /\ wfile h' = (wfile h ++ HeaderBlock block :: rest)%list
          /\ ends_with_cors block).
Proof.
  split; [|split].
  - intros cwd rfile. apply finish_request_cors.
  - intros cwd rq c p v base n. apply http1_response_headed.
  - intros code message explain h Hv. now apply send_error_answers.
Qed.

(** ** The handler: what a response is made from *)

Section Confined.
Context {L : Lib}.
Variable fs : filesystem.
Variable root : string.

Lemma confined_ret {A : Type} (Q : A -> Prop) (a : A) :
  Q a -> confined fs root Q (Eff.ret a).
Proof.
  intros Ha h r h' Hh Hm. injection Hm as <- <-. split; [exact Hh|].
  intros a' Hr. now injection Hr as <-.
Qed.

Lemma confined_raise {A : Type} (Q : A -> Prop) (e : exn) :
  confined fs root Q (Eff.raise e).
Proof.
  intros h r h' Hh Hm. injection Hm as <- <-. split; [exact Hh|].
  intros a Hr. discriminate.
Qed.

Lemma confined_get : confined fs root (sound fs root) Eff.get.
Proof.
  intros h r h' Hh Hm. injection Hm as <- <-. split; [exact Hh|].
  intros a Hr. now injection Hr as <-.
Qed.

Lemma confined_bind {A B : Type} (Q : A -> Prop) (R : B -> Prop) (m : H A)
    (k : A -> H B) :
  confined fs root Q m -> (forall a, Q a -> confined fs root R (k a)) ->
  confined fs root R (Eff.bind m k).
Proof.
  intros Hm Hk h r h' Hh Hb. unfold Eff.bind in Hb.
  destruct (m h) as [[a| |] h1] eqn:Hmh.
  - destruct (Hm h _ h1 Hh Hmh) as [Hh1 Ha].
    exact (Hk a (Ha a eq_refl) h1 r h' Hh1 Hb).
  - injection Hb as <- <-. split; [exact (proj1 (Hm h _ h1 Hh Hmh))|].
    intros a Hr. discriminate.
  - injection Hb as <- <-. split; [exact (proj1 (Hm h _ h1 Hh Hmh))|].
    intros a Hr. discriminate.
Qed.

Lemma confined_modify (f : handler -> handler) :
  (forall h, directory (f h) = directory h /\ wfile (f h) = wfile h) ->
  confined fs root (fun _ => True) (Eff.modify f).
Proof.
  intros Hf h r h' [Hd Hw] Hm. injection Hm as <- <-.
  destruct (Hf h) as [Hfd Hfw]. split; [|now intros].
  split; [congruence|now rewrite Hfw].
Qed.

Lemma confined_when (b : bool) (m : H unit) :
  confined fs root (fun _ => True) m ->
  confined fs root (fun _ => True) (Eff.when b m).
Proof. intros Hm. destruct b; [exact Hm|now apply confined_ret]. Qed.

Lemma confined_write (c : chunk) :
  chunk_from fs root c -> confined fs root (fun _ => True) (wfile_write c).
Proof.
  intros Hc h r h' [Hd Hw] Hm. injection Hm as <- <-. split; [|now intros].
  split; [exact Hd|]. cbn [wfile set_wfile]. apply Forall_app.
  split; [exact Hw|]. now constructor.
Qed.

Lemma confined_send_response_only (code : Z) (message : option string) :
  confined fs root (fun _ => True)
    (BaseHTTPRequestHandler.send_response_only code message).
Proof.
  apply confined_modify. intros h.
  destruct (negb (request_version h =? "HTTP/0.9")); now split.
Qed.

Lemma confined_send_header (keyword value : string) :
  confined fs root (fun _ => True)
    (BaseHTTPRequestHandler.send_header keyword value).
Proof.
  apply confined_modify. intros h.
  destruct (negb (request_version h =? "HTTP/0.9"));
    destruct (Py.lower keyword =? "connection");
    destruct (Py.lower value =? "close");
    destruct (Py.lower value =? "keep-alive"); now split.
Qed.

(** The override writes a header block, or nothing. *)
Lemma confined_end_headers :
  confined fs root (fun _ => True) MyHTTPRequestHandler.end_headers.
Proof.
  intros h r h' [Hd Hw] Hm. rewrite end_headers_spec in Hm.
  injection Hm as <- <-. split; [|now intros].
  destruct (request_version h =? "HTTP/0.9"); [now split|].
  split; [exact Hd|]. cbn [wfile]. apply Forall_app. split; [exact Hw|].
  now repeat constructor.
Qed.

End Confined.

Ltac confined_step :=
  match goal with
  | |- confined ?fs ?root _ (Eff.bind Eff.get _) =>
      apply (confined_bind fs root (sound fs root));
      [apply confined_get|intros ? ?]
  | |- confined _ _ _ (Eff.bind _ _) =>
      apply (confined_bind _ _ (fun _ => True)); [|intros ? _]
  | |- confined _ _ _ (Eff.ret _) => apply confined_ret; exact I
  | |- confined _ _ _ (Eff.raise _) => apply confined_raise
  | |- confined _ _ _ (Eff.when _ _) => apply confined_when
  | |- confined _ _ _ (Eff.modify _) =>
      apply confined_modify; intros []; split; reflexivity
  | |- confined _ _ _ (BaseHTTPRequestHandler.send_header _ _) =>
      apply confined_send_header
  | |- confined _ _ _ (BaseHTTPRequestHandler.send_response_only _ _) =>
      apply confined_send_response_only
  | |- confined _ _ _ MyHTTPRequestHandler.end_headers =>
      apply confined_end_headers
  | |- confined _ _ _ (if ?c then _ else _) => destruct c
  | |- confined _ _ _ (match ?x with _ => _ end) => destruct x
  | |- confined _ _ _ (let '(_, _) := ?x in _) => destruct x
  | |- confined _ _ _ _ => solve [auto]
  end.

Ltac confined_auto := repeat confined_step.

Section ConfinedMethods.
Context {L : Lib}.
Variable fs : filesystem.
Variable root : string.

Lemma confined_send_response (code : Z) (message : option string) :
  confined fs root (fun _ => True)
    (BaseHTTPRequestHandler.send_response code message).
Proof. unfold BaseHTTPRequestHandler.send_response. confined_auto. Qed.

(** [send_error] writes a header block and an error page. *)
Lemma confined_send_error (code : Z) (message explain : option string) :
  confined fs root (fun _ => True)
    (BaseHTTPRequestHandler.send_error MyHTTPRequestHandler.end_headers code message explain).
Proof.
  unfold BaseHTTPRequestHandler.send_error.
  destruct (match responses code with Some r => r | None => ("???", "???") end)
    as [shortmsg longmsg].
  pose proof confined_send_response.
  confined_step; [solve [auto]|]. confined_step; [confined_auto|].
  apply (confined_bind _ _
           (fun body => match body with
                        | Some b => served_from fs root b
                        | None => True
                        end)).
  - destruct ((200 <=? code)%Z
              && negb ((code =? 204)%Z || (code =? 205)%Z || (code =? 304)%Z)).
    + confined_step; [confined_auto|]. confined_step; [confined_auto|].
      apply confined_ret. right. right. now eexists _, _, _.
    + now apply confined_ret.
  - intros [b|] Hb; [|confined_auto].
    confined_step; [confined_auto|]. confined_step.
    confined_step; [|confined_auto]. now apply confined_write.
Qed.

Lemma confined_handle_expect_100 :
  confined fs root (fun _ => True)
    (BaseHTTPRequestHandler.handle_expect_100 MyHTTPRequestHandler.end_headers).
Proof. unfold BaseHTTPRequestHandler.handle_expect_100. confined_auto. Qed.

Lemma confined_parse_request (rq : request) :
  confined fs root (fun _ => True)
    (BaseHTTPRequestHandler.parse_request MyHTTPRequestHandler.end_headers rq).
Proof.
  pose proof confined_send_error. pose proof confined_handle_expect_100.
  unfold BaseHTTPRequestHandler.parse_request,
    BaseHTTPRequestHandler.parse_request_version,
    BaseHTTPRequestHandler.parse_request_headers.
  confined_auto.
Qed.

(** The listing is that of the directory asked for. *)
Lemma confined_list_directory (p : string) :
  within root p ->
  confined fs root (stream_from fs root)
    (SimpleHTTPRequestHandler.list_directory fs MyHTTPRequestHandler.end_headers p).
Proof.
  intros Hp. pose proof confined_send_error. pose proof confined_send_response.
  unfold SimpleHTTPRequestHandler.list_directory,
    SimpleHTTPRequestHandler.self_path.
  assert (Hno : confined fs root (stream_from fs root)
                  (BaseHTTPRequestHandler.send_error MyHTTPRequestHandler.end_headers 404
                     (Some "No permission to list directory") None ;;
                   Eff.ret None)).
  { confined_step; [solve [auto]|]. now apply confined_ret. }
  destruct (fs p) as [[data mtime readable|[names|]]|] eqn:Hfs;
    try exact Hno.
  confined_step. do 4 (confined_step; [confined_auto|]).
  apply confined_ret. right. left. now exists (path a), p, names.
Qed.

(** The bytes of a file handed over are those of the file opened. *)
Lemma confined_send_head_file (p : string) :
  within root p ->
  confined fs root (stream_from fs root)
    (SimpleHTTPRequestHandler.send_head_file fs MyHTTPRequestHandler.end_headers p).
Proof.
  intros Hp. pose proof confined_send_error. pose proof confined_send_response.
  unfold SimpleHTTPRequestHandler.send_head_file.
  assert (Hno : confined fs root (stream_from fs root)
                  (BaseHTTPRequestHandler.send_error MyHTTPRequestHandler.end_headers 404
                     (Some "File not found") None ;;
                   Eff.ret None)).
  { confined_step; [solve [auto]|]. now apply confined_ret. }
  destruct (Py.endswith_char p "/"); [exact Hno|].
  destruct (open_rb fs p) as [f|e] eqn:Ho.
  - confined_step.
    match goal with
    | |- confined _ _ _ (if ?c then _ else _) => destruct c
    end.
    + do 2 (confined_step; [confined_auto|]). now apply confined_ret.
    + do 5 (confined_step; [confined_auto|]). apply confined_ret.
      left. exists p, (f_mtime f). split; [exact Hp|].
      exact (proj2 (open_rb_name fs p f Ho)).
  - destruct (issubclass (e_class e) OSError); [exact Hno|].
    apply confined_raise.
Qed.

Lemma confined_send_head :
  confined fs root (stream_from fs root)
    (SimpleHTTPRequestHandler.send_head fs MyHTTPRequestHandler.end_headers).
Proof.
  pose proof confined_send_response.
  unfold SimpleHTTPRequestHandler.send_head,
    SimpleHTTPRequestHandler.self_path.
  apply (confined_bind _ _ (sound fs root)); [apply confined_get|].
  intros h [Hd Hw].
  pose proof (translate_path_within (directory h) (path h)) as Hp.
  rewrite Hd in *.
  destruct (isdir fs _); [|now apply confined_send_head_file].
  destruct (urlsplit (path h)) as [parts|]; [|apply confined_raise].
  destruct (negb (Py.endswith_char (u_path parts) "/")).
  - do 4 (confined_step; [confined_auto|]). now apply confined_ret.
  - destruct (isfile fs _).
    { apply confined_send_head_file. now apply within_join. }
    destruct (isfile fs _).
    { apply confined_send_head_file. now apply within_join. }
    now apply confined_list_directory.
Qed.

Lemma confined_self_do (command : string) (method : H unit) :
  SimpleHTTPRequestHandler.self_do fs MyHTTPRequestHandler.end_headers command = Some method ->
  confined fs root (fun _ => True) method.
Proof.
  pose proof confined_send_head as Hhead.
  unfold SimpleHTTPRequestHandler.self_do.
  destruct (command =? "GET"); [intros Hm; injection Hm as <-|].
  - unfold SimpleHTTPRequestHandler.do_GET, SimpleHTTPRequestHandler.copyfile.
    apply (confined_bind _ _ (stream_from fs root)); [exact Hhead|].
    intros [s|] Hs; [|confined_auto].
    destruct (Py.nonempty (stream_data s)); [|confined_auto].
    now apply confined_write.
  - destruct (command =? "HEAD"); [intros Hm; injection Hm as <-|discriminate].
    unfold SimpleHTTPRequestHandler.do_HEAD.
    apply (confined_bind _ _ (stream_from fs root)); [exact Hhead|].
    intros s _. confined_auto.
Qed.

Lemma confined_handle_one_request (rq : request) :
  confined fs root (fun _ => True)
    (BaseHTTPRequestHandler.handle_one_request MyHTTPRequestHandler.end_headers
       (SimpleHTTPRequestHandler.self_do fs MyHTTPRequestHandler.end_headers) rq).
Proof.
  pose proof confined_send_error. pose proof confined_parse_request.
  unfold BaseHTTPRequestHandler.handle_one_request.
  repeat first
    [ match goal with
      | |- confined _ _ _
             (match SimpleHTTPRequestHandler.self_do _ _ ?c with _ => _ end) =>
          let Hm := fresh "Hm" in
          destruct (SimpleHTTPRequestHandler.self_do fs MyHTTPRequestHandler.end_headers c)
            eqn:Hm; [exact (confined_self_do _ _ Hm)|]
      end
    | confined_step ].
Qed.

Lemma confined_handle_loop (rfile : list request) :
  confined fs root (fun _ => True)
    (BaseHTTPRequestHandler.handle_loop MyHTTPRequestHandler.end_headers
       (SimpleHTTPRequestHandler.self_do fs MyHTTPRequestHandler.end_headers) rfile).
Proof.
  pose proof confined_handle_one_request.
  induction rfile as [|rq rest IH]; simpl; confined_auto.
Qed.

Lemma confined_handle (rfile : list request) :
  confined fs root (fun _ => True)
    (BaseHTTPRequestHandler.handle MyHTTPRequestHandler.end_headers
       (SimpleHTTPRequestHandler.self_do fs MyHTTPRequestHandler.end_headers) rfile).
Proof.
  pose proof confined_handle_one_request. pose proof confined_handle_loop.
  unfold BaseHTTPRequestHandler.handle. confined_auto.
Qed.

(** Every message body of a connection is an error page, the listing of a
    directory or the bytes of a file, of a path made of the root and plain
    names. *)
Lemma finish_request_confined (rfile : list request) (body : string) :
  In (Body body) (MyHTTPRequestHandler.finish_request fs root rfile) ->
  served_from fs root body.
Proof.
  unfold MyHTTPRequestHandler.finish_request, MyHTTPRequestHandler.handle,
    MyHTTPRequestHandler.self_do.
  intros Hin.
  destruct (BaseHTTPRequestHandler.handle MyHTTPRequestHandler.end_headers
              (SimpleHTTPRequestHandler.self_do fs MyHTTPRequestHandler.end_headers) rfile
              (MyHTTPRequestHandler.init root)) as [r h'] eqn:Hrun.
  assert (Hinit : sound fs root (MyHTTPRequestHandler.init root)).
  { split; [reflexivity|constructor]. }
  destruct (confined_handle rfile _ r h' Hinit Hrun) as [[_ Hw] _].
  rewrite Forall_forall in Hw. exact (Hw _ Hin).
Qed.

End ConfinedMethods.

(** C5, amended: the path served lies at or below the serving root, as a
    path: whatever the request path, with parent-directory segments or
    without, [translate_path] yields the root followed by plain names only;
    a file whose bytes [send_head] hands over was opened under such a path,
    which starts with the root; and every message body written on a
    connection is an error page, the listing of a directory with such a
    path, or the bytes the file system gives for a file with such a path.
    Where no path of this kind leads out of the root through a symbolic
    link, the file whose bytes are sent is one whose canonical path is at
    or below the root as well. *)
Theorem served_path_within_root {L : Lib} (fs : filesystem) :
  (forall directory path,
      within directory (MyHTTPRequestHandler.translate_path directory path))
  /\ (forall (h h' : handler) (f : file_object),
        MyHTTPRequestHandler.send_head fs h = (Return (Some (FileStream f)), h') ->
        within (directory h) (f_name f)
        /\ Py.startswith (f_name f) (directory h) = true
        /\ fs (f_name f) = Some (File (f_data f) (f_mtime f) true))
  /\ (forall (cwd : string) (rfile : list request) (body : string),
        In (Body body) (MyHTTPRequestHandler.finish_request fs cwd rfile) ->
        (exists p mtime,
            within cwd p /\ Py.startswith p cwd = true
            /\ fs p = Some (File body mtime true))
        \/ (exists target p names,
              within cwd p /\ Py.startswith p cwd = true
              /\ fs p = Some (Dir (Some names))
              /\ body = listing_page fs target p names)
        \/ (exists code message explain,
              body = error_body code message explain))
  /\ (forall (cwd : string),
        (forall p, within cwd p -> within cwd (realpath fs p)) ->
        forall (rfile : list request) (body : string),
          In (Body body) (MyHTTPRequestHandler.finish_request fs cwd rfile) ->
          (exists p mtime,
              fs p = Some (File body mtime true)
              /\ within cwd (realpath fs p)
              /\ Py.startswith (realpath fs p) cwd = true)
          \/ (exists target p names,
                fs p = Some (Dir (Some names))
                /\ within cwd (realpath fs p)
                /\ body = listing_page fs target p names)
          \/ (exists code message explain,
                body = error_body code message explain)).
Proof.
  split; [apply translate_path_within|]. split; [|split].
  - intros h h' f Hs. apply send_head_within in Hs. destruct Hs as [Hw Ho].
    split; [exact Hw|]. split; [now apply within_prefix|].
    now destruct (open_rb_name fs (f_name f) f Ho).
  - intros cwd rfile body Hin.
    destruct (finish_request_confined fs cwd rfile body Hin)
      as [(p & mtime & Hp & Hf)|[(target & p & names & Hp & Hd & Hb)|He]].
    + left. exists p, mtime. split; [exact Hp|].
      split; [now apply within_prefix|exact Hf].
    + right. left. exists target, p, names. split; [exact Hp|].
      split; [now apply within_prefix|]. now split.
    + right. right. exact He.
  - intros cwd Hlinks rfile body Hin.
    destruct (finish_request_confined fs cwd rfile body Hin)
      as [(p & mtime & Hp & Hf)|[(target & p & names & Hp & Hd & Hb)|He]].
    + left. exists p, mtime. split; [exact Hf|]. split; [now apply Hlinks|].
      apply within_prefix. now apply Hlinks.
    + right. left. exists target, p, names. split; [exact Hd|].
      split; [now apply Hlinks|exact Hb].
    + right. right. exact He.
Qed.

(** C5, as stated, fails where the serving root holds a symbolic link:
    [notes.txt] in [/srv/test3] leads to [/srv/secret.txt], a file that is
    not under the root, and a GET request for it, here with a
    parent-directory segment, is answered with the bytes of that file. *)
Lemma link_leaves_root :
  realpath Linked.fs "/srv/test3/notes.txt" = "/srv/secret.txt"
  /\ Py.startswith "/srv/secret.txt" "/srv/test3" = false
  /\ Linked.fs "/srv/secret.txt" = Some (File "secret" 3000 true)
  /\ MyHTTPRequestHandler.translate_path (L := Demo.lib)
       "/srv/test3" "/../notes.txt"
     = "/srv/test3/notes.txt"
  /\ MyHTTPRequestHandler.finish_request (L := Demo.lib) Linked.fs "/srv/test3"
       [Demo.get "/../notes.txt"]
     = [HeaderBlock
          (ok_block (L := Demo.lib) "/srv/test3/notes.txt" "secret" 3000);
        Body "secret"].
Proof. repeat split; vm_compute; reflexivity. Qed.

(** A file system without symbolic links: no path leads out of the
    root. *)
Example no_link_leaves_root (root p : string) :
  within root p -> within root (realpath Demo.fs p).
Proof. intros Hp. exact Hp. Qed.

(** ** Paths of plain names *)

Lemma plain_name_inv (word : string) :
  plain_name word = true ->
  Py.nonempty word = true
  /\ (word =? Posixpath.curdir) = false /\ (word =? Posixpath.pardir) = false
  /\ Py.contains word "/" = false.
Proof.
  unfold plain_name. rewrite !Bool.andb_true_iff, !Bool.negb_true_iff.
  intros (((Hn & Hd) & Hdd) & Hs). now repeat split.
Qed.

Lemma plain_no_sep (words : list string) :
  Forall (fun word => plain_name word = true) words ->
  Forall (fun word => Py.contains word "/" = false) words.
Proof. apply Forall_impl. intros word Hw. now apply plain_name_inv in Hw. Qed.

Lemma plain_startswith (word : string) :
  plain_name word = true -> Py.startswith word "/" = false.
Proof.
  intros Hw. apply plain_name_inv in Hw. destruct Hw as (Hn & _ & _ & Hs).
  destruct word as [|a word]; [discriminate|].
  simpl in Hs. apply Bool.orb_false_iff in Hs. destruct Hs as [Hs _].
  cbn [Py.startswith]. now rewrite Ascii.eqb_sym, Hs.
Qed.

Lemma join_startswith (words : list string) :
  Forall (fun word => plain_name word = true) words ->
  Py.startswith (Py.join "/" words) "/" = false.
Proof.
  intros Hw. destruct words as [|word rest]; [reflexivity|].
  inversion Hw as [|? ? Hword Hrest]; subst.
  pose proof (plain_startswith word Hword) as Hs.
  destruct rest as [|word' rest']; [exact Hs|].
  change (Py.join "/" (word :: word' :: rest'))
    with (word ++ String "/" (Py.join "/" (word' :: rest'))).
  apply plain_name_inv in Hword. destruct Hword as (Hn & _).
  destruct word as [|a word]; [discriminate|]. exact Hs.
Qed.

(** [normpath] leaves an absolute path of plain names as it is. *)
Lemma normpath_plain (words : list string) :
  words <> [] ->
  Forall (fun word => plain_name word = true) words ->
  Posixpath.normpath (String "/" (Py.join "/" words))
  = String "/" (Py.join "/" words).
Proof.
  intros Hne Hw. unfold Posixpath.normpath.
  pose proof (join_startswith words Hw) as Hj.
  assert (Hjj : Py.startswith (String "/" (Py.join "/" words)) "//" = false).
  { change (Py.startswith (String "/" (Py.join "/" words)) "//")
      with (Ascii.eqb "/" "/" && Py.startswith (Py.join "/" words) "/").
    now rewrite Hj. }
  rewrite Hjj.
  change (String "/" (Py.join "/" words) =? EmptyString) with false.
  change (Py.startswith (String "/" (Py.join "/" words)) "/") with true.
  cbn iota. cbn [andb].
  unfold Posixpath.sep, Py.split. cbn [Py.split_by]. rewrite Ascii.eqb_refl.
  fold (Py.split (Py.join "/" words) "/").
  rewrite (split_join words "/" Hne (plain_no_sep words Hw)).
  cbn [fold_left].
  replace (Posixpath.norm_step 1 [] EmptyString) with (@nil string) by reflexivity.
  rewrite !norm_loop_plain by assumption.
  now rewrite !app_nil_r, !rev_involutive.
Qed.

Lemma join_snoc (words : list string) (name : string) :
  words <> [] ->
  Py.join "/" (words ++ [name]) = Py.join "/" words ++ String "/" name.
Proof.
  intros Hne. induction words as [|word rest IH]; [contradiction|].
  destruct rest as [|word' rest']; [reflexivity|].
  change (Py.join "/" ((word :: word' :: rest') ++ [name]))
    with (word ++ String "/" (Py.join "/" ((word' :: rest') ++ [name]))).
  rewrite IH by discriminate.
  change (Py.join "/" (word :: word' :: rest'))
    with (word ++ String "/" (Py.join "/" (word' :: rest'))).
  rewrite string_app_assoc. reflexivity.
Qed.

Lemma upto_last_sep_app (p name : string) :
  Py.contains name "/" = false ->
  Posixpath.upto_last_sep (p ++ String "/" name) = p ++ "/".
Proof.
  intros Hn. induction p as [|c p IH].
  - cbn [String.append Posixpath.upto_last_sep].
    rewrite (upto_last_sep_plain name Hn). reflexivity.
  - cbn [String.append Posixpath.upto_last_sep]. rewrite IH.
    destruct p; reflexivity.
Qed.

Lemma rstrip_by_tail (p : ascii -> bool) (s t : string) :
  all_chars p t = true -> Py.rstrip_by p (s ++ t) = Py.rstrip_by p s.
Proof.
  intros Ht. induction s as [|c s IH].
  - cbn [String.append]. now rewrite rstrip_by_all.
  - cbn [String.append Py.rstrip_by]. now rewrite IH.
Qed.

Lemma rstrip_sep_keep (s : string) :
  Py.endswith_char s "/" = false -> Py.rstrip_chars s "/" = s.
Proof.
  unfold Py.rstrip_chars. induction s as [|a r IH]; [reflexivity|].
  cbn [Py.endswith_char Py.rstrip_by]. destruct r as [|b r'].
  - intros Ha. cbn [Py.rstrip_by Py.contains]. now rewrite Ascii.eqb_sym, Ha.
  - intros Hr. now rewrite (IH Hr).
Qed.

Lemma plain_join_endswith (words : list string) :
  words <> [] ->
  Forall (fun word => plain_name word = true) words ->
  Py.endswith_char (String "/" (Py.join "/" words)) "/" = false.
Proof.
  intros Hne Hw.
  assert (Hn : Forall (fun word => Py.nonempty word = true
                                   /\ Py.endswith_char word "/" = false) words).
  { eapply Forall_impl; [|exact Hw]. intros word Hword.
    apply plain_name_inv in Hword. destruct Hword as (Hn & _ & _ & Hs).
    split; [exact Hn|].
    destruct (Py.endswith_char word "/") eqn:He; [|reflexivity].
    apply endswith_char_contains in He. congruence. }
  change (String "/" (Py.join "/" words)) with ("/" ++ Py.join "/" words).
  rewrite endswith_char_app.
  - now apply join_endswith.
  - apply join_nonempty; [exact Hne|].
    eapply Forall_impl; [|exact Hn]. now intros ? [? _].
Qed.

Lemma all_sep_plain (words : list string) (rest : string) :
  words <> [] ->
  Forall (fun word => plain_name word = true) words ->
  Posixpath.all_sep (String "/" (Py.join "/" words) ++ rest) = false.
Proof.
  intros Hne Hw. destruct words as [|word tail]; [contradiction|].
  inversion Hw as [|? ? Hword Htail]; subst.
  pose proof (plain_startswith word Hword) as Hs.
  apply plain_name_inv in Hword. destruct Hword as (Hn & _).
  destruct word as [|a word]; [discriminate|].
  cbn [Py.startswith] in Hs. rewrite Bool.andb_true_r in Hs.
  assert (Ha : Ascii.eqb a Posixpath.sep = false)
    by (unfold Posixpath.sep; now rewrite Ascii.eqb_sym).
  destruct tail as [|word' tail'].
  - cbn [Py.join String.append Posixpath.all_sep]. rewrite Ha.
    now rewrite Bool.andb_false_r.
  - change (Py.join "/" (String a word :: word' :: tail'))
      with (String a (word ++ String "/" (Py.join "/" (word' :: tail')))).
    cbn [String.append Posixpath.all_sep]. rewrite Ha.
    now rewrite Bool.andb_false_r.
Qed.

(** [dirname] of an absolute path of plain names: the path without its
    last name. *)
Lemma dirname_plain_path (dirs : list string) (name : string) :
  Forall (fun word => plain_name word = true) dirs ->
  plain_name name = true ->
  Posixpath.dirname (String "/" (Py.join "/" (dirs ++ [name])))
  = String "/" (Py.join "/" dirs).
Proof.
  intros Hd Hn. pose proof (plain_name_inv name Hn) as (_ & _ & _ & Hs).
  unfold Posixpath.dirname. destruct dirs as [|dir rest].
  - cbn [app Py.join].
    change (String "/" name) with (EmptyString ++ String "/" name).
    rewrite (upto_last_sep_app EmptyString name Hs). reflexivity.
  - rewrite join_snoc by discriminate.
    change (String "/" (Py.join "/" (dir :: rest) ++ String "/" name))
      with (String "/" (Py.join "/" (dir :: rest)) ++ String "/" name).
    rewrite (upto_last_sep_app _ name Hs).
    rewrite (all_sep_plain (dir :: rest) "/") by (discriminate || assumption).
    cbn [String.append Py.nonempty negb andb].
    change (String "/" (Py.join "/" (dir :: rest) ++ "/"))
      with (String "/" (Py.join "/" (dir :: rest)) ++ "/").
    unfold Py.rstrip_chars. rewrite rstrip_by_tail by reflexivity.
    fold (Py.rstrip_chars (String "/" (Py.join "/" (dir :: rest))) "/").
    apply rstrip_sep_keep. apply plain_join_endswith; [discriminate|assumption].
Qed.

Lemma forall_snoc {A : Type} (P : A -> Prop) (l : list A) (x : A) :
  Forall P l -> P x -> Forall P (l ++ [x]).
Proof. intros Hl Hx. apply Forall_app. split; [exact Hl|now constructor]. Qed.

(** [dirname(abspath(__file__))] for an absolute path of plain names: the
    path without its last name. *)
Lemma script_dir_absolute (w : world) (dirs : list string) (name : string) :
  Forall (fun word => plain_name word = true) dirs ->
  plain_name name = true ->
  w_file w = String "/" (Py.join "/" (dirs ++ [name])) ->
  script_dir w = String "/" (Py.join "/" dirs).
Proof.
  intros Hd Hn Hf.
  unfold script_dir, Posixpath.abspath, Posixpath.isabs. rewrite Hf.
  change (Py.startswith (String "/" (Py.join "/" (dirs ++ [name]))) "/") with true.
  cbn iota. rewrite normpath_plain.
  - now apply dirname_plain_path.
  - now destruct dirs.
  - now apply forall_snoc.
Qed.

Lemma join_app (a b : list string) :
  a <> [] -> b <> [] ->
  Py.join "/" (a ++ b) = Py.join "/" a ++ String "/" (Py.join "/" b).
Proof.
  intros Ha Hb. induction a as [|x a IH]; [contradiction|].
  destruct a as [|y a'].
  - cbn [app]. destruct b; [contradiction|reflexivity].
  - change (Py.join "/" ((x :: y :: a') ++ b))
      with (x ++ String "/" (Py.join "/" ((y :: a') ++ b))).
    rewrite IH by discriminate.
    change (Py.join "/" (x :: y :: a'))
      with (x ++ String "/" (Py.join "/" (y :: a'))).
    now rewrite string_app_assoc.
Qed.

(** The same for a relative path of plain names, which [abspath] joins to
    the directory the process starts in. *)
Lemma script_dir_relative (w : world) (start rel : list string) (name : string) :
  Forall (fun word => plain_name word = true) start ->
  Forall (fun word => plain_name word = true) rel ->
  plain_name name = true ->
  w_cwd w = String "/" (Py.join "/" start) ->
  w_file w = Py.join "/" (rel ++ [name]) ->
  script_dir w = String "/" (Py.join "/" (start ++ rel)).
Proof.
  intros Hs Hr Hn Hc Hf.
  assert (Hrn : Forall (fun word => plain_name word = true) (rel ++ [name]))
    by (now apply forall_snoc).
  assert (Habs : (if Posixpath.isabs (w_file w) then w_file w
                  else Posixpath.join (w_cwd w) (w_file w))
                 = String "/" (Py.join "/" ((start ++ rel) ++ [name]))).
  { unfold Posixpath.isabs, Posixpath.join. rewrite Hf, Hc.
    rewrite (join_startswith _ Hrn). cbn [Py.nonempty negb orb].
    rewrite <- app_assoc. destruct start as [|dir rest].
    - reflexivity.
    - unfold Posixpath.sep.
      rewrite (plain_join_endswith (dir :: rest)) by (discriminate || assumption).
      cbn [String.append]. f_equal.
      rewrite (join_app (dir :: rest) (rel ++ [name])%list);
        [reflexivity|discriminate|now destruct rel]. }
  unfold script_dir, Posixpath.abspath. rewrite Habs.
  rewrite normpath_plain.
  - apply dirname_plain_path; [|exact Hn]. apply Forall_app. now split.
  - now destruct (start ++ rel)%list.
  - apply forall_snoc; [|exact Hn]. apply Forall_app. now split.
Qed.


(** ** The process: start, serve, stop *)

Section ProcessFacts.
Context {L : Lib}.
Variable w : world.

Lemma serve_spec (connections : list (list request)) (s : pstate) :
  serve w connections s =
  (Return tt,
   mk_pstate (cwd s)
     (trace s ++
      map (fun rfile =>
             Response (MyHTTPRequestHandler.finish_request (w_fs w) (cwd s) rfile))
          connections)).
Proof.
  revert s; induction connections as [|rfile rest IH]; intros s.
  - simpl. unfold Eff.ret. rewrite app_nil_r. now destruct s.
  - simpl. unfold Eff.bind, getcwd, Eff.gets, emit, Eff.modify.
    rewrite IH. simpl. now rewrite <- app_assoc.
Qed.

(** The [try] statement of [main] around a body that raises. *)
Lemma main_raise (body : P unit) (e : exn) (s s' : pstate)
    (clauses := [ (KeyboardInterrupt, fun _ : exn =>
         print (Py.nl ++ "🛑 Server stopped"));
      (OSError, fun e : exn =>
         if match e_errno e with Some n => (n =? 48)%Z | None => false end then
           print ("❌ Port " ++ Py.str_of_Z PORT ++ " is already in use!") ;;
           print "💡 Try a different port or stop the existing server"
         else
           print ("❌ Error: " ++ str_exn e)) ]) :
  body s = (Raise e, s') ->
  Eff.try_except body clauses s = after e s'.
Proof.
  intros Hb. unfold Eff.try_except. rewrite Hb. unfold after, handled, clauses.
  simpl. destruct (issubclass (e_class e) KeyboardInterrupt).
  - destruct s'; reflexivity.
  - destruct (issubclass (e_class e) OSError); [|reflexivity].
    destruct (match e_errno e with Some n => (n =? 48)%Z | None => false end);
      destruct s'; simpl; unfold print, emit, Eff.bind, Eff.modify; simpl;
      now rewrite <- ?app_assoc.
Qed.

Lemma TCPServer_spec (s : pstate) :
  TCPServer w (EmptyString, PORT) s =
  match startup_error w with
  | Some e => (Raise e, mk_pstate (cwd s) (trace s ++ closing w))
  | None => (Return (EmptyString, PORT),
             mk_pstate (cwd s) (trace s ++ [Listening AllInterfaces PORT]))
  end.
Proof.
  unfold TCPServer, socket_socket, server_bind_activate, server_close,
    startup_error, port_busy, closing, Eff.try_reraise, Eff.bind.
  destruct (w_socket_fault w).
  - unfold Eff.raise. rewrite app_nil_r. now destruct s.
  - unfold Eff.ret.
    destruct (existsb (Z.eqb PORT) (w_busy_ports w)); [reflexivity|].
    destruct (w_bind_fault w); reflexivity.
Qed.

(** [main] when the constructor raises *)
Lemma main_startup_error (e : exn) (s : pstate) :
  startup_error w = Some e ->
  main w s = after e (mk_pstate (cwd s) (trace s ++ closing w)).
Proof.
  intros He. unfold main. apply main_raise.
  unfold with_TCPServer, Eff.bind. now rewrite TCPServer_spec, He.
Qed.

(** [main] when the socket listens *)
Lemma main_listening (s : pstate) :
  startup_error w = None ->
  main w s =
  let t := (trace s ++ [Listening AllInterfaces PORT]
             ++ map Printed (banner (cwd s)) ++ responses_of w (cwd s))%list in
  match w_stop w with
  | Some e => after e (mk_pstate (cwd s) (t ++ [SocketClosed]))
  | None => (Block, mk_pstate (cwd s) t)
  end.
Proof.
  intros He. unfold main.
  destruct (w_stop w) as [e|] eqn:Hstop.
  - apply main_raise.
    unfold with_TCPServer, Eff.bind. rewrite TCPServer_spec, He.
    unfold Eff.try_finally, serve_forever, print, getcwd, emit, Eff.bind,
      Eff.modify, Eff.gets. simpl.
    rewrite serve_spec, Hstop. simpl. unfold Eff.raise, server_close, emit, Eff.modify.
    simpl. unfold responses_of. repeat (rewrite <- app_assoc; simpl). reflexivity.
  - unfold Eff.try_except, with_TCPServer, Eff.bind. rewrite TCPServer_spec, He.
    unfold Eff.try_finally, serve_forever, print, getcwd, emit, Eff.bind,
      Eff.modify, Eff.gets. simpl.
    rewrite serve_spec, Hstop. simpl. unfold Eff.block.
    unfold responses_of. repeat (rewrite <- app_assoc; simpl). reflexivity.
Qed.

Lemma exec_module_main :
  exec_module w "__main__" (start w) = main w (started w).
Proof. reflexivity. Qed.

Lemma exec_module_import (name : string) :
  name <> "__main__" ->
  exec_module w name (start w) = (Return tt, started w).
Proof.
  intros Hn. unfold exec_module, Eff.bind, getcwd, Eff.gets, chdir, emit, Eff.modify.
  simpl. destruct (String.eqb_spec name "__main__"); [contradiction|reflexivity].
Qed.

(** The run of the script, by what happens at line 26 and in the loop. *)
Lemma run_startup_error (e : exn) :
  startup_error w = Some e ->
  run w =
  match handled e with
  | Some lines =>
      (Exited 0,
       mk_pstate (served_dir w)
         ([Chdir (script_dir w)] ++ closing w ++ map Printed lines))
  | None =>
      (Exited 1, mk_pstate (served_dir w) ([Chdir (script_dir w)] ++ closing w))
  end.
Proof.
  intros He. unfold run, run_as. rewrite exec_module_main.
  rewrite (main_startup_error e) by assumption.
  unfold after. destruct (handled e); reflexivity.
Qed.

Lemma run_listening :
  startup_error w = None ->
  run w =
  let d := served_dir w in
  let t := ([Chdir (script_dir w); Listening AllInterfaces PORT]
              ++ map Printed (banner d) ++ responses_of w d)%list in
  match w_stop w with
  | None => (Serving, mk_pstate d t)
  | Some e =>
      match handled e with
      | Some lines =>
          (Exited 0, mk_pstate d (t ++ [SocketClosed] ++ map Printed lines))
      | None => (Exited 1, mk_pstate d (t ++ [SocketClosed]))
      end
  end.
Proof.
  intros He. unfold run, run_as. rewrite exec_module_main.
  rewrite main_listening by assumption.
  destruct (w_stop w) as [e|]; [|reflexivity].
  unfold after. destruct (handled e); simpl; [|reflexivity].
  now rewrite <- app_assoc.
Qed.

End ProcessFacts.

(** No line that an [except] clause prints is a line of the banner. *)
Lemma handled_not_banner {L : Lib} (e : exn) (lines : list string)
    (directory line : string) :
  handled e = Some lines -> In line lines -> ~ In line (banner directory).
Proof.
  unfold handled. intros Hh Hin Hb.
  destruct (issubclass (e_class e) KeyboardInterrupt).
  - injection Hh as <-. simpl in Hin. destruct Hin as [<-|[]].
    simpl in Hb. repeat (destruct Hb as [Hb|Hb]; [discriminate Hb|]). exact Hb.
  - destruct (issubclass (e_class e) OSError); [|discriminate].
    injection Hh as <-.
    destruct (match e_errno e with Some n => (n =? 48)%Z | None => false end);
      simpl in Hin.
    + destruct Hin as [<-|[<-|[]]]; simpl in Hb;
        repeat (destruct Hb as [Hb|Hb]; [discriminate Hb|]); exact Hb.
    + destruct Hin as [<-|[]]. simpl in Hb.
      repeat (destruct Hb as [Hb|Hb]; [discriminate Hb|]). exact Hb.
Qed.

Lemma stdout_app (t u : list event) : stdout (t ++ u) = (stdout t ++ stdout u)%list.
Proof.
  induction t as [|e t IH]; [reflexivity|].
  destruct e; simpl; now rewrite IH.
Qed.

Lemma stdout_prints (lines : list string) : stdout (map Printed lines) = lines.
Proof. induction lines as [|l lines IH]; simpl; congruence. Qed.

Lemma stdout_responses {L : Lib} (w : world) (d : string) : stdout (responses_of w d) = [].
Proof. unfold responses_of. induction (w_connections w); simpl; auto. Qed.

Lemma no_chdir_prints (lines : list string) :
  forallb (fun e => negb (is_chdir e)) (map Printed lines) = true.
Proof. induction lines; simpl; auto. Qed.

Lemma no_chdir_responses {L : Lib} (w : world) (d : string) :
  forallb (fun e => negb (is_chdir e)) (responses_of w d) = true.
Proof. unfold responses_of. induction (w_connections w); simpl; auto. Qed.

Lemma no_chdir_closing {L : Lib} (w : world) (tail : list event) :
  forallb (fun e => negb (is_chdir e)) tail = true ->
  forallb (fun e => negb (is_chdir e)) (closing w ++ tail)%list = true.
Proof. unfold closing. now destruct (w_socket_fault w). Qed.

Lemma no_response_closing {L : Lib} (w : world) (tail : list event)
    (out : list chunk) :
  In (Response out) (closing w ++ tail)%list -> In (Response out) tail.
Proof.
  unfold closing. destruct (w_socket_fault w); [now intros|].
  intros [Hd|Hin]; [discriminate|exact Hin].
Qed.

(** The trace of a run, in the three ways a run can go. *)
Lemma run_as_cases {L : Lib} (w : world) (name : string) :
  let d := served_dir w in
  exists (st : status) (rest : list event),
    run_as name w = (st, mk_pstate d (Chdir (script_dir w) :: rest))
    /\ forallb (fun e => negb (is_chdir e)) rest = true
    /\ (forall out, In (Response out) rest ->
          exists rfile, out = MyHTTPRequestHandler.finish_request (w_fs w) d rfile).
Proof.
  intros d. destruct (String.eqb_spec name "__main__") as [->|Hn].
  - fold (run w). destruct (startup_error w) as [e|] eqn:He.
    + rewrite (run_startup_error w e He).
      destruct (handled e) as [lines|].
      * exists (Exited 0), (closing w ++ map Printed lines)%list. split; [reflexivity|].
        split; [apply no_chdir_closing, no_chdir_prints|].
        intros out Hin. apply no_response_closing in Hin.
        apply in_map_iff in Hin. destruct Hin as (x & Hx & _). discriminate.
      * exists (Exited 1), (closing w). split; [reflexivity|].
        split; [rewrite <- (app_nil_r (closing w)); now apply no_chdir_closing|].
        intros out Hin. rewrite <- (app_nil_r (closing w)) in Hin.
        apply no_response_closing in Hin. destruct Hin.
    + rewrite (run_listening w He). cbv zeta. fold d.
      assert (Hresp : forall out tail,
                 (forall o, In (Response o) tail -> False) ->
                 In (Response out)
                   (Listening AllInterfaces PORT
                      :: map Printed (banner d) ++ responses_of w d ++ tail) ->
                 exists rfile,
                   out = MyHTTPRequestHandler.finish_request (w_fs w) d rfile).
      { intros out tail Ht Hin. cbn [app In] in Hin.
        destruct Hin as [Hd|Hin]; [discriminate|].
        apply in_app_or in Hin. destruct Hin as [Hin|Hin].
        - apply in_map_iff in Hin. destruct Hin as (x & Hx & _). discriminate.
        - apply in_app_or in Hin. destruct Hin as [Hin|Hin].
          + unfold responses_of in Hin. apply in_map_iff in Hin.
            destruct Hin as (rfile & Hx & _). injection Hx as <-. now exists rfile.
          + destruct (Ht _ Hin). }
      assert (Hno : forall tail,
                 forallb (fun e => negb (is_chdir e)) tail = true ->
                 forallb (fun e => negb (is_chdir e))
                   (Listening AllInterfaces PORT
                      :: map Printed (banner d) ++ responses_of w d ++ tail) = true).
      { intros tail Ht. cbn [forallb is_chdir negb andb].
        rewrite !forallb_app, Ht, no_chdir_responses, no_chdir_prints.
        reflexivity. }
      destruct (w_stop w) as [e|].
      * destruct (handled e) as [lines|].
        -- exists (Exited 0),
             (Listening AllInterfaces PORT
                :: map Printed (banner d) ++ responses_of w d
                   ++ SocketClosed :: map Printed lines).
           split; [cbn [app]; rewrite <- ?app_assoc; reflexivity|].
           split; [apply Hno; simpl; apply no_chdir_prints|].
           intros out. apply Hresp. intros o [Hd|Hin]; [discriminate|].
           apply in_map_iff in Hin. destruct Hin as (x & Hx & _). discriminate.
        -- exists (Exited 1),
             (Listening AllInterfaces PORT
                :: map Printed (banner d) ++ responses_of w d ++ [SocketClosed]).
           split; [cbn [app]; rewrite <- ?app_assoc; reflexivity|].
           split; [apply Hno; reflexivity|].
           intros out. apply Hresp. intros o [Hd|[]]. discriminate.
      * exists Serving,
          (Listening AllInterfaces PORT
             :: map Printed (banner d) ++ responses_of w d ++ []).
        split; [cbn [app]; now rewrite app_nil_r|].
        split; [apply Hno; reflexivity|].
        intros out. apply Hresp. intros o [].
  - exists (Exited 0), []. unfold run_as. rewrite exec_module_import by assumption.
    split; [reflexivity|]. split; [reflexivity|]. intros out [].
Qed.




(** C8: the port is the constant 8000 and no input changes it: the run
    reads neither the command line nor the environment, every socket the
    program listens on is bound to port 8000 on all local interfaces, and
    that is the socket it listens on whenever the constructor succeeds. *)
Theorem port_fixed_all_interfaces {L : Lib} (w : world) :
  PORT = 8000%Z
  /\ (forall argv environ, run (with_inputs w argv environ) = run w)
  /\ (forall on port,
        In (Listening on port) (trace (snd (run w))) ->
        on = AllInterfaces /\ port = 8000%Z)
  /\ (startup_error w = None ->
      In (Listening AllInterfaces 8000) (trace (snd (run w)))).
Proof.
  split; [reflexivity|]. split; [intros; reflexivity|]. split.
  - intros on port Hin.
    destruct (startup_error w) as [e|] eqn:He.
    + rewrite (run_startup_error w e He) in Hin. exfalso.
      assert (Hc : forall tail,
                 In (Listening on port) (closing w ++ tail)%list ->
                 In (Listening on port) tail).
      { intros tail. unfold closing. destruct (w_socket_fault w); [now intros|].
        intros [Hd|Hin']; [discriminate|exact Hin']. }
      destruct (handled e) as [lines|]; cbn [snd trace app In] in Hin;
        destruct Hin as [Hd|Hin]; try discriminate.
      * apply Hc in Hin.
        apply in_map_iff in Hin. destruct Hin as (x & Hx & _). discriminate.
      * rewrite <- (app_nil_r (closing w)) in Hin. apply Hc in Hin. destruct Hin.
    + assert (Hcore : forall tail,
                 (forall o p, ~ In (Listening o p) tail) ->
                 In (Listening on port)
                   ([Chdir (script_dir w); Listening AllInterfaces PORT]
                      ++ map Printed (banner (served_dir w))
                      ++ responses_of w (served_dir w) ++ tail) ->
                 on = AllInterfaces /\ port = 8000%Z).
      { intros tail Ht Hin'. cbn [app In] in Hin'.
        destruct Hin' as [Hd|[Hd|Hin']]; [discriminate| |].
        - injection Hd as <- <-. now split.
        - apply in_app_or in Hin'. destruct Hin' as [Hin'|Hin'].
          + apply in_map_iff in Hin'. destruct Hin' as (x & Hx & _). discriminate.
          + apply in_app_or in Hin'. destruct Hin' as [Hin'|Hin'].
            * unfold responses_of in Hin'. apply in_map_iff in Hin'.
              destruct Hin' as (x & Hx & _). discriminate.
            * destruct (Ht _ _ Hin'). }
      rewrite (run_listening w He) in Hin. cbv zeta in Hin.
      destruct (w_stop w) as [e|].
      * destruct (handled e) as [lines|]; cbn [snd trace] in Hin;
          rewrite <- ?app_assoc in Hin; apply Hcore in Hin; auto.
        -- intros o p [Hd|Hin']; [discriminate|].
           apply in_map_iff in Hin'. destruct Hin' as (x & Hx & _). discriminate.
        -- intros o p [Hd|[]]. discriminate.
      * cbn [snd trace] in Hin.
        rewrite <- (app_nil_r (responses_of w (served_dir w))) in Hin.
        rewrite <- ?app_assoc in Hin. apply Hcore in Hin; auto.
  - intros He. rewrite (run_listening w He). cbv zeta.
    destruct (w_stop w) as [e|]; [destruct (handled e)|];
      cbn [snd trace app]; right; left; reflexivity.
Qed.

(** C10: the banner is printed only once the socket listens: when the
    constructor of line 26 raises, no line of the banner, whatever the
    directory it names, is on standard output, and in every run a printed
    banner line comes after the event that the socket listens on port
    8000. *)
Theorem banner_only_after_listening {L : Lib} (w : world) :
  (forall e directory line,
      startup_error w = Some e ->
      In line (banner directory) ->
      ~ In line (stdout (trace (snd (run w)))))
  /\ (forall before directory line later,
        trace (snd (run w)) = (before ++ Printed line :: later)%list ->
        In line (banner directory) ->
        In (Listening AllInterfaces PORT) before).
Proof.
  assert (Hout : forall e,
             startup_error w = Some e ->
             stdout (trace (snd (run w)))
             = match handled e with Some lines => lines | None => [] end).
  { intros e He. rewrite (run_startup_error w e He).
    destruct (handled e) as [lines|]; cbn [snd trace]; rewrite !stdout_app;
      cbn [stdout app]; unfold closing; destruct (w_socket_fault w);
      cbn [stdout app]; rewrite ?stdout_prints; reflexivity. }
  split.
  - intros e directory line He Hb Hin. rewrite (Hout e He) in Hin.
    destruct (handled e) as [lines|] eqn:Hh; [|destruct Hin].
    exact (handled_not_banner e lines directory line Hh Hin Hb).
  - intros before directory line later Ht Hb.
    destruct (startup_error w) as [e|] eqn:He.
    + exfalso.
      assert (Hin : In line (stdout (trace (snd (run w))))).
      { rewrite Ht, stdout_app. apply in_or_app. right. now left. }
      rewrite (Hout e eq_refl) in Hin.
      destruct (handled e) as [lines|] eqn:Hh; [|destruct Hin].
      exact (handled_not_banner e lines directory line Hh Hin Hb).
    + rewrite (run_listening w He) in Ht. cbv zeta in Ht.
      assert (Hshape : exists rest,
                 (before ++ Printed line :: later)%list
                 = Chdir (script_dir w) :: Listening AllInterfaces PORT :: rest).
      { destruct (w_stop w) as [e|]; [destruct (handled e)|];
          cbn [snd trace app] in Ht; rewrite <- Ht; eexists; reflexivity. }
      destruct Hshape as (rest & Hs).
      destruct before as [|a [|b before]]; cbn [app] in Hs.
      * discriminate.
      * discriminate.
      * injection Hs as -> -> _. right; left; reflexivity.
Qed.

(** C6: an interrupt while serving stops the loop, closes the socket,
    prints the shutdown message and ends the process with status 0. *)
Theorem interrupt_stops_cleanly {L : Lib} (w : world) (e : exn) :
  startup_error w = None ->
  w_stop w = Some e ->
  e_class e = KeyboardInterrupt ->
  let d := served_dir w in
  run w =
  (Exited 0,
   mk_pstate d
     ([Chdir (script_dir w); Listening AllInterfaces PORT]
        ++ map Printed (banner d) ++ responses_of w d
        ++ [SocketClosed; Printed (Py.nl ++ "🛑 Server stopped")])).
Proof.
  intros He Hstop Hcls d. rewrite (run_listening w He), Hstop. cbv zeta.
  unfold handled. rewrite Hcls. cbn [issubclass issubclass_upto exc_class_eqb orb].
  fold d. cbn [app map shutdown_message]. now rewrite <- ?app_assoc.
Qed.

Lemma interrupt_stops_cleanly_witness :
  startup_error Worlds.interrupted = None
  /\ w_stop Worlds.interrupted = Some Demo.interrupt
  /\ e_class Demo.interrupt = KeyboardInterrupt
  /\ run (L := Demo.lib) Worlds.interrupted =
     (Exited 0,
      mk_pstate (served_dir Worlds.interrupted)
        ([Chdir (script_dir Worlds.interrupted); Listening AllInterfaces PORT]
           ++ map Printed (banner (served_dir Worlds.interrupted))
           ++ responses_of (L := Demo.lib) Worlds.interrupted
                (served_dir Worlds.interrupted)
           ++ [SocketClosed; Printed (Py.nl ++ "🛑 Server stopped")])).
Proof.
  split; [reflexivity|]. split; [reflexivity|]. split; [reflexivity|].
  apply (interrupt_stops_cleanly Worlds.interrupted Demo.interrupt); reflexivity.
Defined.

(** The message when the port is taken: the targeted diagnostic where
    [errno.EADDRINUSE] is 48, the generic message elsewhere; in both cases
    status 0 and no socket that listens. *)
Lemma address_in_use_message {L : Lib} (w : world) :
  port_busy w = true ->
  run w =
  (Exited 0,
   mk_pstate (served_dir w)
     ([Chdir (script_dir w); SocketClosed]
        ++ map Printed
             (if (errno.EADDRINUSE (w_platform w) =? 48)%Z
              then targeted_diagnostic
              else generic_message (address_in_use w)))).
Proof.
  intros Hb.
  assert (He : startup_error w = Some (address_in_use w))
    by (unfold startup_error; now rewrite Hb).
  rewrite (run_startup_error w _ He).
  unfold port_busy in Hb. unfold closing.
  destruct (w_socket_fault w); [discriminate|]. reflexivity.
Qed.

(** The same failure on macOS, where the error number is 48: the
    targeted diagnostic of lines 42 and 43. *)
Lemma address_in_use_on_macos {L : Lib} (w : world) :
  w_platform w = Darwin ->
  port_busy w = true ->
  run w =
  (Exited 0,
   mk_pstate (served_dir w)
     [Chdir (script_dir w); SocketClosed;
      Printed "❌ Port 8000 is already in use!";
      Printed "💡 Try a different port or stop the existing server"]).
Proof.
  intros Hp Hb. rewrite (address_in_use_message w Hb). unfold address_in_use.
  rewrite Hp. reflexivity.
Qed.

(** C2: on Linux, where the error number of "address already in use" is 98,
    the comparison with 48 at line 41 fails, and a port that another process
    holds gets the generic message of line 45, not the targeted diagnostic of
    lines 42 and 43. The run ends with status 0 and without serving. *)
Theorem address_in_use_on_linux {L : Lib} (w : world) :
  w_platform w = Linux ->
  port_busy w = true ->
  run w =
  (Exited 0,
   mk_pstate (served_dir w)
     [Chdir (script_dir w); SocketClosed;
      Printed "❌ Error: [Errno 98] Address already in use"]).
Proof.
  intros Hp Hb. rewrite (address_in_use_message w Hb). unfold address_in_use.
  rewrite Hp. reflexivity.
Qed.

Lemma address_in_use_on_linux_witness :
  w_platform Worlds.linux_port_taken = Linux
  /\ port_busy Worlds.linux_port_taken = true
  /\ run (L := Demo.lib) Worlds.linux_port_taken =
     (Exited 0,
      mk_pstate (served_dir Worlds.linux_port_taken)
        [Chdir (script_dir Worlds.linux_port_taken); SocketClosed;
         Printed "❌ Error: [Errno 98] Address already in use"]).
Proof.
  split; [reflexivity|]. split; [reflexivity|].
  apply address_in_use_on_linux; reflexivity.
Defined.




(** * Further properties *)

(** ** The process *)

Lemma oserror_not_interrupt (c : exc_class) :
  issubclass c OSError = true -> issubclass c KeyboardInterrupt = false.
Proof. destruct c; intros Hc; try discriminate Hc; reflexivity. Qed.

(** X1: the [try] block of [main] covers [serve_forever] as well as the
    constructor: an [OSError] that ends the serve loop, after any number of
    answered connections, is taken by the clause of line 40. The socket is
    closed first, then the targeted diagnostic is printed when the error
    number is 48 and the generic message otherwise, and the process ends
    with status 0. *)
Theorem oserror_while_serving {L : Lib} (w : world) (e : exn) :
  startup_error w = None ->
  w_stop w = Some e ->
  issubclass (e_class e) OSError = true ->
  run w =
  (Exited 0,
   mk_pstate (served_dir w)
     ([Chdir (script_dir w); Listening AllInterfaces PORT]
        ++ map Printed (banner (served_dir w)) ++ responses_of w (served_dir w)
        ++ [SocketClosed]
        ++ map Printed
             (if match e_errno e with Some n => (n =? 48)%Z | None => false end
              then targeted_diagnostic else generic_message e))).
Proof.
  intros He Hstop Hos. rewrite (run_listening w He), Hstop. cbv zeta.
  unfold handled. rewrite (oserror_not_interrupt _ Hos), Hos.
  now rewrite <- !app_assoc.
Qed.

Lemma oserror_while_serving_witness :
  startup_error MoreWorlds.serving_then_oserror = None
  /\ w_stop MoreWorlds.serving_then_oserror = Some MoreWorlds.late_error
  /\ issubclass (e_class MoreWorlds.late_error) OSError = true
  /\ run (L := Demo.lib) MoreWorlds.serving_then_oserror =
     (Exited 0,
      mk_pstate (served_dir MoreWorlds.serving_then_oserror)
        ([Chdir (script_dir MoreWorlds.serving_then_oserror);
          Listening AllInterfaces PORT]
           ++ map Printed (banner (served_dir MoreWorlds.serving_then_oserror))
           ++ responses_of (L := Demo.lib) MoreWorlds.serving_then_oserror
                (served_dir MoreWorlds.serving_then_oserror)
           ++ [SocketClosed]
           ++ map Printed
                (if match e_errno MoreWorlds.late_error with
                    | Some n => (n =? 48)%Z
                    | None => false
                    end
                 then targeted_diagnostic
                 else generic_message MoreWorlds.late_error))).
Proof.
  split; [reflexivity|]. split; [reflexivity|]. split; [reflexivity|].
  apply oserror_while_serving; reflexivity.
Defined.

(** X2: an exception that ends the serve loop and is neither an [OSError]
    nor a [KeyboardInterrupt] is not caught: the [with] statement still
    closes the socket, nothing is printed after the banner, and the process
    ends with status 1. *)
Theorem other_exception_while_serving {L : Lib} (w : world) (e : exn) :
  startup_error w = None ->
  w_stop w = Some e ->
  issubclass (e_class e) OSError = false ->
  issubclass (e_class e) KeyboardInterrupt = false ->
  run w =
  (Exited 1,
   mk_pstate (served_dir w)
     ([Chdir (script_dir w); Listening AllInterfaces PORT]
        ++ map Printed (banner (served_dir w)) ++ responses_of w (served_dir w)
        ++ [SocketClosed]))
  /\ stdout (trace (snd (run w))) = banner (served_dir w).
Proof.
  intros He Hstop Hos Hki.
  assert (Hrun : run w =
                 (Exited 1,
                  mk_pstate (served_dir w)
                    ([Chdir (script_dir w); Listening AllInterfaces PORT]
                       ++ map Printed (banner (served_dir w))
                       ++ responses_of w (served_dir w) ++ [SocketClosed]))).
  { rewrite (run_listening w He), Hstop. cbv zeta. unfold handled.
    rewrite Hki, Hos. now rewrite <- !app_assoc. }
  split; [exact Hrun|]. rewrite Hrun. cbn [snd trace].
  rewrite !stdout_app, stdout_prints, stdout_responses. cbn [stdout].
  now rewrite !app_nil_r.
Qed.

Lemma other_exception_while_serving_witness :
  startup_error MoreWorlds.serving_then_no_memory = None
  /\ w_stop MoreWorlds.serving_then_no_memory = Some Worlds.out_of_memory
  /\ issubclass (e_class Worlds.out_of_memory) OSError = false
  /\ issubclass (e_class Worlds.out_of_memory) KeyboardInterrupt = false
  /\ (run (L := Demo.lib) MoreWorlds.serving_then_no_memory =
      (Exited 1,
       mk_pstate (served_dir MoreWorlds.serving_then_no_memory)
         ([Chdir (script_dir MoreWorlds.serving_then_no_memory);
           Listening AllInterfaces PORT]
            ++ map Printed (banner (served_dir MoreWorlds.serving_then_no_memory))
            ++ responses_of (L := Demo.lib) MoreWorlds.serving_then_no_memory
                 (served_dir MoreWorlds.serving_then_no_memory)
            ++ [SocketClosed]))
      /\ stdout (trace (snd (run (L := Demo.lib) MoreWorlds.serving_then_no_memory)))
         = banner (served_dir MoreWorlds.serving_then_no_memory)).
Proof.
  split; [reflexivity|]. split; [reflexivity|]. split; [reflexivity|].
  split; [reflexivity|].
  apply (other_exception_while_serving _ Worlds.out_of_memory); reflexivity.
Defined.

Lemma split_at_unique {A : Type} (x : A) (pre post before later : list A) :
  ~ In x pre -> ~ In x post ->
  (before ++ x :: later = pre ++ x :: post)%list ->
  later = post.
Proof.
  revert before. induction pre as [|a pre IH]; intros before Hpre Hpost Heq.
  - destruct before as [|b before]; cbn [app] in Heq.
    + now injection Heq.
    + injection Heq as -> Heq. exfalso. apply Hpost. rewrite <- Heq. apply in_elt.
  - destruct before as [|b before]; cbn [app] in Heq.
    + injection Heq as -> _. exfalso. apply Hpre. now left.
    + injection Heq as _ Heq. apply (IH before); auto.
      intros Hin. apply Hpre. now right.
Qed.

Lemma not_closed_prints (lines : list string) : ~ In SocketClosed (map Printed lines).
Proof. intros Hin. apply in_map_iff in Hin. destruct Hin as (x & Hx & _). discriminate. Qed.

Lemma not_closed_responses {L : Lib} (w : world) (d : string) :
  ~ In SocketClosed (responses_of w d).
Proof.
  unfold responses_of. intros Hin. apply in_map_iff in Hin.
  destruct Hin as (x & Hx & _). discriminate.
Qed.

Lemma not_closed_serving {L : Lib} (w : world) (dir d : string) :
  ~ In SocketClosed
      ([Chdir dir; Listening AllInterfaces PORT]
         ++ map Printed (banner d) ++ responses_of w d).
Proof.
  cbn [app]. intros [Hd|[Hd|Hin]]; try discriminate.
  apply in_app_or in Hin. destruct Hin as [Hin|Hin].
  - exact (not_closed_prints _ Hin).
  - exact (not_closed_responses w d Hin).
Qed.

Lemma started_with_socket {L : Lib} (w : world) :
  startup_error w = None -> w_socket_fault w = None.
Proof.
  unfold startup_error, port_busy. destruct (w_socket_fault w); [|reflexivity].
  discriminate.
Qed.

(** The trace of a run of the script: what happens up to the closing of
    the socket, and the lines printed after it. *)
Lemma run_shape {L : Lib} (w : world) :
  (fst (run w) = Serving
   /\ startup_error w = None /\ w_stop w = None
   /\ w_socket_fault w = None
   /\ ~ In SocketClosed (trace (snd (run w))))
  \/ (exists code pre lines,
        fst (run w) = Exited code
        /\ (startup_error w <> None \/ w_stop w <> None)
        /\ w_socket_fault w = None
        /\ trace (snd (run w)) = (pre ++ SocketClosed :: map Printed lines)%list
        /\ ~ In SocketClosed pre)
  \/ (exists code,
        fst (run w) = Exited code
        /\ startup_error w <> None
        /\ w_socket_fault w <> None
        /\ ~ In SocketClosed (trace (snd (run w)))).
Proof.
  destruct (startup_error w) as [e|] eqn:He.
  - right. rewrite (run_startup_error w e He). unfold closing.
    destruct (w_socket_fault w) as [f|] eqn:Hf.
    + right. destruct (handled e) as [lines|].
      * exists 0%Z. cbn [fst snd trace app].
        split; [reflexivity|]. split; [discriminate|]. split; [discriminate|].
        intros [Hd|Hin]; [discriminate|]. exact (not_closed_prints _ Hin).
      * exists 1%Z. cbn [fst snd trace app].
        split; [reflexivity|]. split; [discriminate|]. split; [discriminate|].
        intros [Hd|[]]. discriminate.
    + left. destruct (handled e) as [lines|].
      * exists 0%Z, [Chdir (script_dir w)], lines. cbn [fst snd trace app].
        split; [reflexivity|]. split; [left; discriminate|].
        split; [reflexivity|]. split; [reflexivity|].
        intros [Hd|[]]. discriminate.
      * exists 1%Z, [Chdir (script_dir w)], []. cbn [fst snd trace app map].
        split; [reflexivity|]. split; [left; discriminate|].
        split; [reflexivity|]. split; [reflexivity|].
        intros [Hd|[]]. discriminate.
  - pose proof (started_with_socket w He) as Hf.
    rewrite (run_listening w He). cbv zeta.
    destruct (w_stop w) as [e|] eqn:Hstop.
    + right. left. destruct (handled e) as [lines|].
      * exists 0%Z,
          ([Chdir (script_dir w); Listening AllInterfaces PORT]
             ++ map Printed (banner (served_dir w))
             ++ responses_of w (served_dir w))%list,
          lines.
        cbn [fst snd trace].
        split; [reflexivity|]. split; [right; discriminate|].
        split; [exact Hf|]. split; [reflexivity|]. apply not_closed_serving.
      * exists 1%Z,
          ([Chdir (script_dir w); Listening AllInterfaces PORT]
             ++ map Printed (banner (served_dir w))
             ++ responses_of w (served_dir w))%list,
          [].
        cbn [fst snd trace map].
        split; [reflexivity|]. split; [right; discriminate|].
        split; [exact Hf|]. split; [reflexivity|]. apply not_closed_serving.
    + left. cbn [fst snd trace]. repeat split; [exact Hf|].
      apply not_closed_serving.
Qed.

(** X3: the socket is closed exactly when the process ends after a socket
    was made. A run is still serving only if the constructor succeeded and
    nothing ended the serve loop, and then the socket was never closed; a
    run that ended closed the socket, once, unless [socket()] itself had
    failed and there was none; and whatever happened after the closing is a
    line printed by an [except] clause: nothing is served, bound or changed
    after it. *)
Theorem socket_closed_when_exited {L : Lib} (w : world) :
  (fst (run w) = Serving <-> startup_error w = None /\ w_stop w = None)
  /\ (In SocketClosed (trace (snd (run w)))
      <-> fst (run w) <> Serving /\ w_socket_fault w = None)
  /\ (forall before later,
        trace (snd (run w)) = (before ++ SocketClosed :: later)%list ->
        ~ In SocketClosed before
        /\ exists lines, later = map Printed lines).
Proof.
  destruct (run_shape w)
    as [(Hs & He & Hstop & Hf & Hno)
       |[(code & pre & lines & Hs & Hor & Hf & Ht & Hno)
        |(code & Hs & He & Hf & Hno)]].
  - split; [|split].
    + split; [now intros _|now intros _].
    + split; [intros Hin; contradiction|intros [Hne _]; contradiction].
    + intros before later Ht. exfalso. apply Hno. rewrite Ht. apply in_elt.
  - split; [|split].
    + split.
      * intros Hserving. rewrite Hs in Hserving. discriminate.
      * intros [He Hstop]. destruct Hor; contradiction.
    + split.
      * intros _. rewrite Hs. split; [discriminate|exact Hf].
      * intros _. rewrite Ht. apply in_elt.
    + intros before later Hsplit. rewrite Ht in Hsplit. symmetry in Hsplit.
      assert (Hlater : later = map Printed lines).
      { apply (split_at_unique SocketClosed pre (map Printed lines) before later);
          [exact Hno|apply not_closed_prints|exact Hsplit]. }
      split; [|now exists lines]. subst later.
      apply app_inv_tail in Hsplit. now subst before.
  - split; [|split].
    + split.
      * intros Hserving. rewrite Hs in Hserving. discriminate.
      * intros [He' _]. contradiction.
    + split; [intros Hin; contradiction|intros [_ Hf']; contradiction].
    + intros before later Ht. exfalso. apply Hno. rewrite Ht. apply in_elt.
Qed.

(** X4: once the socket listens, standard output starts with the ten
    lines of the banner, whose second line names the working directory of
    the process as [os.getcwd] returns it: the canonical path of the
    directory that line 12 entered, and the directory every response is
    served from. What follows the banner is only what an [except] clause
    prints when the loop ends. *)
Theorem banner_names_served_directory {L : Lib} (w : world) :
  startup_error w = None ->
  let final := snd (run w) in
  stdout (trace final)
  = (banner (cwd final)
       ++ match w_stop w with
          | Some e => match handled e with Some lines => lines | None => [] end
          | None => []
          end)%list
  /\ nth_error (stdout (trace final)) 1
     = Some ("📁 Serving files from: " ++ cwd final)
  /\ (exists dir rest,
        trace final = Chdir dir :: rest /\ cwd final = realpath (w_fs w) dir)
  /\ (forall out,
        In (Response out) (trace final) ->
        exists rfile,
          In rfile (w_connections w)
          /\ out = MyHTTPRequestHandler.finish_request (w_fs w) (cwd final) rfile).
Proof.
  intros He final.
  assert (Hcwd : cwd final = served_dir w).
  { subst final. rewrite (run_listening w He). cbv zeta.
    destruct (w_stop w) as [e|]; [now destruct (handled e)|reflexivity]. }
  rewrite Hcwd.
  assert (Hout : stdout (trace final)
                 = (banner (served_dir w)
                      ++ match w_stop w with
                         | Some e =>
                             match handled e with Some lines => lines | None => [] end
                         | None => []
                         end)%list).
  { subst final. rewrite (run_listening w He). cbv zeta.
    destruct (w_stop w) as [e|]; [destruct (handled e) as [lines|]|];
      cbn [snd trace]; rewrite !stdout_app, ?stdout_prints, ?stdout_responses;
      cbn [stdout app]; rewrite ?stdout_prints, ?app_nil_r; reflexivity. }
  split; [exact Hout|]. split; [rewrite Hout; reflexivity|]. split.
  { exists (script_dir w). subst final. rewrite (run_listening w He). cbv zeta.
    destruct (w_stop w) as [e|]; [destruct (handled e) as [lines|]|];
      cbn [snd trace app]; eexists; split; reflexivity. }
  intros out Hin.
  assert (Hcore : forall tail,
             (forall o, ~ In (Response o) tail) ->
             In (Response out)
               ([Chdir (script_dir w); Listening AllInterfaces PORT]
                  ++ map Printed (banner (served_dir w))
                  ++ responses_of w (served_dir w) ++ tail) ->
             exists rfile,
               In rfile (w_connections w)
               /\ out = MyHTTPRequestHandler.finish_request (w_fs w) (served_dir w) rfile).
  { intros tail Ht Hin'. cbn [app In] in Hin'.
    destruct Hin' as [Hd|[Hd|Hin']]; try discriminate.
    apply in_app_or in Hin'. destruct Hin' as [Hin'|Hin'].
    - apply in_map_iff in Hin'. destruct Hin' as (x & Hx & _). discriminate.
    - apply in_app_or in Hin'. destruct Hin' as [Hin'|Hin'].
      + unfold responses_of in Hin'. apply in_map_iff in Hin'.
        destruct Hin' as (rfile & Hx & Hr). injection Hx as <-. now exists rfile.
      + destruct (Ht _ Hin'). }
  subst final. rewrite (run_listening w He) in Hin. cbv zeta in Hin.
  destruct (w_stop w) as [e|].
  - destruct (handled e) as [lines|]; cbn [snd trace] in Hin;
      rewrite <- ?app_assoc in Hin; apply Hcore in Hin; auto.
    + intros o [Hd|Hin']; [discriminate|].
      apply in_map_iff in Hin'. destruct Hin' as (x & Hx & _). discriminate.
    + intros o [Hd|[]]. discriminate.
  - cbn [snd trace] in Hin.
    rewrite <- (app_nil_r (responses_of w (served_dir w))) in Hin.
    rewrite <- ?app_assoc in Hin. apply Hcore in Hin; auto.
Qed.

Lemma banner_names_served_directory_witness :
  startup_error Linked.through_link = None
  /\ (let final := snd (run (L := Demo.lib) Linked.through_link) in
      stdout (trace final)
      = (banner (cwd final)
           ++ match w_stop Linked.through_link with
              | Some e => match handled e with Some lines => lines | None => [] end
              | None => []
              end)%list
      /\ nth_error (stdout (trace final)) 1
         = Some ("📁 Serving files from: " ++ cwd final)
      /\ (exists dir rest,
            trace final = Chdir dir :: rest
            /\ cwd final = realpath (w_fs Linked.through_link) dir)
      /\ (forall out,
            In (Response out) (trace final) ->
            exists rfile,
              In rfile (w_connections Linked.through_link)
              /\ out = MyHTTPRequestHandler.finish_request (L := Demo.lib)
                         (w_fs Linked.through_link) (cwd final) rfile)).
Proof.
  split; [reflexivity|].
  apply banner_names_served_directory. reflexivity.
Defined.

(** The script started under a path that goes through a symbolic link:
    line 12 enters [/srv/link], and the banner names [/srv/test3], the
    canonical path of that directory, from which the request is served. *)
Example banner_through_link :
  script_dir Linked.through_link = "/srv/link"
  /\ cwd (snd (run (L := Demo.lib) Linked.through_link)) = "/srv/test3"
  /\ nth_error (stdout (trace (snd (run (L := Demo.lib) Linked.through_link)))) 1
     = Some "📁 Serving files from: /srv/test3"
  /\ In (Response
           (MyHTTPRequestHandler.finish_request (L := Demo.lib) Linked.fs
              "/srv/test3" [Demo.get "/index.html"]))
        (trace (snd (run (L := Demo.lib) Linked.through_link))).
Proof.
  split; [reflexivity|]. split; [vm_compute; reflexivity|].
  split; [vm_compute; reflexivity|].
  vm_compute. right. right. do 10 right. left. reflexivity.
Qed.

(** ** The directory of the script *)

(** A run of the script enters the directory of the script first, stays
    there, and serves from it. *)
Lemma run_directory {L : Lib} (w : world) :
  (exists rest, trace (snd (run w)) = Chdir (script_dir w) :: rest)
  /\ cwd (snd (run w)) = served_dir w
  /\ (forall out,
        In (Response out) (trace (snd (run w))) ->
        exists rfile,
          out = MyHTTPRequestHandler.finish_request (w_fs w) (served_dir w) rfile).
Proof.
  destruct (run_as_cases w "__main__") as (st & rest & Hrun & _ & Hresp).
  fold (run w) in Hrun. rewrite Hrun. cbn [snd trace cwd].
  split; [now exists rest|]. split; [reflexivity|].
  intros out [Hd|Hin]; [discriminate|now apply Hresp].
Qed.

(** X5: started with the absolute path of the script, the process enters
    and serves the directory the script is in, whatever directory it was
    started from: line 12 changes to [__file__] without its last name (with
    no trailing separator unless it is the root), the working directory is
    from then on that directory under its canonical path, and every
    response is served from it. *)
Theorem script_dir_of_absolute_file {L : Lib} (w : world) (dirs : list string)
    (name : string) :
  Forall (fun word => plain_name word = true) dirs ->
  plain_name name = true ->
  w_file w = String "/" (Py.join "/" (dirs ++ [name])) ->
  let dir := String "/" (Py.join "/" dirs) in
  script_dir w = dir
  /\ (exists rest, trace (snd (run w)) = Chdir dir :: rest)
  /\ cwd (snd (run w)) = realpath (w_fs w) dir
  /\ (forall out,
        In (Response out) (trace (snd (run w))) ->
        exists rfile,
          out = MyHTTPRequestHandler.finish_request (w_fs w)
                  (realpath (w_fs w) dir) rfile).
Proof.
  intros Hd Hn Hf dir.
  pose proof (script_dir_absolute w dirs name Hd Hn Hf) as Hdir. fold dir in Hdir.
  pose proof (run_directory w) as Hrun. unfold served_dir in Hrun.
  rewrite Hdir in Hrun. split; [exact Hdir|exact Hrun].
Qed.

Lemma script_dir_of_absolute_file_witness :
  let dir := String "/" (Py.join "/" ["srv"; "link"]) in
  script_dir Linked.through_link = dir
  /\ (exists rest,
        trace (snd (run (L := Demo.lib) Linked.through_link)) = Chdir dir :: rest)
  /\ cwd (snd (run (L := Demo.lib) Linked.through_link))
     = realpath (w_fs Linked.through_link) dir
  /\ (forall out,
        In (Response out) (trace (snd (run (L := Demo.lib) Linked.through_link))) ->
        exists rfile,
          out = MyHTTPRequestHandler.finish_request (L := Demo.lib)
                  (w_fs Linked.through_link)
                  (realpath (w_fs Linked.through_link) dir) rfile).
Proof.
  apply (script_dir_of_absolute_file (L := Demo.lib) Linked.through_link
           ["srv"; "link"] "start-test-server.py").
  - repeat constructor.
  - reflexivity.
  - reflexivity.
Defined.

(** X6: started with a relative path of the script, the directory entered
    and served is found from the directory the process starts in: the names
    of the relative path are appended to it and the last one dropped.
    Started by its bare name, the script serves the starting directory
    itself. The working directory is that directory under its canonical
    path, and every response is served from it. *)
Theorem script_dir_of_relative_file {L : Lib} (w : world) (start rel : list string)
    (name : string) :
  Forall (fun word => plain_name word = true) start ->
  Forall (fun word => plain_name word = true) rel ->
  plain_name name = true ->
  w_cwd w = String "/" (Py.join "/" start) ->
  w_file w = Py.join "/" (rel ++ [name]) ->
  let dir := String "/" (Py.join "/" (start ++ rel)) in
  script_dir w = dir
  /\ (exists rest, trace (snd (run w)) = Chdir dir :: rest)
  /\ cwd (snd (run w)) = realpath (w_fs w) dir
  /\ (forall out,
        In (Response out) (trace (snd (run w))) ->
        exists rfile,
          out = MyHTTPRequestHandler.finish_request (w_fs w)
                  (realpath (w_fs w) dir) rfile).
Proof.
  intros Hs Hr Hn Hc Hf dir.
  pose proof (script_dir_relative w start rel name Hs Hr Hn Hc Hf) as Hdir.
  fold dir in Hdir.
  pose proof (run_directory w) as Hrun. unfold served_dir in Hrun.
  rewrite Hdir in Hrun. split; [exact Hdir|exact Hrun].
Qed.

Lemma script_dir_of_relative_file_witness :
  let dir := String "/" (Py.join "/" (["srv"; "test3"] ++ [])) in
  script_dir MoreWorlds.started_in_place = dir
  /\ (exists rest,
        trace (snd (run (L := Demo.lib) MoreWorlds.started_in_place))
        = Chdir dir :: rest)
  /\ cwd (snd (run (L := Demo.lib) MoreWorlds.started_in_place))
     = realpath (w_fs MoreWorlds.started_in_place) dir
  /\ (forall out,
        In (Response out)
          (trace (snd (run (L := Demo.lib) MoreWorlds.started_in_place))) ->
        exists rfile,
          out = MyHTTPRequestHandler.finish_request (L := Demo.lib)
                  (w_fs MoreWorlds.started_in_place)
                  (realpath (w_fs MoreWorlds.started_in_place) dir) rfile).
Proof.
  apply (script_dir_of_relative_file (L := Demo.lib) MoreWorlds.started_in_place
           ["srv"; "test3"] [] "start-test-server.py").
  - repeat constructor.
  - constructor.
  - reflexivity.
  - reflexivity.
  - reflexivity.
Defined.

(** ** One request on a connection *)

Lemma closes_ret {A : Type} (a : A) : closes (Eff.ret a).
Proof. intros h r h' Hc Hm. injection Hm as _ <-. exact Hc. Qed.

Lemma closes_raise {A : Type} (e : exn) : closes (Eff.raise (A := A) e).
Proof. intros h r h' Hc Hm. injection Hm as _ <-. exact Hc. Qed.

Lemma closes_get : closes Eff.get.
Proof. intros h r h' Hc Hm. injection Hm as _ <-. exact Hc. Qed.

Lemma closes_bind {A B : Type} (m : H A) (k : A -> H B) :
  closes m -> (forall a, closes (k a)) -> closes (Eff.bind m k).
Proof.
  intros Hm Hk h r h' Hc Hb. unfold Eff.bind in Hb.
  destruct (m h) as [[a| |] h1] eqn:Hmh.
  - exact (Hk a h1 r h' (Hm h _ h1 Hc Hmh) Hb).
  - injection Hb as _ <-. exact (Hm h _ h1 Hc Hmh).
  - injection Hb as _ <-. exact (Hm h _ h1 Hc Hmh).
Qed.

Lemma closes_modify (f : handler -> handler) :
  (forall h, close_connection h = true -> close_connection (f h) = true) ->
  closes (Eff.modify f).
Proof. intros Hf h r h' Hc Hm. injection Hm as _ <-. now apply Hf. Qed.

Lemma closes_write (c : chunk) : closes (wfile_write c).
Proof. apply closes_modify. now intros []. Qed.

Lemma closes_send_response_only (code : Z) (message : option string) :
  closes (BaseHTTPRequestHandler.send_response_only code message).
Proof.
  apply closes_modify. intros h Hc.
  now destruct (negb (request_version h =? "HTTP/0.9")).
Qed.

(** [send_header] keeps the connection one to close, unless it is used to
    send [Connection: keep-alive]. *)
Lemma closes_send_header (keyword value : string) :
  (Py.lower keyword =? "connection") && negb (Py.lower value =? "close") = false ->
  closes (BaseHTTPRequestHandler.send_header keyword value).
Proof.
  intros Hk. apply closes_modify. intros h Hc.
  destruct (negb (request_version h =? "HTTP/0.9"));
    destruct (Py.lower keyword =? "connection");
    destruct (Py.lower value =? "close"); try discriminate Hk;
    destruct (Py.lower value =? "keep-alive"); try assumption; reflexivity.
Qed.

Lemma closes_flush_headers : closes BaseHTTPRequestHandler.flush_headers.
Proof. apply closes_modify. intros h Hc. now destruct (headers_buffer h). Qed.

Ltac closes_step :=
  match goal with
  | |- closes (Eff.bind _ _) => apply closes_bind; [|intros ?]
  | |- closes (Eff.ret _) => apply closes_ret
  | |- closes (Eff.raise _) => apply closes_raise
  | |- closes Eff.get => apply closes_get
  | |- closes (Eff.when ?b _) => unfold Eff.when at 1
  | |- closes (Eff.modify (set_close_connection false)) =>
      exfalso;
      match goal with
      | Hb : (_ && Py.str_ge _ _)%bool = true |- _ =>
          apply Bool.andb_true_iff in Hb; destruct Hb as [_ Hb]; discriminate Hb
      end
  | |- closes (Eff.modify _) =>
      apply closes_modify; intros [] ?; first [assumption|reflexivity]
  | |- closes (wfile_write _) => apply closes_write
  | |- closes BaseHTTPRequestHandler.flush_headers => apply closes_flush_headers
  | |- closes (BaseHTTPRequestHandler.send_header _ _) =>
      apply closes_send_header; reflexivity
  | |- closes (BaseHTTPRequestHandler.send_response_only _ _) =>
      apply closes_send_response_only
  | |- closes (if ?c then _ else _) => destruct c eqn:?
  | |- closes (match ?x with _ => _ end) => destruct x
  | |- closes (let '(_, _) := ?x in _) => destruct x
  | |- closes _ => solve [auto]
  end.

Ltac closes_auto := repeat closes_step.

Lemma closes_end_headers : closes MyHTTPRequestHandler.end_headers.
Proof.
  unfold MyHTTPRequestHandler.end_headers, BaseHTTPRequestHandler.end_headers.
  closes_auto.
Qed.

Section Closes.
Context {L : Lib}.
Variable fs : filesystem.
Variable self_end_headers : H unit.
Hypothesis closes_self_end_headers : closes self_end_headers.

Lemma closes_send_response (code : Z) (message : option string) :
  closes (BaseHTTPRequestHandler.send_response code message).
Proof. unfold BaseHTTPRequestHandler.send_response. closes_auto. Qed.

Lemma closes_send_error (code : Z) (message explain : option string) :
  closes (BaseHTTPRequestHandler.send_error self_end_headers code message explain).
Proof.
  unfold BaseHTTPRequestHandler.send_error.
  destruct (match responses code with Some r => r | None => ("???", "???") end).
  pose proof closes_send_response. closes_auto.
Qed.

Lemma closes_handle_expect_100 :
  closes (BaseHTTPRequestHandler.handle_expect_100 self_end_headers).
Proof. unfold BaseHTTPRequestHandler.handle_expect_100. closes_auto. Qed.

Lemma closes_parse_request (rq : request) :
  closes (BaseHTTPRequestHandler.parse_request self_end_headers rq).
Proof.
  pose proof closes_send_error. pose proof closes_handle_expect_100.
  unfold BaseHTTPRequestHandler.parse_request,
    BaseHTTPRequestHandler.parse_request_version,
    BaseHTTPRequestHandler.parse_request_headers.
  closes_auto.
Qed.

Lemma closes_list_directory (p : string) :
  closes (SimpleHTTPRequestHandler.list_directory fs self_end_headers p).
Proof.
  pose proof closes_send_error. pose proof closes_send_response.
  unfold SimpleHTTPRequestHandler.list_directory. closes_auto.
Qed.

Lemma closes_send_head_file (p : string) :
  closes (SimpleHTTPRequestHandler.send_head_file fs self_end_headers p).
Proof.
  pose proof closes_send_error. pose proof closes_send_response.
  unfold SimpleHTTPRequestHandler.send_head_file. closes_auto.
Qed.

Lemma closes_send_head :
  closes (SimpleHTTPRequestHandler.send_head fs self_end_headers).
Proof.
  pose proof closes_send_response. pose proof closes_send_head_file.
  pose proof closes_list_directory.
  unfold SimpleHTTPRequestHandler.send_head. closes_auto.
Qed.

Lemma closes_self_do (command : string) (method : H unit) :
  SimpleHTTPRequestHandler.self_do fs self_end_headers command = Some method ->
  closes method.
Proof.
  pose proof closes_send_head.
  unfold SimpleHTTPRequestHandler.self_do.
  destruct (command =? "GET"); [intros Hm; injection Hm as <-|].
  - unfold SimpleHTTPRequestHandler.do_GET, SimpleHTTPRequestHandler.copyfile.
    closes_auto.
  - destruct (command =? "HEAD"); [intros Hm; injection Hm as <-|discriminate].
    unfold SimpleHTTPRequestHandler.do_HEAD. closes_auto.
Qed.

Lemma closes_handle_one_request (rq : request) :
  closes (BaseHTTPRequestHandler.handle_one_request self_end_headers
            (SimpleHTTPRequestHandler.self_do fs self_end_headers) rq).
Proof.
  pose proof closes_send_error. pose proof closes_parse_request.
  unfold BaseHTTPRequestHandler.handle_one_request.
  repeat first
    [ match goal with
      | |- closes (match SimpleHTTPRequestHandler.self_do _ _ ?c with _ => _ end) =>
          let Hm := fresh "Hm" in
          destruct (SimpleHTTPRequestHandler.self_do fs self_end_headers c)
            eqn:Hm; [exact (closes_self_do _ _ Hm)|]
      end
    | closes_step ].
Qed.

(** The loop of [handle] is not entered when the connection is to be
    closed. *)
Lemma handle_loop_closed (rfile : list request) (h : handler) :
  close_connection h = true ->
  BaseHTTPRequestHandler.handle_loop self_end_headers
    (SimpleHTTPRequestHandler.self_do fs self_end_headers) rfile h
  = (Return tt, h).
Proof.
  intros Hc. destruct rfile; cbn [BaseHTTPRequestHandler.handle_loop];
    unfold Eff.bind at 1, Eff.get; now rewrite Hc.
Qed.

(** [handle] looks at the first request only. *)
Lemma handle_first (rq : request) (rest : list request) (h : handler) :
  BaseHTTPRequestHandler.handle self_end_headers
    (SimpleHTTPRequestHandler.self_do fs self_end_headers) (rq :: rest) h
  = BaseHTTPRequestHandler.handle_one_request self_end_headers
      (SimpleHTTPRequestHandler.self_do fs self_end_headers) rq
      (set_close_connection true h).
Proof.
  unfold BaseHTTPRequestHandler.handle. unfold Eff.bind at 1.
  cbn [Eff.modify]. unfold Eff.bind at 1.
  destruct (BaseHTTPRequestHandler.handle_one_request _ _ rq
              (set_close_connection true h)) as [[[]| |] h1] eqn:Hone;
    [|reflexivity|reflexivity].
  apply handle_loop_closed.
  exact (closes_handle_one_request rq (set_close_connection true h) _ h1
           eq_refl Hone).
Qed.
End Closes.

(** X7: a connection is answered once. The handler speaks HTTP/1.0 and
    never keeps a connection alive, whatever version and [Connection]
    header the client sends: what is written on a connection is the answer
    to its first request, the requests after it are not read, and a
    connection that brings no request gets no answer. *)
Theorem one_request_per_connection {L : Lib} (fs : filesystem) (cwd : string)
    (rq : request) (rest : list request) :
  MyHTTPRequestHandler.finish_request fs cwd (rq :: rest)
  = wfile (snd (MyHTTPRequestHandler.handle_one_request fs rq
                  (MyHTTPRequestHandler.init cwd)))
  /\ MyHTTPRequestHandler.finish_request fs cwd (rq :: rest)
     = MyHTTPRequestHandler.finish_request fs cwd [rq]
  /\ MyHTTPRequestHandler.finish_request fs cwd [] = [].
Proof.
  unfold MyHTTPRequestHandler.finish_request, MyHTTPRequestHandler.handle,
    MyHTTPRequestHandler.handle_one_request, MyHTTPRequestHandler.self_do.
  rewrite !(handle_first fs _ closes_end_headers).
  repeat split; reflexivity.
Qed.

(** ** Requests and error responses *)

Lemma is_word_inv (s : string) :
  is_word s = true ->
  Py.nonempty s = true /\ all_chars (fun c => negb (Py.is_space c)) s = true.
Proof. unfold is_word. now rewrite Bool.andb_true_iff. Qed.

(** The request line without its line end, and its words. *)
Lemma requestline_words (verb target version : string) :
  version = "HTTP/1.0" \/ version = "HTTP/1.1" ->
  Py.rstrip_chars (request_line verb target version) Py.crlf
  = verb ++ " " ++ target ++ " " ++ version.
Proof.
  intros Hv. unfold request_line, Py.rstrip_chars.
  replace (verb ++ " " ++ target ++ " " ++ version ++ Py.crlf)
    with ((verb ++ " " ++ target ++ " ") ++ (version ++ Py.crlf))
    by (now rewrite !string_app_assoc).
  rewrite rstrip_by_app by (destruct Hv; subst; reflexivity).
  replace (Py.rstrip_by (Py.contains Py.crlf) (version ++ Py.crlf)) with version
    by (destruct Hv; subst; reflexivity).
  now rewrite !string_app_assoc.
Qed.

Lemma split_ws_words (verb target version : string) :
  is_word verb = true -> is_word target = true ->
  version = "HTTP/1.0" \/ version = "HTTP/1.1" ->
  Py.split_ws (verb ++ " " ++ target ++ " " ++ version)
  = [verb; target; version].
Proof.
  intros Hc Ht Hv. apply is_word_inv in Hc, Ht.
  destruct Hc as [Hcn Hcs], Ht as [Htn Hts]. unfold Py.split_ws.
  change (verb ++ " " ++ target ++ " " ++ version)
    with (verb ++ String " " (target ++ String " " version)).
  rewrite split_by_word; [|exact Hcs|reflexivity].
  rewrite split_by_word; [|exact Hts|reflexivity].
  rewrite split_by_last by (destruct Hv; subst; reflexivity).
  cbn [filter]. rewrite Hcn, Htn. now destruct Hv; subst.
Qed.

(** [parse_request] accepts a request line of a method, a target and the
    version HTTP/1.0 or HTTP/1.1, and leaves the connection one to
    close. *)
Lemma parse_request_line {L : Lib} (self_end_headers : H unit)
    (verb target version : string) (fields : list (string * string))
    (h : handler) :
  is_word verb = true -> is_word target = true ->
  version = "HTTP/1.0" \/ version = "HTTP/1.1" ->
  BaseHTTPRequestHandler.parse_request self_end_headers
    (mk_request (request_line verb target version) (Headers fields)) h =
  (Return true,
   mk_handler (directory h) (verb ++ " " ++ target ++ " " ++ version)
     (Some verb) (request_path target) version fields true
     (headers_buffer h) (wfile h)).
Proof.
  intros Hc Ht Hv.
  assert (Hpv : exists base number,
             BaseHTTPRequestHandler.parse_version version = Some (base, number)
             /\ BaseHTTPRequestHandler.pair_ge number (2, 0)%Z = false).
  { destruct Hv; subst; eexists _, _; split; reflexivity. }
  destruct Hpv as (base & number & Hver & Hlt).
  rewrite (parse_request_three self_end_headers _ verb target version
             base number h);
    [|cbn [raw_requestline]; rewrite requestline_words by exact Hv;
      now apply split_ws_words|exact Hver|exact Hlt].
  cbn [raw_requestline]. rewrite requestline_words by exact Hv.
  unfold BaseHTTPRequestHandler.parse_request_headers. cbn [header_lines].
  assert (Hp : Py.str_ge BaseHTTPRequestHandler.protocol_version "HTTP/1.1" = false)
    by reflexivity.
  rewrite Hp, !Bool.andb_false_r.
  unfold Eff.bind, Eff.modify, Eff.when, Eff.ret, Eff.get, request_path.
  destruct (Py.lower (headers_get fields "Connection" EmptyString) =? "close");
    reflexivity.
Qed.

(** The answer to a request line of three words is that of the method for
    its command, or the 501 response of [handle_one_request] when the
    handler has none. *)
Lemma finish_request_line {L : Lib} (fs : filesystem) (cwd : string)
    (verb target version : string) (fields : list (string * string))
    (rest : list request) :
  is_word verb = true -> is_word target = true ->
  version = "HTTP/1.0" \/ version = "HTTP/1.1" ->
  (Z.of_nat (String.length (request_line verb target version)) <= 65536)%Z ->
  MyHTTPRequestHandler.finish_request fs cwd
    (mk_request (request_line verb target version) (Headers fields) :: rest)
  = wfile (snd (match MyHTTPRequestHandler.self_do fs verb with
                | Some method => method
                | None =>
                    MyHTTPRequestHandler.send_error 501
                      (Some ("Unsupported method (" ++ repr verb ++ ")")) None
                end (parsed cwd verb target version fields))).
Proof.
  intros Hc Ht Hv Hlen.
  unfold MyHTTPRequestHandler.finish_request, MyHTTPRequestHandler.handle,
    MyHTTPRequestHandler.self_do.
  rewrite (handle_first fs _ closes_end_headers).
  unfold BaseHTTPRequestHandler.handle_one_request. cbn [raw_requestline].
  replace (65536 <? Z.of_nat (String.length (request_line verb target version)))%Z
    with false by (symmetry; apply Z.ltb_ge; exact Hlen).
  replace (Py.nonempty (request_line verb target version)) with true.
  2:{ apply is_word_inv in Hc. destruct Hc as [Hc _].
      destruct verb; [discriminate|reflexivity]. }
  cbn [negb]. unfold Eff.bind at 1.
  rewrite (parse_request_line _ verb target version fields _ Hc Ht Hv).
  cbn [negb]. unfold Eff.bind at 1, Eff.get. cbn [command].
  reflexivity.
Qed.

Ltac handler_simpl :=
  unfold set_close_connection, set_headers_buffer, set_wfile, buffered;
  cbn [directory requestline command path request_version headers
       close_connection headers_buffer wfile app].

(** [send_header] with [Connection: close]. *)
Lemma send_header_close (h : handler) :
  BaseHTTPRequestHandler.send_header "Connection" "close" h =
  (Return tt,
   set_close_connection true
     (if request_version h =? "HTTP/0.9" then h
      else set_headers_buffer
             (Some (buffered h ++ [("Connection: close" ++ Py.crlf)%string])%list) h)).
Proof.
  unfold BaseHTTPRequestHandler.send_header, Eff.modify.
  unfold BaseHTTPRequestHandler.buffer_append, buffered.
  now destruct (request_version h =? "HTTP/0.9").
Qed.

(** [send_error] with a page, on a request that is not an HTTP/0.9 one
    and with no header line waiting: one header block, then the page
    unless the request is a HEAD or the page is empty. *)
Lemma send_error_spec {L : Lib} (code : Z) (message explain : option string)
    (h : handler) :
  (request_version h =? "HTTP/0.9") = false ->
  buffered h = [] ->
  has_page code = true ->
  let msg := match message with Some m => m | None => short_message code end in
  let body :=
    error_body code msg
      (match explain with Some x => x | None => explanation code end) in
  BaseHTTPRequestHandler.send_error MyHTTPRequestHandler.end_headers
    code message explain h =
  (Return tt,
   mk_handler (directory h) (requestline h) (command h) (path h)
     (request_version h) (headers h) true (Some [])
     (wfile h ++ HeaderBlock (error_block code msg body)
        :: (if negb (match command h with Some c => c =? "HEAD" | None => false end)
               && Py.nonempty body
            then [Body body] else []))).
Proof.
  intros Hv Hb Hp msg body.
  unfold BaseHTTPRequestHandler.send_error.
  assert (Hr : (let '(shortmsg, longmsg) :=
                  match responses code with
                  | Some r => r
                  | None => ("???", "???")
                  end in (shortmsg, longmsg))
               = (short_message code, explanation code)).
  { unfold short_message, explanation.
    destruct (responses code) as [[short long]|]; reflexivity. }
  destruct (match responses code with Some r => r | None => ("???", "???") end)
    as [shortmsg longmsg].
  injection Hr as -> ->.
  fold msg. unfold has_page in Hp. rewrite Hp.
  unfold Eff.bind at 1. rewrite send_response_spec by exact Hv.
  rewrite Hb. handler_simpl.
  unfold Eff.bind at 1. rewrite send_header_close. handler_simpl.
  rewrite Hv. handler_simpl.
  unfold Eff.bind at 1. unfold Eff.bind at 1.
  rewrite send_header_plain by reflexivity. handler_simpl.
  rewrite Hv. handler_simpl.
  unfold Eff.bind at 1.
  rewrite send_header_plain by reflexivity. handler_simpl.
  rewrite Hv. handler_simpl.
  unfold Eff.ret at 1.
  unfold Eff.bind at 1. rewrite end_headers_spec. handler_simpl.
  rewrite Hv. handler_simpl.
  unfold Eff.bind at 1, Eff.get. handler_simpl.
  fold body.
  destruct (negb (match command h with Some c => c =? "HEAD" | None => false end)
            && Py.nonempty body);
    unfold wfile_write, Eff.modify, Eff.ret, error_block; handler_simpl;
    rewrite <- ?app_assoc; try rewrite app_nil_r; reflexivity.
Qed.

(** X8: a request with a method other than GET and HEAD is answered 501.
    The handler has no [do_POST] and no [do_OPTIONS]: although line 20
    lets every response say that GET, POST and OPTIONS are allowed, a POST
    and the OPTIONS request of a CORS preflight get the response 501
    Unsupported method, a header block with the CORS headers followed by
    the error page, and the target is not looked at. *)
Theorem unsupported_method_not_implemented {L : Lib} (fs : filesystem)
    (cwd verb target version : string) (fields : list (string * string))
    (rest : list request) :
  is_word verb = true -> is_word target = true ->
  (verb =? "GET") = false -> (verb =? "HEAD") = false ->
  version = "HTTP/1.0" \/ version = "HTTP/1.1" ->
  (Z.of_nat (String.length (request_line verb target version)) <= 65536)%Z ->
  let message := "Unsupported method (" ++ repr verb ++ ")" in
  let body := error_body 501 message (explanation 501) in
  MyHTTPRequestHandler.finish_request fs cwd
    (mk_request (request_line verb target version) (Headers fields) :: rest)
  = HeaderBlock (error_block 501 message body)
      :: (if Py.nonempty body then [Body body] else []).
Proof.
  intros Hc Ht Hg Hh Hv Hlen message body.
  rewrite (finish_request_line fs cwd verb target version fields rest Hc Ht Hv Hlen).
  unfold MyHTTPRequestHandler.self_do, SimpleHTTPRequestHandler.self_do.
  rewrite Hg, Hh. unfold MyHTTPRequestHandler.send_error.
  rewrite send_error_spec;
    [|destruct Hv; subst; reflexivity|reflexivity|reflexivity].
  cbn [snd wfile parsed command app]. rewrite Hh. reflexivity.
Qed.

Lemma unsupported_method_not_implemented_witness :
  MyHTTPRequestHandler.finish_request (L := Demo.lib) Demo.fs "/srv/test3"
    [Requests.preflight]
  = [HeaderBlock
       (String.concat EmptyString
          ([ "HTTP/1.0 501 Unsupported method ('OPTIONS')" ++ Py.crlf;
             "Server: SimpleHTTP/0.6 Python/3.11.2" ++ Py.crlf;
             "Date: Thu, 01 Jan 1970 00:00:00 GMT" ++ Py.crlf;
             "Connection: close" ++ Py.crlf;
             "Content-Type: text/html;charset=utf-8" ++ Py.crlf;
             "Content-Length: 74" ++ Py.crlf ]
             ++ cors_lines ++ [Py.crlf]));
     Body ("501 Unsupported method ('OPTIONS')" ++ Py.nl
             ++ "Server does not support this operation" ++ Py.nl)].
Proof.
  exact (unsupported_method_not_implemented (L := Demo.lib) Demo.fs "/srv/test3"
           "OPTIONS" "/index.html" "HTTP/1.1"
           [("Origin", "http://localhost:3000");
            ("Access-Control-Request-Method", "POST")] []
           eq_refl eq_refl eq_refl eq_refl (or_intror eq_refl)
           ltac:(vm_compute; discriminate)).
Defined.

(** ** Requests for files *)

Lemma target_is_word (words : list string) :
  Forall (fun word => url_plain word = true) words ->
  is_word (target_of words) = true.
Proof.
  intros Hw. unfold is_word, target_of. cbn [Py.nonempty andb].
  now apply target_no_space.
Qed.

Lemma target_path (words : list string) :
  words <> [] ->
  Forall (fun word => url_plain word = true) words ->
  request_path (target_of words) = target_of words.
Proof.
  intros Hne Hw. unfold request_path, target_of.
  now rewrite (target_single_slash words Hne Hw).
Qed.

(** [send_head] for a path of plain names that is not a directory goes on
    with the file of that path below the directory served. *)
Lemma send_head_plain {L : Lib} (fs : filesystem) (cwd verb version : string)
    (words : list string) (fields : list (string * string)) :
  words <> [] ->
  Forall (fun word => url_plain word = true) words ->
  isdir fs (descend cwd words) = false ->
  MyHTTPRequestHandler.send_head fs
    (parsed cwd verb (target_of words) version fields)
  = SimpleHTTPRequestHandler.send_head_file fs MyHTTPRequestHandler.end_headers
      (descend cwd words) (parsed cwd verb (target_of words) version fields).
Proof.
  intros Hne Hw Hd.
  unfold MyHTTPRequestHandler.send_head, SimpleHTTPRequestHandler.send_head.
  unfold Eff.bind at 1, Eff.get.
  cbn [parsed directory SimpleHTTPRequestHandler.self_path path].
  rewrite (target_path words Hne Hw). unfold target_of.
  rewrite (translate_path_plain cwd words Hne Hw), Hd. reflexivity.
Qed.

(** [send_head] when [open] raises an [OSError]. *)
Lemma send_head_file_missing {L : Lib} (fs : filesystem) (p : string)
    (e : exn) (h : handler) :
  open_rb fs p = NotOpened e ->
  issubclass (e_class e) OSError = true ->
  SimpleHTTPRequestHandler.send_head_file fs MyHTTPRequestHandler.end_headers p h
  = Eff.bind (MyHTTPRequestHandler.send_error 404 (Some "File not found") None)
      (fun _ => Eff.ret None) h.
Proof.
  intros Ho He. unfold SimpleHTTPRequestHandler.send_head_file. rewrite Ho, He.
  now destruct (Py.endswith_char p "/").
Qed.

(** X9: a GET or HEAD request for a path of plain names that is not a
    directory and that [open] refuses with an [OSError] is answered 404: a
    file that is missing and one that the process may not read are not told
    apart. The response carries the CORS headers, and the error page unless
    the request is a HEAD. *)
Theorem missing_file_not_found {L : Lib} (fs : filesystem)
    (cwd verb version : string) (words : list string)
    (fields : list (string * string)) (e : exn) (rest : list request) :
  verb = "GET" \/ verb = "HEAD" ->
  words <> [] ->
  Forall (fun word => url_plain word = true) words ->
  version = "HTTP/1.0" \/ version = "HTTP/1.1" ->
  (Z.of_nat (String.length (request_line verb (target_of words) version))
   <= 65536)%Z ->
  isdir fs (descend cwd words) = false ->
  open_rb fs (descend cwd words) = NotOpened e ->
  issubclass (e_class e) OSError = true ->
  let body := error_body 404 "File not found" (explanation 404) in
  MyHTTPRequestHandler.finish_request fs cwd
    (mk_request (request_line verb (target_of words) version) (Headers fields)
       :: rest)
  = HeaderBlock (error_block 404 "File not found" body)
      :: (if (verb =? "GET") && Py.nonempty body then [Body body] else []).
Proof.
  intros Hverb Hne Hw Hv Hlen Hd Ho He body.
  rewrite finish_request_line;
    [|destruct Hverb; subst; reflexivity|now apply target_is_word|exact Hv
     |exact Hlen].
  assert (Hm : MyHTTPRequestHandler.self_do fs verb
               = Some (Eff.bind (MyHTTPRequestHandler.send_head fs)
                         (fun f => if verb =? "GET"
                                   then match f with
                                        | Some f =>
                                            SimpleHTTPRequestHandler.copyfile f
                                        | None => Eff.ret tt
                                        end
                                   else Eff.ret tt))).
  { destruct Hverb; subst; reflexivity. }
  rewrite Hm. unfold Eff.bind at 1.
  rewrite (send_head_plain fs cwd verb version words fields Hne Hw Hd).
  rewrite (send_head_file_missing fs _ e _ Ho He).
  unfold Eff.bind at 1. unfold MyHTTPRequestHandler.send_error.
  rewrite send_error_spec;
    [|destruct Hv; subst; reflexivity|reflexivity|reflexivity].
  unfold Eff.ret. fold body.
  destruct Hverb; subst; cbn [snd wfile parsed command app String.eqb Ascii.eqb
                               Bool.eqb negb andb]; reflexivity.
Qed.

Lemma missing_file_not_found_witness :
  MyHTTPRequestHandler.finish_request (L := Demo.lib) Demo.fs "/srv/test3"
    [mk_request (request_line "HEAD" (target_of ["css"; "nothing.css"]) "HTTP/1.0")
       (Headers [])]
  = [HeaderBlock
       (String.concat EmptyString
          ([ "HTTP/1.0 404 File not found" ++ Py.crlf;
             "Server: SimpleHTTP/0.6 Python/3.11.2" ++ Py.crlf;
             "Date: Thu, 01 Jan 1970 00:00:00 GMT" ++ Py.crlf;
             "Connection: close" ++ Py.crlf;
             "Content-Type: text/html;charset=utf-8" ++ Py.crlf;
             "Content-Length: 49" ++ Py.crlf ]
             ++ cors_lines ++ [Py.crlf]))].
Proof.
  exact (missing_file_not_found (L := Demo.lib) Demo.fs "/srv/test3" "HEAD"
           "HTTP/1.0" ["css"; "nothing.css"] []
           (mk_exn FileNotFoundError (Some 2%Z) "No such file or directory") []
           (or_intror eq_refl) ltac:(discriminate) ltac:(repeat constructor)
           (or_introl eq_refl) ltac:(vm_compute; discriminate) eq_refl eq_refl
           eq_refl).
Defined.

(** [send_head] for a file that opens: the 200 header block. *)
Lemma send_head_existing {L : Lib} (fs : filesystem) (cwd verb version : string)
    (words : list string) (fields : list (string * string)) (data : string)
    (mtime : Z) :
  words <> [] ->
  Forall (fun word => url_plain word = true) words ->
  version = "HTTP/1.0" \/ version = "HTTP/1.1" ->
  fs (descend cwd words) = Some (File data mtime true) ->
  not_modified fields mtime = false ->
  MyHTTPRequestHandler.send_head fs
    (parsed cwd verb (target_of words) version fields)
  = (Return (Some (FileStream (mk_file (descend cwd words) data mtime))),
     mk_handler cwd (verb ++ " " ++ target_of words ++ " " ++ version) (Some verb)
       (target_of words) version fields true (Some [])
       [HeaderBlock (ok_block (descend cwd words) data mtime)]).
Proof.
  intros Hne Hw Hv Hfs Hnm.
  rewrite send_head_plain; [|exact Hne|exact Hw|unfold isdir; now rewrite Hfs].
  rewrite (send_head_file_ok fs (descend cwd words) _
             (mk_file (descend cwd words) data mtime)).
  - cbn [parsed directory requestline command path request_version headers
         close_connection wfile app f_data f_mtime].
    now rewrite (target_path words Hne Hw).
  - cbn [parsed request_version]. destruct Hv; subst; reflexivity.
  - apply descend_endswith; [exact Hne|now apply url_plain_plain].
  - now apply open_rb_file.
  - exact Hnm.
  - reflexivity.
Qed.

(** X10: a HEAD request for a readable file is answered with the header
    block that the GET request for it gets, and with nothing after it: a
    GET response is the HEAD response followed by the content of the
    file. *)
Theorem head_is_get_without_body {L : Lib} (fs : filesystem) (cwd : string)
    (words : list string) (version : string) (fields : list (string * string))
    (data : string) (mtime : Z) (rest : list request) :
  words <> [] ->
  Forall (fun word => url_plain word = true) words ->
  fs (descend cwd words) = Some (File data mtime true) ->
  version = "HTTP/1.0" \/ version = "HTTP/1.1" ->
  (Z.of_nat (String.length (request_line "HEAD" (target_of words) version))
   <= 65536)%Z ->
  not_modified fields mtime = false ->
  let answer verb :=
    MyHTTPRequestHandler.finish_request fs cwd
      (mk_request (request_line verb (target_of words) version) (Headers fields)
         :: rest) in
  answer "HEAD" = [HeaderBlock (ok_block (descend cwd words) data mtime)]
  /\ answer "GET"
     = (answer "HEAD" ++ (if Py.nonempty data then [Body data] else []))%list.
Proof.
  intros Hne Hw Hfs Hv Hlen Hnm answer.
  assert (Hhead : answer "HEAD"
                  = [HeaderBlock (ok_block (descend cwd words) data mtime)]).
  { subst answer. cbv beta.
    rewrite finish_request_line;
      [|reflexivity|now apply target_is_word|exact Hv|exact Hlen].
    change (MyHTTPRequestHandler.self_do fs "HEAD")
      with (Some (MyHTTPRequestHandler.do_HEAD fs)).
    unfold MyHTTPRequestHandler.do_HEAD, SimpleHTTPRequestHandler.do_HEAD.
    unfold Eff.bind at 1.
    fold (MyHTTPRequestHandler.send_head fs).
    now rewrite (send_head_existing fs cwd "HEAD" version words fields data mtime). }
  split; [exact Hhead|]. rewrite Hhead. subst answer. cbv beta.
  rewrite finish_request_line;
    [|reflexivity|now apply target_is_word|exact Hv|].
  2:{ revert Hlen. unfold request_line. cbn [String.append String.length].
      lia. }
  change (MyHTTPRequestHandler.self_do fs "GET")
    with (Some (MyHTTPRequestHandler.do_GET fs)).
  unfold MyHTTPRequestHandler.do_GET, SimpleHTTPRequestHandler.do_GET.
  unfold Eff.bind at 1.
  fold (MyHTTPRequestHandler.send_head fs).
  rewrite (send_head_existing fs cwd "GET" version words fields data mtime)
    by assumption.
  unfold SimpleHTTPRequestHandler.copyfile. cbn [stream_data f_data].
  destruct (Py.nonempty data); reflexivity.
Qed.

Lemma head_is_get_without_body_witness :
  let answer verb :=
    MyHTTPRequestHandler.finish_request (L := Demo.lib) Demo.fs "/srv/test3"
      (mk_request (request_line verb (target_of ["css"; "glass.css"]) "HTTP/1.1")
         (Headers []) :: []) in
  answer "HEAD"
  = [HeaderBlock
       (ok_block (L := Demo.lib) (descend "/srv/test3" ["css"; "glass.css"])
          "body{}" 2000)]
  /\ answer "GET"
     = (answer "HEAD" ++ (if Py.nonempty "body{}" then [Body "body{}"] else []))%list.
Proof.
  exact (head_is_get_without_body (L := Demo.lib) Demo.fs "/srv/test3"
           ["css"; "glass.css"] "HTTP/1.1" [] "body{}" 2000 []
           ltac:(discriminate) ltac:(repeat constructor) eq_refl
           (or_intror eq_refl) ltac:(vm_compute; discriminate) eq_refl).
Defined.

(** ** Requests for files whose names need escaping *)

(** [translate_path] on a target without query and fragment that
    [unquote] turns into the path of plain names [words]: the path of
    those names below the directory. *)
Lemma translate_path_target {L : Lib} (directory target : string)
    (words : list string) :
  words <> [] ->
  Forall (fun word => plain_name word = true) words ->
  is_word target = true ->
  Py.contains target "?" = false ->
  Py.contains target "#" = false ->
  Py.endswith_char target "/" = false ->
  unquote target = target_of words ->
  SimpleHTTPRequestHandler.translate_path directory target
  = descend directory words.
Proof.
  intros Hne Hw Ht Hq Hf He Hu. unfold SimpleHTTPRequestHandler.translate_path.
  rewrite (before_absent _ "?") by exact Hq.
  rewrite (before_absent _ "#") by exact Hf.
  apply is_word_inv in Ht. destruct Ht as [_ Hs].
  unfold Py.rstrip. rewrite rstrip_by_absent by exact Hs.
  rewrite He, Hu. unfold target_of.
  rewrite (normpath_plain words Hne Hw).
  unfold Py.split. cbn [Py.split_by]. rewrite Ascii.eqb_refl.
  fold (Py.split (Py.join "/" words) "/").
  rewrite (split_join words "/" Hne (plain_no_sep words Hw)).
  cbn [filter Py.nonempty].
  rewrite (filter_nonempty_all words).
  - now apply translate_loop_plain.
  - eapply Forall_impl; [|exact Hw]. intros word Hword.
    now apply plain_name_inv in Hword.
Qed.

(** *** The escaped form of a name *)


















(** ** Requests without headers in the answer, and over-long ones *)

Lemma not_space_not_line_end (c : ascii) :
  negb (Py.is_space c) = true -> negb (Py.contains Py.crlf c) = true.
Proof.
  intros Hc. unfold Py.crlf. cbn [Py.contains].
  destruct (Ascii.eqb_spec (ascii_of_nat 13) c) as [<-|_]; [discriminate Hc|].
  destruct (Ascii.eqb_spec (ascii_of_nat 10) c) as [<-|_]; [discriminate Hc|].
  reflexivity.
Qed.

(** [parse_request] on the two words of an HTTP/0.9 request: the version
    stays HTTP/0.9. *)
Lemma parse_request_two {L : Lib} (self_end_headers : H unit) (target : string)
    (fields : list (string * string)) (h : handler) :
  is_word target = true ->
  BaseHTTPRequestHandler.parse_request self_end_headers
    (mk_request ("GET " ++ target ++ Py.crlf) (Headers fields)) h =
  (Return true,
   mk_handler (directory h) ("GET " ++ target) (Some "GET") (request_path target)
     "HTTP/0.9" fields true (headers_buffer h) (wfile h)).
Proof.
  intros Ht. apply is_word_inv in Ht. destruct Ht as [Htn Hts].
  assert (Hline : Py.rstrip_chars ("GET " ++ target ++ Py.crlf) Py.crlf
                  = "GET " ++ target).
  { unfold Py.rstrip_chars.
    replace ("GET " ++ target ++ Py.crlf) with (("GET " ++ target) ++ Py.crlf)
      by (now rewrite !string_app_assoc).
    rewrite rstrip_by_tail by reflexivity.
    assert (Hkeep : Py.rstrip_by (Py.contains Py.crlf) target = target).
    { apply rstrip_by_absent.
      exact (all_chars_impl _ _ target not_space_not_line_end Hts). }
    rewrite rstrip_by_app; rewrite Hkeep; [reflexivity|exact Htn]. }
  assert (Hwords : Py.split_ws ("GET " ++ target) = ["GET"; target]).
  { unfold Py.split_ws.
    change ("GET " ++ target) with ("GET" ++ String " " target).
    rewrite split_by_word; [|reflexivity|reflexivity].
    rewrite split_by_last by exact Hts.
    cbn [filter Py.nonempty]. now rewrite Htn. }
  unfold BaseHTTPRequestHandler.parse_request. cbn [raw_requestline].
  rewrite Hline, Hwords.
  unfold BaseHTTPRequestHandler.parse_request_version,
    BaseHTTPRequestHandler.parse_request_headers.
  cbn [List.length Nat.eqb Nat.leb List.nth header_lines].
  assert (Hp : Py.str_ge BaseHTTPRequestHandler.protocol_version "HTTP/1.1" = false)
    by reflexivity.
  rewrite Hp, !Bool.andb_false_r.
  unfold Eff.bind, Eff.modify, Eff.when, Eff.ret, Eff.get, request_path.
  cbn [negb andb String.eqb Ascii.eqb Bool.eqb].
  destruct (Py.startswith target "//");
    destruct (Py.lower (headers_get fields "Connection" EmptyString) =? "close");
    reflexivity.
Qed.

(** [send_head] for a file that opens, on an HTTP/0.9 request: nothing is
    buffered or written. *)
Lemma send_head_file_http09 {L : Lib} (fs : filesystem) (p : string) (h : handler)
    (f : file_object) :
  (request_version h =? "HTTP/0.9") = true ->
  Py.endswith_char p "/" = false ->
  open_rb fs p = Opened f ->
  SimpleHTTPRequestHandler.send_head_file fs MyHTTPRequestHandler.end_headers p h =
  (Return (if not_modified (headers h) (f_mtime f) then None
           else Some (FileStream f)), h).
Proof.
  intros Hv He Ho.
  unfold SimpleHTTPRequestHandler.send_head_file. rewrite He, Ho.
  unfold Eff.bind at 1, Eff.get. fold (not_modified (headers h) (f_mtime f)).
  unfold BaseHTTPRequestHandler.send_response.
  destruct (not_modified (headers h) (f_mtime f)).
  - unfold Eff.bind at 1. unfold Eff.bind at 1.
    rewrite send_response_only_spec, Hv. cbn iota beta.
    unfold Eff.bind at 1. rewrite send_header_plain by reflexivity.
    rewrite Hv. cbn iota beta.
    rewrite send_header_plain by reflexivity. rewrite Hv. cbn iota beta.
    unfold Eff.bind at 1. rewrite end_headers_spec, Hv. reflexivity.
  - unfold Eff.bind at 1. unfold Eff.bind at 1.
    rewrite send_response_only_spec, Hv. cbn iota beta.
    unfold Eff.bind at 1. rewrite send_header_plain by reflexivity.
    rewrite Hv. cbn iota beta.
    rewrite send_header_plain by reflexivity. rewrite Hv. cbn iota beta.
    unfold Eff.bind at 1. rewrite send_header_plain by reflexivity.
    rewrite Hv. cbn iota beta.
    unfold Eff.bind at 1. rewrite send_header_plain by reflexivity.
    rewrite Hv. cbn iota beta.
    unfold Eff.bind at 1. rewrite send_header_plain by reflexivity.
    rewrite Hv. cbn iota beta.
    unfold Eff.bind at 1. rewrite end_headers_spec, Hv. reflexivity.
Qed.

(** X11: a request line of two words, [GET] and the path of a readable
    file, is an HTTP/0.9 request and is answered without any header: the
    content of the file and nothing else, or nothing at all when the
    content is empty or the 304 test of [send_head] holds. No header
    block means no CORS header. *)
Theorem http09_get_without_headers {L : Lib} (fs : filesystem) (cwd : string)
    (words : list string) (fields : list (string * string)) (data : string)
    (mtime : Z) (rest : list request) :
  words <> [] ->
  Forall (fun word => url_plain word = true) words ->
  fs (descend cwd words) = Some (File data mtime true) ->
  (Z.of_nat (String.length ("GET " ++ target_of words ++ Py.crlf)) <= 65536)%Z ->
  MyHTTPRequestHandler.finish_request fs cwd
    (mk_request ("GET " ++ target_of words ++ Py.crlf) (Headers fields) :: rest)
  = if not_modified fields mtime then []
    else if Py.nonempty data then [Body data] else [].
Proof.
  intros Hne Hw Hfs Hlen.
  unfold MyHTTPRequestHandler.finish_request, MyHTTPRequestHandler.handle,
    MyHTTPRequestHandler.self_do.
  rewrite (handle_first fs _ closes_end_headers).
  unfold BaseHTTPRequestHandler.handle_one_request. cbn [raw_requestline].
  replace (65536 <? Z.of_nat (String.length ("GET " ++ target_of words ++ Py.crlf)))%Z
    with false by (symmetry; apply Z.ltb_ge; exact Hlen).
  cbn [String.append Py.nonempty negb]. unfold Eff.bind at 1.
  change (String "G" (String "E" (String "T" (String " " (target_of words ++ Py.crlf)))))
    with ("GET " ++ target_of words ++ Py.crlf).
  rewrite (parse_request_two _ (target_of words) fields _
             (target_is_word words Hw)).
  cbn [negb]. unfold Eff.bind at 1, Eff.get. cbn [command].
  change (SimpleHTTPRequestHandler.self_do fs MyHTTPRequestHandler.end_headers "GET")
    with (Some (SimpleHTTPRequestHandler.do_GET fs MyHTTPRequestHandler.end_headers)).
  unfold SimpleHTTPRequestHandler.do_GET. unfold Eff.bind at 1.
  unfold SimpleHTTPRequestHandler.send_head. unfold Eff.bind at 1, Eff.get.
  cbn [directory SimpleHTTPRequestHandler.self_path path set_close_connection
       MyHTTPRequestHandler.init].
  rewrite (target_path words Hne Hw). unfold target_of.
  rewrite (translate_path_plain cwd words Hne Hw).
  unfold isdir. rewrite Hfs.
  rewrite (send_head_file_http09 fs (descend cwd words) _
             (mk_file (descend cwd words) data mtime));
    [|reflexivity|exact (descend_endswith cwd words Hne (url_plain_plain words Hw))
     |now apply open_rb_file].
  cbn [headers f_mtime].
  destruct (not_modified fields mtime); [reflexivity|].
  unfold SimpleHTTPRequestHandler.copyfile. cbn [stream_data f_data].
  destruct (Py.nonempty data); reflexivity.
Qed.

Lemma http09_get_without_headers_witness :
  MyHTTPRequestHandler.finish_request (L := Demo.lib) Demo.fs "/srv/test3"
    [mk_request ("GET " ++ target_of ["css"; "glass.css"] ++ Py.crlf)
       (Headers [("Origin", "http://localhost:3000")])]
  = [Body "body{}"].
Proof.
  exact (http09_get_without_headers (L := Demo.lib) Demo.fs "/srv/test3"
           ["css"; "glass.css"] [("Origin", "http://localhost:3000")]
           "body{}" 2000 []
           ltac:(discriminate) ltac:(repeat constructor) eq_refl
           ltac:(vm_compute; discriminate)).
Defined.

(** [handle_one_request] on a request line that is too long. *)
Lemma handle_one_request_long {L : Lib} (self_end_headers : H unit)
    (self_do : string -> option (H unit)) (rq : request) (h : handler) :
  (65536 < Z.of_nat (String.length (raw_requestline rq)))%Z ->
  BaseHTTPRequestHandler.handle_one_request self_end_headers self_do rq h
  = BaseHTTPRequestHandler.send_error self_end_headers 414 None None
      (set_command (Some EmptyString)
         (set_request_version EmptyString (set_requestline EmptyString h))).
Proof.
  intros Hlen. unfold BaseHTTPRequestHandler.handle_one_request.
  apply Z.ltb_lt in Hlen. rewrite Hlen. reflexivity.
Qed.

(** X12: a request line of more than 65536 characters is not parsed: the
    answer is 414 Request-URI Too Long, a header block with the CORS
    headers followed by the error page, whatever the line and the headers
    of the request are. *)
Theorem long_request_line_refused {L : Lib} (fs : filesystem) (cwd : string)
    (rq : request) (rest : list request) :
  (65536 < Z.of_nat (String.length (raw_requestline rq)))%Z ->
  let body := error_body 414 (short_message 414) (explanation 414) in
  MyHTTPRequestHandler.finish_request fs cwd (rq :: rest)
  = HeaderBlock (error_block 414 "Request-URI Too Long" body)
      :: (if Py.nonempty body then [Body body] else []).
Proof.
  intros Hlen body.
  unfold MyHTTPRequestHandler.finish_request, MyHTTPRequestHandler.handle,
    MyHTTPRequestHandler.self_do.
  rewrite (handle_first fs _ closes_end_headers).
  rewrite (handle_one_request_long _ _ rq _ Hlen).
  rewrite send_error_spec; [|reflexivity|reflexivity|reflexivity].
  reflexivity.
Qed.

Lemma long_request_line_refused_witness :
  MyHTTPRequestHandler.finish_request (L := Demo.lib) Demo.fs "/srv/test3"
    [Requests.too_long]
  = [HeaderBlock
       (String.concat EmptyString
          ([ "HTTP/1.0 414 Request-URI Too Long" ++ Py.crlf;
             "Server: SimpleHTTP/0.6 Python/3.11.2" ++ Py.crlf;
             "Date: Thu, 01 Jan 1970 00:00:00 GMT" ++ Py.crlf;
             "Connection: close" ++ Py.crlf;
             "Content-Type: text/html;charset=utf-8" ++ Py.crlf;
             "Content-Length: 41" ++ Py.crlf ]
             ++ cors_lines ++ [Py.crlf]));
     Body ("414 Request-URI Too Long" ++ Py.nl ++ "URI is too long" ++ Py.nl)].
Proof.
  exact (long_request_line_refused (L := Demo.lib) Demo.fs "/srv/test3"
           Requests.too_long [] ltac:(vm_compute; reflexivity)).
Defined.

(** ** Query strings *)

Lemma before_app_sep (s q : string) (c : ascii) :
  Py.before (s ++ String c q) c = Py.before s c.
Proof.
  induction s as [|a s IH]; cbn [String.append Py.before].
  - now rewrite Ascii.eqb_refl.
  - now rewrite IH.
Qed.

Lemma before_comm (s : string) (a b : ascii) :
  Py.before (Py.before s a) b = Py.before (Py.before s b) a.
Proof.
  induction s as [|x s IH]; [reflexivity|]. cbn [Py.before].
  destruct (Ascii.eqb x a) eqn:Ha, (Ascii.eqb x b) eqn:Hb; cbn [Py.before];
    rewrite ?Ha, ?Hb; try reflexivity.
  now rewrite IH.
Qed.

(** X13: [translate_path] does not look at the query or the fragment of
    a target: what follows the first [?] or [#] has no part in the path of
    the file that is served. *)
Theorem query_and_fragment_ignored {L : Lib} (directory p q : string) :
  MyHTTPRequestHandler.translate_path directory (p ++ "?" ++ q)
  = MyHTTPRequestHandler.translate_path directory p
  /\ MyHTTPRequestHandler.translate_path directory (p ++ "#" ++ q)
     = MyHTTPRequestHandler.translate_path directory p.
Proof.
  unfold MyHTTPRequestHandler.translate_path,
    SimpleHTTPRequestHandler.translate_path.
  change (p ++ "?" ++ q) with (p ++ String "?" q).
  change (p ++ "#" ++ q) with (p ++ String "#" q).
  split.
  - now rewrite before_app_sep.
  - rewrite (before_comm (p ++ String "#" q)), before_app_sep.
    now rewrite (before_comm p).
Qed.

Lemma translate_path_query {L : Lib} (directory p q : string) :
  SimpleHTTPRequestHandler.translate_path directory (p ++ String "?" q)
  = SimpleHTTPRequestHandler.translate_path directory p.
Proof.
  unfold SimpleHTTPRequestHandler.translate_path. now rewrite before_app_sep.
Qed.

Lemma target_query_word (words : list string) (query : string) :
  Forall (fun word => url_plain word = true) words ->
  all_chars (fun c => negb (Py.is_space c)) query = true ->
  is_word (target_of words ++ String "?" query) = true.
Proof.
  intros Hw Hq. unfold is_word, target_of. cbn [String.append Py.nonempty andb].
  change (String "/" (Py.join "/" words ++ String "?" query))
    with (String "/" (Py.join "/" words) ++ String "?" query).
  rewrite all_chars_app, (target_no_space words Hw). cbn [andb all_chars].
  exact Hq.
Qed.

Lemma target_query_path (words : list string) (query : string) :
  words <> [] ->
  Forall (fun word => url_plain word = true) words ->
  request_path (target_of words ++ String "?" query)
  = target_of words ++ String "?" query.
Proof.
  intros Hne Hw. unfold request_path, target_of.
  pose proof (join_startswith words (url_plain_plain words Hw)) as Hs.
  assert (Hn : Py.nonempty (Py.join "/" words) = true).
  { apply join_nonempty; [exact Hne|].
    eapply Forall_impl; [|exact Hw]. intros word Hword.
    now apply url_plain_inv in Hword. }
  destruct (Py.join "/" words) as [|a j]; [discriminate|].
  cbn [String.append Py.startswith] in *.
  rewrite Bool.andb_true_r in Hs. now rewrite Ascii.eqb_refl, Hs.
Qed.

(** X14: a query string does not change the answer: a GET request for a
    readable file with [?] and any query after its path is answered with
    the 200 response of the request without it, the header block with the
    CORS headers and the content of the file. *)
Theorem query_string_same_file {L : Lib} (fs : filesystem) (cwd : string)
    (words : list string) (query version : string)
    (fields : list (string * string)) (data : string) (mtime : Z)
    (rest : list request) :
  words <> [] ->
  Forall (fun word => url_plain word = true) words ->
  all_chars (fun c => negb (Py.is_space c)) query = true ->
  fs (descend cwd words) = Some (File data mtime true) ->
  version = "HTTP/1.0" \/ version = "HTTP/1.1" ->
  (Z.of_nat (String.length
               (request_line "GET" (target_of words ++ String "?" query) version))
   <= 65536)%Z ->
  not_modified fields mtime = false ->
  MyHTTPRequestHandler.finish_request fs cwd
    (mk_request (request_line "GET" (target_of words ++ String "?" query) version)
       (Headers fields) :: rest)
  = HeaderBlock (ok_block (descend cwd words) data mtime)
      :: (if Py.nonempty data then [Body data] else []).
Proof.
  intros Hne Hw Hq Hfs Hv Hlen Hnm.
  rewrite finish_request_line;
    [|reflexivity|now apply target_query_word|exact Hv|exact Hlen].
  change (MyHTTPRequestHandler.self_do fs "GET")
    with (Some (MyHTTPRequestHandler.do_GET fs)).
  unfold MyHTTPRequestHandler.do_GET, SimpleHTTPRequestHandler.do_GET.
  unfold Eff.bind at 1. unfold SimpleHTTPRequestHandler.send_head.
  unfold Eff.bind at 1, Eff.get.
  cbn [parsed directory SimpleHTTPRequestHandler.self_path path].
  rewrite (target_query_path words query Hne Hw).
  rewrite translate_path_query. unfold target_of.
  rewrite (translate_path_plain cwd words Hne Hw).
  unfold isdir. rewrite Hfs.
  rewrite (send_head_file_ok fs (descend cwd words) _
             (mk_file (descend cwd words) data mtime)).
  - unfold SimpleHTTPRequestHandler.copyfile. cbn [stream_data f_data].
    destruct (Py.nonempty data); reflexivity.
  - cbn [request_version]. destruct Hv; subst; reflexivity.
  - apply descend_endswith; [exact Hne|now apply url_plain_plain].
  - now apply open_rb_file.
  - exact Hnm.
  - reflexivity.
Qed.

Lemma query_string_same_file_witness :
  MyHTTPRequestHandler.finish_request (L := Demo.lib) Demo.fs "/srv/test3"
    [mk_request
       (request_line "GET" (target_of ["css"; "glass.css"] ++ String "?" "v=3")
          "HTTP/1.1")
       (Headers [])]
  = HeaderBlock
      (ok_block (L := Demo.lib) (descend "/srv/test3" ["css"; "glass.css"])
         "body{}" 2000)
      :: (if Py.nonempty "body{}" then [Body "body{}"] else []).
Proof.
  exact (query_string_same_file (L := Demo.lib) Demo.fs "/srv/test3"
           ["css"; "glass.css"] "v=3" "HTTP/1.1" [] "body{}" 2000 []
           ltac:(discriminate) ltac:(repeat constructor) eq_refl eq_refl
           (or_intror eq_refl) ltac:(vm_compute; discriminate) eq_refl).
Defined.

(** ** The override and directories *)

(** X15: the override of lines 17 to 22 never fails and touches nothing
    but the header buffer and the output. On an HTTP/0.9 request it does
    nothing at all. Otherwise it writes one header block, the lines
    buffered so far in their order, then the three CORS lines, then the
    blank line, and leaves the buffer empty; it does so even when no header
    was buffered before, where the method of the base class alone raises
    [AttributeError]. *)
Theorem end_headers_appends_cors (h : handler) :
  exists h',
    MyHTTPRequestHandler.end_headers h = (Return tt, h')
    /\ (directory h' = directory h /\ requestline h' = requestline h
        /\ command h' = command h /\ path h' = path h
        /\ request_version h' = request_version h /\ headers h' = headers h
        /\ close_connection h' = close_connection h)
    /\ (request_version h = "HTTP/0.9" -> h' = h)
    /\ (request_version h <> "HTTP/0.9" ->
        headers_buffer h' = Some []
        /\ wfile h'
           = (wfile h
                ++ [HeaderBlock
                      (String.concat EmptyString (buffered h)
                         ++ String.concat EmptyString cors_lines ++ Py.crlf)])%list
        /\ (headers_buffer h = None ->
            exists e,
              BaseHTTPRequestHandler.end_headers h = (Raise e, h)
              /\ e_class e = AttributeError)).
Proof.
  rewrite end_headers_spec.
  destruct (request_version h =? "HTTP/0.9") eqn:Hv.
  - exists h. split; [reflexivity|]. split; [now repeat split|].
    split; [reflexivity|]. intros Hne. apply String.eqb_eq in Hv. contradiction.
  - eexists. split; [reflexivity|].
    cbn [directory requestline command path request_version headers
         close_connection headers_buffer wfile].
    split; [now repeat split|]. split.
    + intros He. apply String.eqb_neq in Hv. contradiction.
    + intros _. split; [reflexivity|]. split.
      * rewrite !concat_app. cbn [String.concat]. reflexivity.
      * intros Hb. unfold BaseHTTPRequestHandler.end_headers.
        unfold Eff.bind at 1, Eff.get. rewrite Hv, Hb. cbn [negb].
        eexists. split; reflexivity.
Qed.

Lemma translate_path_root {L : Lib} (cwd : string) :
  SimpleHTTPRequestHandler.translate_path cwd "/" = cwd ++ "/".
Proof. reflexivity. Qed.

Lemma join_after_sep (p name : string) :
  Py.startswith name "/" = false ->
  Posixpath.join (p ++ "/") name = p ++ "/" ++ name.
Proof.
  intros Hn. unfold Posixpath.join. rewrite Hn.
  rewrite (endswith_char_app p "/" Posixpath.sep) by reflexivity.
  cbn [Py.endswith_char]. unfold Posixpath.sep. rewrite Ascii.eqb_refl.
  rewrite Bool.orb_true_r. apply string_app_assoc.
Qed.

(** X16: a GET request for [/] is answered with [index.html] of the
    directory served, when that directory has such a file and it is
    readable: its content after a 200 header block with the CORS
    headers. *)
Theorem root_serves_index {L : Lib} (fs : filesystem) (cwd version : string)
    (fields : list (string * string)) (parts : url_parts) (data : string)
    (mtime : Z) (rest : list request) :
  version = "HTTP/1.0" \/ version = "HTTP/1.1" ->
  isdir fs (cwd ++ "/") = true ->
  urlsplit "/" = Some parts ->
  Py.endswith_char (u_path parts) "/" = true ->
  fs (cwd ++ "/index.html") = Some (File data mtime true) ->
  not_modified fields mtime = false ->
  MyHTTPRequestHandler.finish_request fs cwd
    (mk_request (request_line "GET" "/" version) (Headers fields) :: rest)
  = HeaderBlock (ok_block (cwd ++ "/index.html") data mtime)
      :: (if Py.nonempty data then [Body data] else []).
Proof.
  intros Hv Hd Hu He Hfs Hnm.
  rewrite finish_request_line;
    [|reflexivity|reflexivity|exact Hv|destruct Hv; subst; vm_compute; discriminate].
  change (MyHTTPRequestHandler.self_do fs "GET")
    with (Some (MyHTTPRequestHandler.do_GET fs)).
  unfold MyHTTPRequestHandler.do_GET, SimpleHTTPRequestHandler.do_GET.
  unfold Eff.bind at 1. unfold SimpleHTTPRequestHandler.send_head.
  unfold Eff.bind at 1, Eff.get.
  cbn [parsed directory SimpleHTTPRequestHandler.self_path path].
  change (request_path "/") with "/".
  rewrite translate_path_root, Hd, Hu, He. cbn [negb].
  rewrite (join_after_sep cwd "index.html") by reflexivity.
  change ("/" ++ "index.html") with "/index.html".
  unfold isfile. rewrite Hfs.
  rewrite (send_head_file_ok fs (cwd ++ "/index.html") _
             (mk_file (cwd ++ "/index.html") data mtime)).
  - unfold SimpleHTTPRequestHandler.copyfile. cbn [stream_data f_data].
    destruct (Py.nonempty data); reflexivity.
  - cbn [request_version]. destruct Hv; subst; reflexivity.
  - now rewrite (endswith_char_app cwd "/index.html" "/").
  - now apply open_rb_file.
  - exact Hnm.
  - reflexivity.
Qed.

Lemma root_serves_index_witness :
  MyHTTPRequestHandler.finish_request (L := Demo.lib) Demo.fs "/srv/test3"
    [mk_request (request_line "GET" "/" "HTTP/1.1") (Headers [])]
  = HeaderBlock (ok_block (L := Demo.lib) "/srv/test3/index.html" "<h1>neuOS</h1>" 1000)
      :: (if Py.nonempty "<h1>neuOS</h1>" then [Body "<h1>neuOS</h1>"] else []).
Proof.
  exact (root_serves_index (L := Demo.lib) Demo.fs "/srv/test3" "HTTP/1.1" []
           (mk_url EmptyString EmptyString "/" EmptyString EmptyString)
           "<h1>neuOS</h1>" 1000 []
           (or_intror eq_refl) eq_refl eq_refl eq_refl eq_refl eq_refl).
Defined.

(** X17: a GET or HEAD request for a directory, named without a trailing
    separator, is not answered with the directory: the answer is 301 Moved
    Permanently with a [Location] that has the separator added to the
    path, no content, and the CORS headers. *)
Theorem directory_redirected {L : Lib} (fs : filesystem)
    (cwd verb version : string) (words : list string)
    (fields : list (string * string)) (parts : url_parts) (rest : list request) :
  verb = "GET" \/ verb = "HEAD" ->
  words <> [] ->
  Forall (fun word => url_plain word = true) words ->
  version = "HTTP/1.0" \/ version = "HTTP/1.1" ->
  (Z.of_nat (String.length (request_line verb (target_of words) version))
   <= 65536)%Z ->
  isdir fs (descend cwd words) = true ->
  urlsplit (target_of words) = Some parts ->
  Py.endswith_char (u_path parts) "/" = false ->
  MyHTTPRequestHandler.finish_request fs cwd
    (mk_request (request_line verb (target_of words) version) (Headers fields)
       :: rest)
  = [HeaderBlock
       (moved_block
          (urlunsplit (mk_url (u_scheme parts) (u_netloc parts)
                         (u_path parts ++ "/") (u_query parts)
                         (u_fragment parts))))].
Proof.
  intros Hverb Hne Hw Hv Hlen Hd Hu He.
  rewrite finish_request_line;
    [|destruct Hverb; subst; reflexivity|now apply target_is_word|exact Hv
     |exact Hlen].
  assert (Hm : MyHTTPRequestHandler.self_do fs verb
               = Some (Eff.bind (MyHTTPRequestHandler.send_head fs)
                         (fun f => if verb =? "GET"
                                   then match f with
                                        | Some f =>
                                            SimpleHTTPRequestHandler.copyfile f
                                        | None => Eff.ret tt
                                        end
                                   else Eff.ret tt))).
  { destruct Hverb; subst; reflexivity. }
  rewrite Hm. unfold Eff.bind at 1.
  unfold MyHTTPRequestHandler.send_head, SimpleHTTPRequestHandler.send_head.
  unfold Eff.bind at 1, Eff.get.
  cbn [parsed directory SimpleHTTPRequestHandler.self_path path].
  rewrite (target_path words Hne Hw), Hu, He. unfold target_of at 1.
  rewrite (translate_path_plain cwd words Hne Hw), Hd. cbn [negb].
  assert (Hver : (version =? "HTTP/0.9") = false)
    by (destruct Hv; subst; reflexivity).
  unfold parsed.
  unfold Eff.bind at 1. rewrite send_response_spec by exact Hver.
  cbn [buffered headers_buffer]. cbn [app].
  header_step Hver. header_step Hver.
  unfold Eff.bind at 1. rewrite end_headers_spec.
  cbn [request_version set_headers_buffer]. rewrite Hver.
  cbn [buffered headers_buffer set_headers_buffer directory requestline command
       path request_version headers close_connection wfile app].
  unfold Eff.ret, moved_block.
  destruct Hverb; subst; cbn [String.eqb Ascii.eqb Bool.eqb snd wfile];
    rewrite <- ?app_assoc; reflexivity.
Qed.

Lemma directory_redirected_witness :
  MyHTTPRequestHandler.finish_request (L := Demo.lib) Demo.fs "/srv/test3"
    [mk_request (request_line "GET" (target_of ["css"]) "HTTP/1.1") (Headers [])]
  = [HeaderBlock (moved_block (L := Demo.lib) "/css/")].
Proof.
  exact (directory_redirected (L := Demo.lib) Demo.fs "/srv/test3" "GET" "HTTP/1.1"
           ["css"] [] (mk_url EmptyString EmptyString "/css" EmptyString EmptyString)
           [] (or_introl eq_refl) ltac:(discriminate) ltac:(repeat constructor)
           (or_intror eq_refl) ltac:(vm_compute; discriminate)
           eq_refl eq_refl eq_refl).
Defined.

(** X18: a request for [/] when the directory served has neither
    [index.html] nor [index.htm] is answered with the listing of the
    directory: a 200 header block with the CORS headers and the page that
    names its entries, the page left out for a HEAD request. When the
    directory cannot be listed the answer is 404. *)
Theorem root_without_index_listed {L : Lib} (fs : filesystem)
    (cwd verb version : string) (fields : list (string * string))
    (parts : url_parts) (listing : option (list string)) (rest : list request) :
  verb = "GET" \/ verb = "HEAD" ->
  version = "HTTP/1.0" \/ version = "HTTP/1.1" ->
  fs (cwd ++ "/") = Some (Dir listing) ->
  urlsplit "/" = Some parts ->
  Py.endswith_char (u_path parts) "/" = true ->
  isfile fs (cwd ++ "/index.html") = false ->
  isfile fs (cwd ++ "/index.htm") = false ->
  MyHTTPRequestHandler.finish_request fs cwd
    (mk_request (request_line verb "/" version) (Headers fields) :: rest)
  = match listing with
    | Some names =>
        let page := listing_page fs "/" (cwd ++ "/") names in
        HeaderBlock (listing_block page)
          :: (if (verb =? "GET") && Py.nonempty page then [Body page] else [])
    | None =>
        let body :=
          error_body 404 "No permission to list directory" (explanation 404) in
        HeaderBlock (error_block 404 "No permission to list directory" body)
          :: (if (verb =? "GET") && Py.nonempty body then [Body body] else [])
    end.
Proof.
  intros Hverb Hv Hfs Hu He Hi Hj.
  rewrite finish_request_line;
    [|destruct Hverb; subst; reflexivity|reflexivity|exact Hv
     |destruct Hverb, Hv; subst; vm_compute; discriminate].
  assert (Hm : MyHTTPRequestHandler.self_do fs verb
               = Some (Eff.bind (MyHTTPRequestHandler.send_head fs)
                         (fun f => if verb =? "GET"
                                   then match f with
                                        | Some f =>
                                            SimpleHTTPRequestHandler.copyfile f
                                        | None => Eff.ret tt
                                        end
                                   else Eff.ret tt))).
  { destruct Hverb; subst; reflexivity. }
  rewrite Hm. unfold Eff.bind at 1.
  unfold MyHTTPRequestHandler.send_head, SimpleHTTPRequestHandler.send_head.
  unfold Eff.bind at 1, Eff.get.
  cbn [parsed directory SimpleHTTPRequestHandler.self_path path].
  change (request_path "/") with "/".
  rewrite translate_path_root. unfold isdir. rewrite Hfs, Hu, He. cbn [negb].
  rewrite (join_after_sep cwd "index.html") by reflexivity.
  rewrite (join_after_sep cwd "index.htm") by reflexivity.
  change ("/" ++ "index.html") with "/index.html".
  change ("/" ++ "index.htm") with "/index.htm".
  rewrite Hi, Hj.
  assert (Hver : (version =? "HTTP/0.9") = false)
    by (destruct Hv; subst; reflexivity).
  unfold SimpleHTTPRequestHandler.list_directory. rewrite Hfs.
  destruct listing as [names|].
  - unfold Eff.bind at 1, Eff.get.
    cbn [parsed SimpleHTTPRequestHandler.self_path path].
    change (request_path "/") with "/". unfold parsed.
    unfold Eff.bind at 1. rewrite send_response_spec by exact Hver.
    cbn [buffered headers_buffer]. cbn [app].
    header_step Hver. header_step Hver.
    unfold Eff.bind at 1. rewrite end_headers_spec.
    cbn [request_version set_headers_buffer]. rewrite Hver.
    cbn [buffered headers_buffer set_headers_buffer directory requestline command
         path request_version headers close_connection wfile app].
    unfold Eff.ret, listing_block, SimpleHTTPRequestHandler.copyfile.
    cbn [stream_data]. cbv zeta.
    destruct Hverb; subst; cbn [String.eqb Ascii.eqb Bool.eqb andb snd wfile];
      rewrite <- ?app_assoc;
      [destruct (Py.nonempty (listing_page fs "/" (cwd ++ "/") names))|];
      reflexivity.
  - unfold Eff.bind at 1.
    rewrite send_error_spec; [|exact Hver|reflexivity|reflexivity].
    unfold Eff.ret. cbv zeta.
    destruct Hverb; subst; cbn [snd wfile parsed command app String.eqb Ascii.eqb
                                 Bool.eqb negb andb]; reflexivity.
Qed.

Lemma root_without_index_listed_witness :
  MyHTTPRequestHandler.finish_request (L := Demo.lib) Listed.fs "/srv/assets"
    [mk_request (request_line "GET" "/" "HTTP/1.1") (Headers [])]
  = [HeaderBlock (listing_block (L := Demo.lib) ("a.png" ++ Py.nl ++ "b.png"));
     Body ("a.png" ++ Py.nl ++ "b.png")].
Proof.
  exact (root_without_index_listed (L := Demo.lib) Listed.fs "/srv/assets" "GET"
           "HTTP/1.1" []
           (mk_url EmptyString EmptyString "/" EmptyString EmptyString)
           (Some ["a.png"; "b.png"]) []
           (or_introl eq_refl) (or_intror eq_refl) eq_refl eq_refl eq_refl
           eq_refl eq_refl).
Defined.

(** ** Versions that are refused *)

Lemma rstrip_line_end (s v : string) :
  is_word v = true ->
  Py.rstrip_chars (s ++ v ++ Py.crlf) Py.crlf = s ++ v.
Proof.
  intros Hv. apply is_word_inv in Hv. destruct Hv as [Hn Hs].
  unfold Py.rstrip_chars.
  replace (s ++ v ++ Py.crlf) with ((s ++ v) ++ Py.crlf)
    by (now rewrite !string_app_assoc).
  rewrite rstrip_by_tail by reflexivity.
  assert (Hkeep : Py.rstrip_by (Py.contains Py.crlf) v = v).
  { apply rstrip_by_absent.
    exact (all_chars_impl _ _ v not_space_not_line_end Hs). }
  rewrite rstrip_by_app; rewrite Hkeep; [reflexivity|exact Hn].
Qed.

Lemma split_ws_three (verb target version : string) :
  is_word verb = true -> is_word target = true -> is_word version = true ->
  Py.split_ws (verb ++ " " ++ target ++ " " ++ version) = [verb; target; version].
Proof.
  intros Hc Ht Hv. apply is_word_inv in Hc, Ht, Hv.
  destruct Hc as [Hcn Hcs], Ht as [Htn Hts], Hv as [Hvn Hvs]. unfold Py.split_ws.
  change (verb ++ " " ++ target ++ " " ++ version)
    with (verb ++ String " " (target ++ String " " version)).
  rewrite split_by_word; [|exact Hcs|reflexivity].
  rewrite split_by_word; [|exact Hts|reflexivity].
  rewrite split_by_last by exact Hvs.
  cbn [filter]. now rewrite Hcn, Htn, Hvn.
Qed.

(** [send_error] on an HTTP/0.9 request: no header is buffered or
    written, only the page. *)
Lemma send_error_http09 {L : Lib} (code : Z) (message explain : option string)
    (h : handler) :
  (request_version h =? "HTTP/0.9") = true ->
  let msg := match message with Some m => m | None => short_message code end in
  let body :=
    error_body code msg
      (match explain with Some x => x | None => explanation code end) in
  BaseHTTPRequestHandler.send_error MyHTTPRequestHandler.end_headers
    code message explain h =
  (Return tt,
   if has_page code
      && (negb (match command h with Some c => c =? "HEAD" | None => false end)
          && Py.nonempty body)
   then set_wfile (wfile h ++ [Body body]) (set_close_connection true h)
   else set_close_connection true h).
Proof.
  intros Hv msg body.
  unfold BaseHTTPRequestHandler.send_error.
  assert (Hr : (let '(shortmsg, longmsg) :=
                  match responses code with
                  | Some r => r
                  | None => ("???", "???")
                  end in (shortmsg, longmsg))
               = (short_message code, explanation code)).
  { unfold short_message, explanation.
    destruct (responses code) as [[short long]|]; reflexivity. }
  destruct (match responses code with Some r => r | None => ("???", "???") end)
    as [shortmsg longmsg].
  injection Hr as -> ->.
  fold msg. fold (has_page code). fold body.
  unfold BaseHTTPRequestHandler.send_response.
  unfold Eff.bind at 1. unfold Eff.bind at 1.
  rewrite send_response_only_spec, Hv. cbn iota beta.
  unfold Eff.bind at 1. rewrite send_header_plain by reflexivity.
  rewrite Hv. cbn iota beta.
  rewrite send_header_plain by reflexivity. rewrite Hv. cbn iota beta.
  unfold Eff.bind at 1. rewrite send_header_close, Hv. cbn iota beta.
  assert (Hv' : (request_version (set_close_connection true h) =? "HTTP/0.9") = true)
    by exact Hv.
  destruct (has_page code).
  - unfold Eff.bind at 1. unfold Eff.bind at 1.
    rewrite send_header_plain by reflexivity. rewrite Hv'. cbn iota beta.
    unfold Eff.bind at 1. rewrite send_header_plain by reflexivity.
    rewrite Hv'. cbn iota beta. unfold Eff.ret at 1.
    unfold Eff.bind at 1. rewrite end_headers_spec, Hv'.
    unfold Eff.bind at 1, Eff.get. cbn [set_close_connection command andb].
    destruct (negb (match command h with Some c => c =? "HEAD" | None => false end)
              && Py.nonempty body); reflexivity.
  - unfold Eff.bind at 1. unfold Eff.ret at 1.
    unfold Eff.bind at 1. rewrite end_headers_spec, Hv'.
    reflexivity.
Qed.

(** X19: a request whose version is 2.0 or higher is refused before the
    version of the request is recorded, so that the answer is written as
    to an HTTP/0.9 client: the page of the 505 error and nothing else, no
    status line and no CORS header. *)
Theorem unsupported_version_without_headers {L : Lib} (fs : filesystem)
    (cwd verb target version base : string) (number : Z * Z)
    (fields : list (string * string)) (rest : list request) :
  is_word verb = true -> is_word target = true -> is_word version = true ->
  BaseHTTPRequestHandler.parse_version version = Some (base, number) ->
  BaseHTTPRequestHandler.pair_ge number (2, 0)%Z = true ->
  (Z.of_nat (String.length (request_line verb target version)) <= 65536)%Z ->
  let body :=
    error_body 505 ("Invalid HTTP version (" ++ base ++ ")") (explanation 505) in
  MyHTTPRequestHandler.finish_request fs cwd
    (mk_request (request_line verb target version) (Headers fields) :: rest)
  = if Py.nonempty body then [Body body] else [].
Proof.
  intros Hc Ht Hw Hver Hge Hlen body.
  unfold MyHTTPRequestHandler.finish_request, MyHTTPRequestHandler.handle,
    MyHTTPRequestHandler.self_do.
  rewrite (handle_first fs _ closes_end_headers).
  unfold BaseHTTPRequestHandler.handle_one_request. cbn [raw_requestline].
  replace (65536 <? Z.of_nat (String.length (request_line verb target version)))%Z
    with false by (symmetry; apply Z.ltb_ge; exact Hlen).
  replace (Py.nonempty (request_line verb target version)) with true.
  2:{ apply is_word_inv in Hc. destruct Hc as [Hc _].
      destruct verb; [discriminate|reflexivity]. }
  cbn [negb]. unfold Eff.bind at 1.
  unfold BaseHTTPRequestHandler.parse_request. cbn [raw_requestline].
  assert (Hline : Py.rstrip_chars (request_line verb target version) Py.crlf
                  = verb ++ " " ++ target ++ " " ++ version).
  { unfold request_line.
    replace (verb ++ " " ++ target ++ " " ++ version ++ Py.crlf)
      with ((verb ++ " " ++ target ++ " ") ++ version ++ Py.crlf)
      by (now rewrite !string_app_assoc).
    rewrite (rstrip_line_end _ version Hw). now rewrite !string_app_assoc. }
  rewrite Hline, (split_ws_three verb target version Hc Ht Hw).
  unfold BaseHTTPRequestHandler.parse_request_version.
  cbn [List.length Nat.eqb Nat.leb List.last]. rewrite Hver, Hge.
  assert (Hp : Py.str_ge BaseHTTPRequestHandler.protocol_version "HTTP/1.1" = false)
    by reflexivity.
  rewrite Hp, Bool.andb_false_r.
  unfold Eff.when.
  do 4 (unfold Eff.bind at 1; cbn [Eff.modify]).
  unfold Eff.bind at 1. unfold Eff.bind at 1. unfold Eff.ret at 1.
  unfold Eff.bind at 1.
  rewrite send_error_http09 by reflexivity.
  unfold Eff.ret. cbv zeta. fold body.
  cbn [has_page Z.leb Z.eqb Z.compare Pos.compare Pos.compare_cont Pos.eqb
       negb orb andb set_requestline set_close_connection set_request_version
       set_command command].
  destruct (Py.nonempty body); reflexivity.
Qed.

Lemma unsupported_version_without_headers_witness :
  MyHTTPRequestHandler.finish_request (L := Demo.lib) Demo.fs "/srv/test3"
    [mk_request (request_line "GET" "/index.html" "HTTP/2.0") (Headers [])]
  = [Body ("505 Invalid HTTP version (2.0)" ++ Py.nl ++ "Cannot fulfill request"
             ++ Py.nl)].
Proof.
  exact (unsupported_version_without_headers (L := Demo.lib) Demo.fs "/srv/test3"
           "GET" "/index.html" "HTTP/2.0" "2.0" (2, 0)%Z [] []
           eq_refl eq_refl eq_refl eq_refl eq_refl
           ltac:(vm_compute; discriminate)).
Defined.

(** ** The diagnostic for a port in use *)

(** X20: when the constructor of line 26 fails, the diagnostic of lines 42
    and 43 is what the process prints exactly when the exception is an
    [OSError] whose error number is 48; the platform has no part in the
    test. So a port in use gets this diagnostic on every platform other
    than Linux, where [EADDRINUSE] is 48. *)
Theorem port_diagnostic_iff_errno_48 {L : Lib} (w : world) (e : exn) :
  startup_error w = Some e ->
  (stdout (trace (snd (run w))) = targeted_diagnostic
   <-> issubclass (e_class e) KeyboardInterrupt = false
       /\ issubclass (e_class e) OSError = true
       /\ e_errno e = Some 48%Z)
  /\ (port_busy w = true -> w_platform w <> Linux ->
      stdout (trace (snd (run w))) = targeted_diagnostic).
Proof.
  intros He.
  assert (Hout : stdout (trace (snd (run w)))
                 = match handled e with Some lines => lines | None => [] end).
  { rewrite (run_startup_error w e He).
    destruct (handled e) as [lines|]; cbn [snd trace]; rewrite !stdout_app;
      cbn [stdout app]; unfold closing; destruct (w_socket_fault w);
      cbn [stdout app]; rewrite ?stdout_prints; reflexivity. }
  assert (Hiff : stdout (trace (snd (run w))) = targeted_diagnostic
                 <-> issubclass (e_class e) KeyboardInterrupt = false
                     /\ issubclass (e_class e) OSError = true
                     /\ e_errno e = Some 48%Z).
  { rewrite Hout. unfold handled.
    destruct (issubclass (e_class e) KeyboardInterrupt).
    - split; [discriminate|]. now intros [Hk _].
    - destruct (issubclass (e_class e) OSError).
      + destruct (e_errno e) as [n|].
        * destruct (Z.eqb_spec n 48) as [->|Hn].
          -- split; [now intros _|reflexivity].
          -- split; [discriminate|]. intros (_ & _ & Hs).
             injection Hs as Hs. contradiction.
        * split; [discriminate|]. now intros (_ & _ & Hs).
      + split; [discriminate|]. now intros (_ & Ho & _). }
  split; [exact Hiff|]. intros Hb Hp. apply Hiff.
  unfold startup_error in He. rewrite Hb in He. injection He as <-.
  unfold address_in_use. cbn [e_class e_errno].
  repeat split. destruct (w_platform w); [contradiction|reflexivity|reflexivity].
Qed.

Lemma port_diagnostic_iff_errno_48_witness :
  (stdout (trace (snd (run (L := Demo.lib) Worlds.macos_port_taken)))
   = targeted_diagnostic
   <-> issubclass OSError KeyboardInterrupt = false
       /\ issubclass OSError OSError = true
       /\ Some (errno.EADDRINUSE Darwin) = Some 48%Z)
  /\ (port_busy Worlds.macos_port_taken = true ->
      w_platform Worlds.macos_port_taken <> Linux ->
      stdout (trace (snd (run (L := Demo.lib) Worlds.macos_port_taken)))
      = targeted_diagnostic).
Proof.
  exact (port_diagnostic_iff_errno_48 (L := Demo.lib) Worlds.macos_port_taken
           (address_in_use Worlds.macos_port_taken) eq_refl).
Defined.

(** ** Requests that the library refuses or fails on *)

(** X21: a request of three words whose version the library cannot read
    (no [HTTP/] in front, not two numbers with a dot between them, or a
    number of more than 4300 digits, which [int] refuses) is answered
    while the handler still has its initial version HTTP/0.9: the page of
    the 400 error and nothing else, no status line and no CORS header. *)
Theorem bad_version_without_headers {L : Lib} (fs : filesystem)
    (cwd verb target version : string) (fields : list (string * string))
    (rest : list request) :
  is_word verb = true -> is_word target = true -> is_word version = true ->
  BaseHTTPRequestHandler.parse_version version = None ->
  (Z.of_nat (String.length (request_line verb target version)) <= 65536)%Z ->
  let body :=
    error_body 400 ("Bad request version (" ++ repr version ++ ")")
      (explanation 400) in
  MyHTTPRequestHandler.finish_request fs cwd
    (mk_request (request_line verb target version) (Headers fields) :: rest)
  = if Py.nonempty body then [Body body] else [].
Proof.
  intros Hc Ht Hw Hver Hlen body.
  unfold MyHTTPRequestHandler.finish_request, MyHTTPRequestHandler.handle,
    MyHTTPRequestHandler.self_do.
  rewrite (handle_first fs _ closes_end_headers).
  unfold BaseHTTPRequestHandler.handle_one_request. cbn [raw_requestline].
  replace (65536 <? Z.of_nat (String.length (request_line verb target version)))%Z
    with false by (symmetry; apply Z.ltb_ge; exact Hlen).
  replace (Py.nonempty (request_line verb target version)) with true.
  2:{ apply is_word_inv in Hc. destruct Hc as [Hc _].
      destruct verb; [discriminate|reflexivity]. }
  cbn [negb]. unfold Eff.bind at 1.
  unfold BaseHTTPRequestHandler.parse_request. cbn [raw_requestline].
  assert (Hline : Py.rstrip_chars (request_line verb target version) Py.crlf
                  = verb ++ " " ++ target ++ " " ++ version).
  { unfold request_line.
    replace (verb ++ " " ++ target ++ " " ++ version ++ Py.crlf)
      with ((verb ++ " " ++ target ++ " ") ++ version ++ Py.crlf)
      by (now rewrite !string_app_assoc).
    rewrite (rstrip_line_end _ version Hw). now rewrite !string_app_assoc. }
  rewrite Hline, (split_ws_three verb target version Hc Ht Hw).
  unfold BaseHTTPRequestHandler.parse_request_version.
  cbn [List.length Nat.eqb Nat.leb List.last]. rewrite Hver.
  do 4 (unfold Eff.bind at 1; cbn [Eff.modify]).
  unfold Eff.bind at 1. unfold Eff.bind at 1.
  rewrite send_error_http09 by reflexivity.
  unfold Eff.ret. cbv zeta. fold body.
  cbn [has_page Z.leb Z.eqb Z.compare Pos.compare Pos.compare_cont Pos.eqb
       negb orb andb set_requestline set_close_connection set_request_version
       set_command command].
  destruct (Py.nonempty body); reflexivity.
Qed.

Lemma bad_version_without_headers_witness :
  BaseHTTPRequestHandler.parse_version Requests.overlong_version = None
  /\ MyHTTPRequestHandler.finish_request (L := Demo.lib) Demo.fs "/srv/test3"
       [mk_request (request_line "GET" "/index.html" Requests.overlong_version)
          (Headers [])]
     = [Body ("400 Bad request version ('" ++ Requests.overlong_version ++ "')"
                ++ Py.nl ++ "Bad request syntax or unsupported method" ++ Py.nl)].
Proof.
  split; [vm_compute; reflexivity|].
  exact (bad_version_without_headers (L := Demo.lib) Demo.fs "/srv/test3"
           "GET" "/index.html" Requests.overlong_version [] []
           eq_refl eq_refl ltac:(vm_compute; reflexivity)
           ltac:(vm_compute; reflexivity) ltac:(vm_compute; discriminate)).
Defined.

(** X22: a GET or HEAD request whose target stands for a path with a null
    character is not answered at all: the path is no directory, [open]
    raises [ValueError] for it, [send_head] catches [OSError] only, and
    the exception leaves the handler before anything is written. *)
Theorem null_byte_request_unanswered {L : Lib} (fs : filesystem)
    (cwd verb target version : string) (words : list string)
    (fields : list (string * string)) (rest : list request) :
  verb = "GET" \/ verb = "HEAD" ->
  words <> [] ->
  Forall (fun word => plain_name word = true) words ->
  is_word target = true ->
  Py.startswith target "//" = false ->
  Py.contains target "?" = false ->
  Py.contains target "#" = false ->
  Py.endswith_char target "/" = false ->
  unquote target = target_of words ->
  Py.contains (descend cwd words) Py.nul = true ->
  version = "HTTP/1.0" \/ version = "HTTP/1.1" ->
  (Z.of_nat (String.length (request_line verb target version)) <= 65536)%Z ->
  MyHTTPRequestHandler.send_head fs (parsed cwd verb target version fields)
  = (Raise (mk_exn ValueError None "embedded null byte"),
     parsed cwd verb target version fields)
  /\ MyHTTPRequestHandler.finish_request fs cwd
       (mk_request (request_line verb target version) (Headers fields) :: rest)
     = [].
Proof.
  intros Hverb Hne Hw Ht Hss Hq Hf He Hu Hnul Hv Hlen.
  assert (Hhead : MyHTTPRequestHandler.send_head fs
                    (parsed cwd verb target version fields)
                  = (Raise (mk_exn ValueError None "embedded null byte"),
                     parsed cwd verb target version fields)).
  { unfold MyHTTPRequestHandler.send_head, SimpleHTTPRequestHandler.send_head.
    unfold Eff.bind at 1, Eff.get.
    cbn [parsed directory SimpleHTTPRequestHandler.self_path path].
    unfold request_path. rewrite Hss.
    rewrite (translate_path_target cwd target words Hne Hw Ht Hq Hf He Hu).
    unfold isdir. rewrite (lookup_nul fs _ Hnul).
    unfold SimpleHTTPRequestHandler.send_head_file.
    rewrite (descend_endswith cwd words Hne Hw).
    unfold open_rb. rewrite Hnul. reflexivity. }
  split; [exact Hhead|].
  assert (Hverb' : is_word verb = true) by (destruct Hverb; subst; reflexivity).
  rewrite finish_request_line; [|exact Hverb'|exact Ht|exact Hv|exact Hlen].
  destruct Hverb; subst verb.
  - change (MyHTTPRequestHandler.self_do fs "GET")
      with (Some (MyHTTPRequestHandler.do_GET fs)).
    unfold MyHTTPRequestHandler.do_GET, SimpleHTTPRequestHandler.do_GET.
    unfold Eff.bind at 1. fold (MyHTTPRequestHandler.send_head fs).
    now rewrite Hhead.
  - change (MyHTTPRequestHandler.self_do fs "HEAD")
      with (Some (MyHTTPRequestHandler.do_HEAD fs)).
    unfold MyHTTPRequestHandler.do_HEAD, SimpleHTTPRequestHandler.do_HEAD.
    unfold Eff.bind at 1. fold (MyHTTPRequestHandler.send_head fs).
    now rewrite Hhead.
Qed.

Lemma null_byte_request_unanswered_witness :
  unquote (L := Demo.lib) "/a%00b" = target_of [String "a" (String Py.nul "b")]
  /\ MyHTTPRequestHandler.finish_request (L := Demo.lib) Demo.fs "/srv/test3"
       [mk_request (request_line "GET" "/a%00b" "HTTP/1.1") (Headers [])]
     = [].
Proof.
  split; [reflexivity|].
  exact (proj2
           (null_byte_request_unanswered (L := Demo.lib) Demo.fs "/srv/test3"
              "GET" "/a%00b" "HTTP/1.1" [String "a" (String Py.nul "b")] [] []
              (or_introl eq_refl) ltac:(discriminate) ltac:(repeat constructor)
              eq_refl eq_refl eq_refl eq_refl eq_refl eq_refl eq_refl
              (or_intror eq_refl) ltac:(vm_compute; discriminate))).
Defined.
